(** * gofid: the Fortifi Open ID codec of [src/gofid.go]

    [src/gofid.go] holds two revisions of package [gofid], one after the
    other, each followed by its tests:

    - lines 1-255, the _indicator-first_ revision: identifiers read
      [IVVVAATT-TTTTTTTTT-LLLLL-RRRRRRR], the time key is the complement
      [maxTimestampValBase10 - ms] padded with ['0'] on the left, and
      [Describe] / [getTimeFromID] decode it (module [IndicatorFirst]);
    - lines 257-460, the _time-first_ revision: identifiers read
      [TTTTTTTTT-IVVVTTSS-LLLLL-RRRRRRR], the time key is the millisecond
      count itself padded with ['='] on the right, decoded by
      [GetTimeFromID]; this revision has no [Describe] (module [TimeFirst]).
      Package [idgen] of [src/unnamed/part_001] is the same codec without
      the checksum.

    A Go [string] is a sequence of bytes: it is modelled as [list ascii].
    The wall clock and the pseudorandom generator are inputs of [Generate]
    (record [Env]).  Run-time panics (slice or index out of range) are an
    explicit outcome of the [go] monad.  MD5 is the real function, checked
    against the test vectors of RFC 1321. *)

From Stdlib Require Import ZArith List String Ascii Bool Lia Arith.
Import ListNotations.

Open Scope Z_scope.

(** ** Go values *)

Definition gostring := list ascii.

Definition str (s : string) : gostring := list_ascii_of_string s.

Definition len (s : gostring) : Z := Z.of_nat (List.length s).

Definition byte_val (c : ascii) : Z := Z.of_N (N_of_ascii c).

Definition byte_of (z : Z) : ascii := ascii_of_N (Z.to_N (z mod 256)).

Definition gostring_eqb (a b : gostring) : bool :=
  if list_eq_dec ascii_dec a b then true else false.

(** The [int64] wrap-around of Go's integer arithmetic. *)
Definition wrap64 (z : Z) : Z := (z + 2 ^ 63) mod 2 ^ 64 - 2 ^ 63.

(** Go's [/] on integers truncates toward zero. *)
Definition go_div (a b : Z) : Z := Z.quot a b.

(** ** Outcomes: a returned value or a run-time panic *)

Inductive go (A : Type) : Type :=
| Done (a : A)
| Panicked (why : string).
Arguments Done {A} a.
Arguments Panicked {A} why.

Definition bind {A B : Type} (m : go A) (k : A -> go B) : go B :=
  match m with
  | Done a => k a
  | Panicked w => Panicked w
  end.

Notation "x <- m ;; k" := (bind m (fun x => k))
  (at level 61, m at next level, right associativity).

(** [s[lo:hi]]: panics unless [0 <= lo <= hi <= len(s)]. *)
Definition slice (s : gostring) (lo hi : Z) : go gostring :=
  if (0 <=? lo) && (lo <=? hi) && (hi <=? len s)
  then Done (firstn (Z.to_nat (hi - lo)) (skipn (Z.to_nat lo) s))
  else Panicked "slice bounds out of range".

(** [s[i]] on a string or a slice: panics unless [0 <= i < len(s)]. *)
Definition index {A : Type} (s : list A) (i : Z) : go A :=
  if i <? 0 then Panicked "index out of range"
  else match nth_error s (Z.to_nat i) with
       | Some c => Done c
       | None => Panicked "index out of range"
       end.

(** ** Errors *)

Inductive strconv_err := ErrSyntax | ErrRange.

Inductive error : Type :=
| ErrorString (msg : string)                                 (* errors.New, fmt.Errorf *)
| NumError (func : string) (num : gostring) (e : strconv_err). (* *strconv.NumError *)

(** ** Package [strings] *)

Definition is_lower (c : ascii) : bool :=
  (97 <=? byte_val c) && (byte_val c <=? 122).

Definition is_upper (c : ascii) : bool :=
  (65 <=? byte_val c) && (byte_val c <=? 90).

Definition is_digit (c : ascii) : bool :=
  (48 <=? byte_val c) && (byte_val c <=? 57).

Definition upper_byte (c : ascii) : ascii :=
  if is_lower c then byte_of (byte_val c - 32) else c.

(** [strings.ToUpper] on ASCII text (the fast path of the Go function);
    bytes above 127 are left alone, so the model is exact on the ASCII
    strings the theorems below are stated for. *)
Definition ToUpper (s : gostring) : gostring := map upper_byte s.


Fixpoint has_prefix (s p : gostring) : bool :=
  match p, s with
  | [], _ => true
  | c :: p', d :: s' => if ascii_dec c d then has_prefix s' p' else false
  | _ :: _, [] => false
  end.

(** [strings.Contains(s, substr)]. *)
Fixpoint Contains (s substr : gostring) : bool :=
  has_prefix s substr ||
  match s with
  | [] => false
  | _ :: s' => Contains s' substr
  end.

(** [strings.Split(s, sep)] for a one-byte separator. *)
Fixpoint Split (s : gostring) (sep : ascii) : list gostring :=
  match s with
  | [] => [[]]
  | c :: s' =>
      if ascii_dec c sep then [] :: Split s' sep
      else match Split s' sep with
           | [] => [[c]]
           | w :: ws => (c :: w) :: ws
           end
  end.

(** [strings.Replace(s, old, new, -1)] for a one-byte [old]. *)
Fixpoint Replace (s : gostring) (old : ascii) (new : gostring) : gostring :=
  match s with
  | [] => []
  | c :: s' => (if ascii_dec c old then new else [c]) ++ Replace s' old new
  end.

(** [strings.Repeat(s, count)]; a negative count panics in Go, the callers
    guard it. *)
Definition Repeat (s : gostring) (count : Z) : gostring :=
  List.concat (repeat s (Z.to_nat count)).

(** ** Package [strconv] *)

Definition digits36 : gostring := str "0123456789abcdefghijklmnopqrstuvwxyz".

Definition digit_char (d : Z) : ascii := nth (Z.to_nat d) digits36 "0"%char.

(** The loop of [formatBits]: the digits of [u] in [base], most significant
    first, written in front of [acc].  Go's buffer has 65 bytes. *)
Fixpoint formatBits (fuel : nat) (base u : Z) (acc : gostring) : gostring :=
  match fuel with
  | O => acc
  | S f =>
      if u <? base then digit_char u :: acc
      else formatBits f base (u / base) (digit_char (u mod base) :: acc)
  end.

(** [strconv.FormatInt(i, base)] for an [int64] [i]. *)
Definition FormatInt (i base : Z) : gostring :=
  if i <? 0 then "-"%char :: formatBits 65 base (- i) []
  else formatBits 65 base i [].

(** The digit value of a byte in [ParseUint]: [None] for a byte that is no
    digit or letter. *)
Definition digit_val (c : ascii) : option Z :=
  if is_digit c then Some (byte_val c - 48)
  else if is_lower c then Some (byte_val c - 97 + 10)
  else if is_upper c then Some (byte_val c - 65 + 10)
  else None.

Definition maxUint64 : Z := 2 ^ 64 - 1.

(** The digit loop of [strconv.ParseUint(s, base, 64)]. *)
Fixpoint parse_digits (base : Z) (s : gostring) (n : Z) : Z + strconv_err :=
  match s with
  | [] => inl n
  | c :: s' =>
      match digit_val c with
      | None => inr ErrSyntax
      | Some d =>
          if base <=? d then inr ErrSyntax
          else if maxUint64 / base + 1 <=? n then inr ErrRange
          else let n1 := n * base + d in
               if maxUint64 <? n1 then inr ErrRange
               else parse_digits base s' n1
      end
  end.

(** [strconv.ParseInt(s, base, 64)] for an explicit base between 2 and 36. *)
Definition ParseInt (s : gostring) (base : Z) : Z * option error :=
  let fail e := (0, Some (NumError "ParseInt" s e)) in
  match s with
  | [] => fail ErrSyntax
  | c :: s' =>
      let neg := if ascii_dec c "-" then true else false in
      let body := if ascii_dec c "+" then s' else if neg then s' else s in
      match body with
      | [] => fail ErrSyntax
      | _ =>
          match parse_digits base body 0 with
          | inr ErrSyntax => fail ErrSyntax
          | inr ErrRange =>
              ((if neg then - 2 ^ 63 else 2 ^ 63 - 1), Some (NumError "ParseInt" s ErrRange))
          | inl un =>
              if negb neg && (2 ^ 63 <=? un)
              then (2 ^ 63 - 1, Some (NumError "ParseInt" s ErrRange))
              else if neg && (2 ^ 63 <? un)
              then (- 2 ^ 63, Some (NumError "ParseInt" s ErrRange))
              else ((if neg then - un else un), None)
          end
      end
  end.

(** ** Package [crypto/md5] and [encoding/hex] *)

Module MD5.

Definition K : list Z :=
  [ 0xd76aa478; 0xe8c7b756; 0x242070db; 0xc1bdceee;
    0xf57c0faf; 0x4787c62a; 0xa8304613; 0xfd469501;
    0x698098d8; 0x8b44f7af; 0xffff5bb1; 0x895cd7be;
    0x6b901122; 0xfd987193; 0xa679438e; 0x49b40821;
    0xf61e2562; 0xc040b340; 0x265e5a51; 0xe9b6c7aa;
    0xd62f105d; 0x02441453; 0xd8a1e681; 0xe7d3fbc8;
    0x21e1cde6; 0xc33707d6; 0xf4d50d87; 0x455a14ed;
    0xa9e3e905; 0xfcefa3f8; 0x676f02d9; 0x8d2a4c8a;
    0xfffa3942; 0x8771f681; 0x6d9d6122; 0xfde5380c;
    0xa4beea44; 0x4bdecfa9; 0xf6bb4b60; 0xbebfbc70;
    0x289b7ec6; 0xeaa127fa; 0xd4ef3085; 0x04881d05;
    0xd9d4d039; 0xe6db99e5; 0x1fa27cf8; 0xc4ac5665;
    0xf4292244; 0x432aff97; 0xab9423a7; 0xfc93a039;
    0x655b59c3; 0x8f0ccc92; 0xffeff47d; 0x85845dd1;
    0x6fa87e4f; 0xfe2ce6e0; 0xa3014314; 0x4e0811a1;
    0xf7537e82; 0xbd3af235; 0x2ad7d2bb; 0xeb86d391 ].

Definition shifts : list Z :=
  [ 7; 12; 17; 22; 7; 12; 17; 22; 7; 12; 17; 22; 7; 12; 17; 22;
    5; 9; 14; 20; 5; 9; 14; 20; 5; 9; 14; 20; 5; 9; 14; 20;
    4; 11; 16; 23; 4; 11; 16; 23; 4; 11; 16; 23; 4; 11; 16; 23;
    6; 10; 15; 21; 6; 10; 15; 21; 6; 10; 15; 21; 6; 10; 15; 21 ].

Definition w32 (z : Z) : Z := z mod 2 ^ 32.

Definition not32 (x : Z) : Z := 2 ^ 32 - 1 - x.

Definition rotl32 (x c : Z) : Z :=
  Z.lor (w32 (Z.shiftl x c)) (Z.shiftr x (32 - c)).

(** A 32-bit word as four bytes, least significant first. *)
Definition le_bytes (w : Z) : list Z :=
  [ w mod 256; (w / 2 ^ 8) mod 256; (w / 2 ^ 16) mod 256; (w / 2 ^ 24) mod 256 ].

Definition le_word (b0 b1 b2 b3 : Z) : Z :=
  b0 + 2 ^ 8 * b1 + 2 ^ 16 * b2 + 2 ^ 24 * b3.

(** The sixteen little-endian words of a 64-byte block. *)
Fixpoint words (n : nat) (bs : list Z) : list Z :=
  match n, bs with
  | S n', b0 :: b1 :: b2 :: b3 :: rest => le_word b0 b1 b2 b3 :: words n' rest
  | _, _ => []
  end.

Record state := St { sa : Z; sb : Z; sc : Z; sd : Z }.

Definition init : state :=
  St 0x67452301 0xefcdab89 0x98badcfe 0x10325476.

Definition step (m : list Z) (st : state) (i : nat) : state :=
  let '(St a b c d) := st in
  let iz := Z.of_nat i in
  let '(f, g) :=
    if iz <? 16 then (Z.lor (Z.land b c) (Z.land (not32 b) d), iz)
    else if iz <? 32 then (Z.lor (Z.land d b) (Z.land (not32 d) c), (5 * iz + 1) mod 16)
    else if iz <? 48 then (Z.lxor (Z.lxor b c) d, (3 * iz + 5) mod 16)
    else (Z.lxor c (Z.lor b (not32 d)), (7 * iz) mod 16) in
  let f' := w32 (f + a + nth i K 0 + nth (Z.to_nat g) m 0) in
  St d (w32 (b + rotl32 f' (nth i shifts 0))) b c.

Definition block (st : state) (bs : list Z) : state :=
  let m := words 16 bs in
  let '(St a b c d) := fold_left (step m) (seq 0 64) st in
  St (w32 (sa st + a)) (w32 (sb st + b)) (w32 (sc st + c)) (w32 (sd st + d)).

(** The message is consumed 64 bytes at a time; [fuel] bounds the number
    of blocks. *)
Fixpoint blocks (fuel : nat) (st : state) (bs : list Z) : state :=
  match fuel, bs with
  | S f, _ :: _ => blocks f (block st (firstn 64 bs)) (skipn 64 bs)
  | _, _ => st
  end.

Definition len_bytes (bits : Z) : list Z :=
  map (fun k => (bits / 2 ^ (8 * Z.of_nat k)) mod 256) (seq 0 8).

Definition pad (msg : list Z) : list Z :=
  let n := Z.of_nat (List.length msg) in
  msg ++ [128] ++ repeat 0 (Z.to_nat ((55 - n) mod 64)) ++ len_bytes ((8 * n) mod 2 ^ 64).

(** [h := md5.New(); h.Write(msg); h.Sum(nil)]: the 16-byte digest. *)
Definition Sum (msg : gostring) : list Z :=
  let bs := pad (map byte_val msg) in
  let st := blocks (S (List.length bs)) init bs in
  le_bytes (sa st) ++ le_bytes (sb st) ++ le_bytes (sc st) ++ le_bytes (sd st).

End MD5.

Definition hextable : gostring := str "0123456789abcdef".

Definition hex_digit (d : Z) : ascii := nth (Z.to_nat d) hextable "0"%char.

(** [hex.EncodeToString]. *)
Definition EncodeToString (bs : list Z) : gostring :=
  flat_map (fun b => [hex_digit (b / 16); hex_digit (b mod 16)]) bs.

(** ** Package [regexp], for patterns of the shape of [idRegex]

    A pattern is a sequence of counted character classes [[..]{n}], literal
    bytes and the end-of-text assertion [\z]; with fixed counts the match
    needs no backtracking. *)

Inductive re_item : Type :=
| ReClass (cls : ascii -> bool) (n : nat)
| ReLit (c : ascii)
| ReEnd.

Definition regex := list re_item.

Fixpoint take_class (cls : ascii -> bool) (n : nat) (s : gostring)
  : option (gostring * gostring) :=
  match n with
  | O => Some ([], s)
  | S n' =>
      match s with
      | c :: s' =>
          if cls c then
            match take_class cls n' s' with
            | Some (m, r) => Some (c :: m, r)
            | None => None
            end
          else None
      | [] => None
      end
  end.

(** The text matched by [re] at the very start of [s], if any. *)
Fixpoint match_here (re : regex) (s : gostring) : option gostring :=
  match re with
  | [] => Some []
  | ReClass cls n :: r =>
      match take_class cls n s with
      | Some (m, rest) => option_map (app m) (match_here r rest)
      | None => None
      end
  | ReLit c :: r =>
      match s with
      | d :: s' => if ascii_dec c d then option_map (cons d) (match_here r s') else None
      | [] => None
      end
  | ReEnd :: r =>
      match s with
      | [] => match_here r []
      | _ :: _ => None
      end
  end.

(** [re.FindStringSubmatch(s)] for a pattern without groups: the leftmost
    match alone, or [nil]. *)
Fixpoint FindStringSubmatch (re : regex) (s : gostring) : list gostring :=
  match match_here re s with
  | Some m => [m]
  | None =>
      match s with
      | [] => []
      | _ :: s' => FindStringSubmatch re s'
      end
  end.

(** The class [[A-Z0-9=]]. *)
Definition id_class (c : ascii) : bool :=
  is_upper c || is_digit c || (if ascii_dec c "=" then true else false).

(** ** The environment of a call and shared pieces of both revisions *)

(** [now] is [time.Now().UnixNano()], an [int64]; [draw i] is the raw value
    behind the [i]-th call of [rand.Intn] after the reseeding. *)
Record Env := mkEnv { now : Z; draw : nat -> Z }.

Definition int64_range (z : Z) : Prop := - 2 ^ 63 <= z < 2 ^ 63.

(** [time.Time]: the zero value [time.Time{}] or [time.Unix(0, nsec)]. *)
Inductive Time : Type :=
| ZeroTime
| UnixTime (nsec : Z).

Definition Millisecond : Z := 1000000.

Definition letterBytes : gostring := str "0123456789ABCDEFGHIJKLMNOPQRSTUVWXYZ".

Definition Intn (e : Env) (i : nat) (n : Z) : Z := draw e i mod n.

(** [getRandString(n)]: [rand.Intn(len(letterBytes))] is always a valid
    index of [letterBytes]. *)
Definition getRandString (e : Env) (n : nat) : gostring :=
  map (fun i => nth (Z.to_nat (Intn e i (len letterBytes))) letterBytes "0"%char) (seq 0 n).

Definition delimitChar : ascii := "-"%char.

Definition IndicatorChecksum : gostring :=
  str "E" ++ str "L" ++ str "C" ++ str "M" ++ str "A" ++ str "F"
  ++ str "T" ++ str "T" ++ str "R" ++ str "N" ++ str "D".

(** [isValidIndicator], the same in both revisions. *)
Definition isValidIndicator (proposed : gostring) : bool :=
  Contains IndicatorChecksum (ToUpper proposed).

(** The keyed checksum both [Generate] and [Verify] compute:
    [strings.ToUpper(string(hexEncoding[0]))] for the MD5 of
    [vendorSecret + text]. *)
Definition checksum (vendorSecret text : gostring) : go gostring :=
  let hexEncoding := EncodeToString (MD5.Sum (vendorSecret ++ text)) in
  c <- index hexEncoding 0 ;;
  Done (ToUpper [c]).

Definition errorsNew (msg : string) : option error := Some (ErrorString msg).

(** ** The time-first revision ([src/gofid.go], lines 257-460) *)

Module TimeFirst.

Definition vendorLength : Z := 3.
Definition typeElementLength : Z := 2.
Definition priLocationLength : Z := 5.
Definition idLength : Z := 32.
Definition timeKeyBase : Z := 36.
Definition randLen : nat := 7.
Definition paddingChar : ascii := "="%char.
Definition idElements : Z := 4.
Definition timeKeyLength : Z := 9.
Definition unknownLocationValue : gostring := str "MISCR".
Definition IndicatorEntity : gostring := str "E".

(** ["[A-Z0-9=]{9}-[A-Z0-9=]{8}-[A-Z0-9=]{5}-[A-Z0-9=]{7}\\z"] *)
Definition idRegex : regex :=
  [ ReClass id_class 9; ReLit "-"; ReClass id_class 8; ReLit "-";
    ReClass id_class 5; ReLit "-"; ReClass id_class 7; ReEnd ].

(** The loop [for index := 0; index < paddingLen; index++]. *)
Fixpoint pad_loop (n : nat) (timeKey : gostring) : gostring :=
  match n with
  | O => timeKey
  | S n' => pad_loop n' (timeKey ++ [paddingChar])
  end.

Definition getBase32TimeKey (nanoTime : Z) : gostring * option error :=
  let miliTime := go_div nanoTime 1000000 in
  let timeKey := ToUpper (FormatInt miliTime timeKeyBase) in
  let paddingLen := (len timeKey - timeKeyLength) * -1 in
  let timeKey := if 0 <? paddingLen then pad_loop (Z.to_nat paddingLen) timeKey else timeKey in
  if paddingLen <? 0 then ([], errorsNew "Invalid time key")
  else (timeKey, None).

Definition Generate (e : Env)
  (systemIndicator vendor nType nSubType priLocation vendorSecret : gostring)
  : go (gostring * option error) :=
  let '(timeKey, err) := getBase32TimeKey (now e) in
  match err with
  | Some _ => Done ([], err)
  | None =>
      let systemIndicator :=
        if negb (isValidIndicator systemIndicator) || (len systemIndicator =? 0)
        then IndicatorEntity else systemIndicator in
      if negb (len vendor =? vendorLength)
      then Done ([], errorsNew "Vendor must be of length '3'")
      else if negb (len nType =? typeElementLength)
      then Done ([], errorsNew "Type must be of length '2'")
      else
        let nSubType := if negb (len nSubType =? typeElementLength) then nType else nSubType in
        let priLocation :=
          if negb (len priLocation =? priLocationLength) then unknownLocationValue
          else priLocation in
        let randomString := getRandString e randLen in
        let preResult :=
          ToUpper (timeKey ++ [delimitChar] ++ systemIndicator ++ vendor ++ nType
                   ++ nSubType ++ [delimitChar] ++ priLocation ++ [delimitChar]
                   ++ randomString) in
        if 0 <? len vendorSecret then
          preResult <- slice preResult 0 (len preResult - 1) ;;
          cs <- checksum vendorSecret preResult ;;
          Done (preResult ++ cs, None)
        else Done (preResult, None)
  end.

Definition Verify (id vendorSecret : gostring) : go (bool * option error) :=
  if negb (len id =? idLength)
  then Done (false, errorsNew "ID is of invalid length")
  else
    let match_ := FindStringSubmatch idRegex id in
    if negb (Z.of_nat (List.length match_) =? 1)
    then Done (false, errorsNew "ID format is invalid")
    else
      let components := Split id delimitChar in
      if negb (Z.of_nat (List.length components) =? idElements)
      then Done (false, errorsNew "Unexpected element count in ID")
      else if negb (gostring_eqb vendorSecret [])
      then
        checkChar <- slice id (len id - 1) (len id) ;;
        idMinusCS <- slice id 0 (len id - 1) ;;
        cs <- checksum vendorSecret idMinusCS ;;
        if negb (gostring_eqb cs checkChar)
        then Done (false, errorsNew "Checksum does not match vendor secret")
        else Done (true, None)
      else Done (true, None).

Definition GetTimeFromID (id : gostring) : go (Time * option error) :=
  v <- Verify id [] ;;
  let '(validate, err) := v in
  if negb validate then Done (ZeroTime, err)
  else
    let components := Split id delimitChar in
    miliseconds <- index components 0 ;;
    let miliseconds := Replace miliseconds paddingChar [] in
    let '(msInt, err) := ParseInt miliseconds 36 in
    match err with
    | Some _ => Done (ZeroTime, err)
    | None => Done (UnixTime (wrap64 (msInt * Millisecond)), None)
    end.

End TimeFirst.

(** ** The indicator-first revision ([src/gofid.go], lines 1-255) *)

Module IndicatorFirst.

Record Description := mkDescription {
  Indicator : gostring;
  VendorKey : gostring;
  App : gostring;
  Type_ : gostring;
  Location : gostring;
  TimeKey : gostring;
  Time_ : Time;
  RandomString : gostring
}.

Definition emptyDescription : Description :=
  mkDescription [] [] [] [] [] [] ZeroTime [].

Definition vendorLength : Z := 3.
Definition appElementLength : Z := 2.
Definition typeElementLength : Z := 2.
Definition priLocationLength : Z := 5.
Definition idLength : Z := 32.
Definition timeKeyBase : Z := 36.
Definition randLen : nat := 7.
Definition idElements : Z := 4.
Definition timeKeyLength : Z := 9.
Definition maxTimestampValBase10 : Z := 101559956668415.
Definition unknownLocationValue : gostring := str "MISCR".
Definition IndicatorEntity : gostring := str "E".

(** ["[A-Z0-9=]{8}-[A-Z0-9=]{9}-[A-Z0-9=]{5}-[A-Z0-9=]{7}\\z"] *)
Definition idRegex : regex :=
  [ ReClass id_class 8; ReLit "-"; ReClass id_class 9; ReLit "-";
    ReClass id_class 5; ReLit "-"; ReClass id_class 7; ReEnd ].

Definition getBase36TimeKey (nanoTime : Z) : gostring * option error :=
  let miliTime := go_div nanoTime 1000000 in
  let revMiliTime := maxTimestampValBase10 - miliTime in
  let timeKey := ToUpper (FormatInt revMiliTime timeKeyBase) in
  let paddingLen := timeKeyLength - len timeKey in
  let timeKey := if 0 <? paddingLen then Repeat (str "0") paddingLen ++ timeKey else timeKey in
  if paddingLen <? 0 then ([], errorsNew "Invalid time key")
  else (timeKey, None).

Definition Generate (e : Env)
  (systemIndicator vendor app nType priLocation vendorSecret : gostring)
  : go (gostring * option error) :=
  let '(timeKey, err) := getBase36TimeKey (now e) in
  match err with
  | Some _ => Done ([], err)
  | None =>
      let systemIndicator :=
        if negb (isValidIndicator systemIndicator) || (len systemIndicator =? 0)
        then IndicatorEntity else systemIndicator in
      if negb (len vendor =? vendorLength)
      then Done ([], errorsNew "Vendor must be of length '3'")
      else if negb (len app =? typeElementLength)
      then Done ([], errorsNew "App must be of length '2'")
      else if negb (len nType =? typeElementLength)
      then Done ([], errorsNew "Type must be of length '2'")
      else
        let priLocation :=
          if negb (len priLocation =? priLocationLength) then unknownLocationValue
          else priLocation in
        let randomString := getRandString e randLen in
        let preResult :=
          ToUpper (systemIndicator ++ vendor ++ app ++ nType ++ [delimitChar]
                   ++ timeKey ++ [delimitChar] ++ priLocation ++ [delimitChar]
                   ++ randomString) in
        if 0 <? len vendorSecret then
          preResult <- slice preResult 0 (len preResult - 1) ;;
          cs <- checksum vendorSecret preResult ;;
          Done (preResult ++ cs, None)
        else Done (preResult, None)
  end.

Definition Verify (id vendorSecret : gostring) : go (bool * option error) :=
  if negb (len id =? idLength)
  then Done (false, errorsNew "ID is of invalid length")
  else
    let match_ := FindStringSubmatch idRegex id in
    if negb (Z.of_nat (List.length match_) =? 1)
    then Done (false, errorsNew "ID format is invalid")
    else
      let components := Split id delimitChar in
      if negb (Z.of_nat (List.length components) =? idElements)
      then Done (false, errorsNew "Unexpected element count in ID")
      else if negb (gostring_eqb vendorSecret [])
      then
        checkChar <- slice id (len id - 1) (len id) ;;
        idMinusCS <- slice id 0 (len id - 1) ;;
        cs <- checksum vendorSecret idMinusCS ;;
        if negb (gostring_eqb cs checkChar)
        then Done (false, errorsNew "Checksum does not match vendor secret")
        else Done (true, None)
      else Done (true, None).

Definition getTimeFromID (id : gostring) : go (Time * option error) :=
  v <- Verify id [] ;;
  let '(validate, err) := v in
  if negb validate then Done (ZeroTime, err)
  else
    let components := Split id delimitChar in
    miliseconds <- index components 1 ;;
    let '(msInt, err) := ParseInt miliseconds 36 in
    match err with
    | Some _ => Done (ZeroTime, err)
    | None =>
        let msSinceEpoch := wrap64 (maxTimestampValBase10 - msInt) in
        let revMs := wrap64 (msSinceEpoch * Millisecond) in
        Done (UnixTime revMs, None)
    end.

Definition Describe (id : gostring) : go (Description * option error) :=
  v <- Verify id [] ;;
  match snd v with
  | Some _ => Done (emptyDescription, snd v)
  | None =>
      let components := Split id delimitChar in
      indicatorCom <- index components 0 ;;
      sysIndicator <- slice indicatorCom 0 1 ;;
      vendorKey <- slice indicatorCom 1 4 ;;
      app <- slice indicatorCom 4 6 ;;
      nType <- slice indicatorCom 6 8 ;;
      location <- index components 2 ;;
      timeKey <- index components 1 ;;
      randStr <- index components 3 ;;
      t <- getTimeFromID id ;;
      match snd t with
      | Some _ => Done (emptyDescription, snd t)
      | None =>
          Done (mkDescription sysIndicator vendorKey app nType location timeKey
                  (fst t) randStr, None)
      end
  end.

End IndicatorFirst.

(** ** Package [idgen] ([src/unnamed/part_001]): the codec before the checksum *)

Module Idgen.

Definition idLength : Z := 32.
Definition timeKeyBase : Z := 36.
Definition randLen : nat := 7.
Definition paddingChar : ascii := "="%char.
Definition idElements : Z := 4.
Definition timeKeyLength : Z := 9.
Definition unknownLocationValue : gostring := str "MISCR".
Definition IndicatorEntity : gostring := str "E".

(** ["[A-Z0-9=]{9}-[A-Z0-9=]{8}-[A-Z0-9=]{5}-[A-Z0-9=]{7}\\z"] *)
Definition idRegex : regex :=
  [ ReClass id_class 9; ReLit "-"; ReClass id_class 8; ReLit "-";
    ReClass id_class 5; ReLit "-"; ReClass id_class 7; ReEnd ].

(** The loop [for index := 0; index < paddingLen; index++]. *)
Fixpoint pad_loop (n : nat) (timeKey : gostring) : gostring :=
  match n with
  | O => timeKey
  | S n' => pad_loop n' (timeKey ++ [paddingChar])
  end.

Definition getBase32TimeKey (nanoTime : Z) : gostring * option error :=
  let miliTime := go_div nanoTime 1000000 in
  let timeKey := ToUpper (FormatInt miliTime timeKeyBase) in
  let paddingLen := (len timeKey - timeKeyLength) * -1 in
  let timeKey := if 0 <? paddingLen then pad_loop (Z.to_nat paddingLen) timeKey else timeKey in
  if paddingLen <? 0 then ([], errorsNew "Invalid time key")
  else (timeKey, None).

Definition New (e : Env)
  (systemIndicator vendor nType nSubType priLocation : gostring)
  : go (gostring * option error) :=
  let '(timeKey, err) := getBase32TimeKey (now e) in
  match err with
  | Some _ => Done ([], err)
  | None =>
      let systemIndicator :=
        if negb (isValidIndicator systemIndicator) || (len systemIndicator =? 0)
        then IndicatorEntity else systemIndicator in
      if negb (len vendor =? 3)
      then Done ([], errorsNew "Vendor must be of length '3'")
      else if negb (len nType =? 2)
      then Done ([], errorsNew "Type must be of length '2'")
      else
        let nSubType := if negb (len nSubType =? 2) then nType else nSubType in
        let priLocation :=
          if negb (len priLocation =? 5) then unknownLocationValue else priLocation in
        let randomString := getRandString e randLen in
        Done (ToUpper (timeKey ++ [delimitChar] ++ systemIndicator ++ vendor ++ nType
                       ++ nSubType ++ [delimitChar] ++ priLocation ++ [delimitChar]
                       ++ randomString), None)
  end.

Definition Validate (id : gostring) : go (bool * option error) :=
  if negb (len id =? idLength)
  then Done (false, errorsNew "ID is of invalid length")
  else
    let match_ := FindStringSubmatch idRegex id in
    if negb (Z.of_nat (List.length match_) =? 1)
    then Done (false, errorsNew "ID format is invalid")
    else
      let components := Split id delimitChar in
      if negb (Z.of_nat (List.length components) =? idElements)
      then Done (false, errorsNew "Unexpected element count in ID")
      else Done (true, None).

Definition GetTimeFromID (id : gostring) : go (Time * option error) :=
  v <- Validate id ;;
  let '(validate, err) := v in
  if negb validate then Done (ZeroTime, err)
  else
    let components := Split id delimitChar in
    miliseconds <- index components 0 ;;
    let miliseconds := Replace miliseconds paddingChar [] in
    let '(msInt, err) := ParseInt miliseconds 36 in
    match err with
    | Some _ => Done (ZeroTime, err)
    | None => Done (UnixTime (wrap64 (msInt * Millisecond)), None)
    end.

End Idgen.

(** ** Auxiliary definitions for the statements *)

(** Case analysis over the 256 bytes. *)
Ltac all_bytes c := destruct c as [[] [] [] [] [] [] [] []].

(** Letters of either case, digits and ['=']: the bytes [ToUpper] sends into
    the class of [idRegex]. *)
Definition field_byte (c : ascii) : bool := id_class (upper_byte c).

Definition field_ok (s : gostring) : bool := forallb field_byte s.

(** The pattern of both revisions: four classes of widths [w1] .. [w4]
    separated by dashes, then the end of the text. *)
Definition seg_regex (w1 w2 w3 w4 : nat) : regex :=
  [ ReClass id_class w1; ReLit "-"; ReClass id_class w2; ReLit "-";
    ReClass id_class w3; ReLit "-"; ReClass id_class w4; ReEnd ].

(** The same layout written as explicit segment checks. *)
Definition segments (w1 w2 w3 w4 : nat) (id a b c d : gostring) : Prop :=
  id = a ++ delimitChar :: b ++ delimitChar :: c ++ delimitChar :: d
  /\ List.length a = w1 /\ List.length b = w2
  /\ List.length c = w3 /\ List.length d = w4
  /\ forallb id_class a = true /\ forallb id_class b = true
  /\ forallb id_class c = true /\ forallb id_class d = true.

(** What [Verify] does once the structure is accepted. *)
Definition checksum_check (id vendorSecret : gostring) : go (bool * option error) :=
  if negb (gostring_eqb vendorSecret [])
  then
    checkChar <- slice id (len id - 1) (len id) ;;
    idMinusCS <- slice id 0 (len id - 1) ;;
    cs <- checksum vendorSecret idMinusCS ;;
    if negb (gostring_eqb cs checkChar)
    then Done (false, errorsNew "Checksum does not match vendor secret")
    else Done (true, None)
  else Done (true, None).

(** The three structural failures of [Verify]. *)
Inductive structural_error : option error -> Prop :=
| InvalidLength : structural_error (errorsNew "ID is of invalid length")
| InvalidFormat : structural_error (errorsNew "ID format is invalid")
| InvalidStructure : structural_error (errorsNew "Unexpected element count in ID").

(** Digits and letters: the bytes [FormatInt] writes. *)
Definition alnum (c : ascii) : bool := is_digit c || is_lower c || is_upper c.

(** A bound under which the digit loop of [ParseUint] meets neither of its
    range checks. *)
Definition cutoff36 : Z := 36 ^ 11.

(** The ten defined indicators. *)
Definition indicators : list gostring :=
  map str ["E"; "L"; "C"; "M"; "A"; "F"; "T"; "R"; "N"; "D"]%string.

(** Four segments joined by the delimiter. *)
Definition assemble (a b c d : gostring) : gostring :=
  a ++ delimitChar :: b ++ delimitChar :: c ++ delimitChar :: d.

(** The location [Generate] embeds: the upper-cased tag when it has five
    bytes, the sentinel otherwise. *)
Definition embedded_location (priLocation : gostring) : gostring :=
  if len priLocation =? 5 then ToUpper priLocation else str "MISCR".

(** Fields of the right widths made of letters, digits and ['=']: the
    inputs on which the generated identifier passes [idRegex]. *)
Record valid_input (ind vendor t1 t2 loc : gostring) : Prop := mkValid {
  vi_ind : In ind indicators;
  vi_vendor : List.length vendor = 3%nat /\ field_ok vendor = true;
  vi_t1 : List.length t1 = 2%nat /\ field_ok t1 = true;
  vi_t2 : List.length t2 = 2%nat /\ field_ok t2 = true;
  vi_loc : (List.length loc = 5%nat \/ loc = []) /\ field_ok loc = true
}.

(** The tail of [Generate], after the identifier text is assembled. *)
Definition seal (preResult vendorSecret : gostring) : go (gostring * option error) :=
  if 0 <? len vendorSecret then
    preResult <- slice preResult 0 (len preResult - 1) ;;
    cs <- checksum vendorSecret preResult ;;
    Done (preResult ++ cs, None)
  else Done (preResult, None).

(** An instant in November 2023 and a fixed stream of draws. *)
Definition sample_env : Env :=
  mkEnv 1700000000123456789 (fun i => Z.of_nat (7 * i + 3) * 11).

Ltac valid_fields :=
  constructor; vm_compute; repeat split; auto 12.

(** The structural rule in the spec's words, position by position: 32
    bytes, a dash at offsets 9, 18 and 24, and a byte of [[A-Z0-9=]]
    everywhere else. *)
Definition delimiter_offset (i : nat) : bool :=
  Nat.eqb i 9 || Nat.eqb i 18 || Nat.eqb i 24.

Definition canonical_byte (ic : nat * ascii) : bool :=
  if delimiter_offset (fst ic) then Ascii.eqb (snd ic) delimitChar
  else id_class (snd ic).

Definition canonical (id : gostring) : bool :=
  Nat.eqb (List.length id) 32
  && forallb canonical_byte (combine (seq 0 32) id).

Tactic Notation "explode" ident(l) integer(n) :=
  do n (destruct l as [|? l]; [discriminate|]);
  destruct l; [|discriminate].

Ltac split_andb H :=
  repeat (let H' := fresh "Hc" in
          apply andb_prop in H; destruct H as [H' H]).

Ltac use_class_hyps :=
  repeat match goal with
         | H : id_class ?x = true |- _ => rewrite H; clear H
         end.

(** The value of one base-36 digit. *)
Definition b36 (c : ascii) : Z :=
  match digit_val c with
  | Some d => d
  | None => 0
  end.

(** The value of a digit string in base 36, most significant digit first. *)
Definition base36_value (s : gostring) : Z :=
  fold_left (fun n c => n * 36 + b36 c) s 0.

(** Every byte but the pad. *)
Definition not_pad (c : ascii) : bool := negb (Ascii.eqb c TimeFirst.paddingChar).

(** [Generate] of the time-first revision, with its three defaults named. *)
Definition default_indicator (systemIndicator : gostring) : gostring :=
  if negb (isValidIndicator systemIndicator) || (len systemIndicator =? 0)
  then TimeFirst.IndicatorEntity else systemIndicator.

Definition default_subtype (nType nSubType : gostring) : gostring :=
  if negb (len nSubType =? TimeFirst.typeElementLength) then nType else nSubType.

Definition default_location (priLocation : gostring) : gostring :=
  if negb (len priLocation =? TimeFirst.priLocationLength)
  then TimeFirst.unknownLocationValue else priLocation.

(** The bytes [0-9A-F]. *)
Definition is_upper_hex (c : ascii) : bool :=
  is_digit c || ((65 <=? byte_val c) && (byte_val c <=? 70)).

(** The structural rule of the indicator-first revision, position by
    position: 32 bytes, a dash at offsets 8, 18 and 24, and a byte of
    [[A-Z0-9=]] everywhere else. *)
Definition delimiter_offset_indicator_first (i : nat) : bool :=
  Nat.eqb i 8 || Nat.eqb i 18 || Nat.eqb i 24.

Definition canonical_indicator_first (id : gostring) : bool :=
  Nat.eqb (List.length id) 32
  && forallb (fun ic : nat * ascii =>
                if delimiter_offset_indicator_first (fst ic)
                then Ascii.eqb (snd ic) delimitChar
                else id_class (snd ic))
       (combine (seq 0 32) id).

(** Go's [<] on strings: byte-wise lexicographic order. *)
Fixpoint bytes_lt (a b : gostring) : bool :=
  match a, b with
  | _, [] => false
  | [], _ :: _ => true
  | x :: a', y :: b' =>
      (byte_val x <? byte_val y) || ((byte_val x =? byte_val y) && bytes_lt a' b')
  end.

(** * Properties *)

(** ** Test vectors (RFC 1321) *)

Example md5_empty :
  EncodeToString (MD5.Sum []) = str "d41d8cd98f00b204e9800998ecf8427e".
Proof. vm_compute. reflexivity. Qed.

Example md5_abc :
  EncodeToString (MD5.Sum (str "abc")) = str "900150983cd24fb0d6963f7d28e17f72".
Proof. vm_compute. reflexivity. Qed.

Example md5_two_blocks :
  EncodeToString (MD5.Sum (repeat "a"%char 64)) = str "014842d480b571495a4a0363793f7367".
Proof. vm_compute. reflexivity. Qed.

(** ** Bytes and classes *)

Lemma range_forallb (P : Z -> bool) (n : nat) :
  forallb P (map Z.of_nat (seq 0 n)) = true ->
  forall d, 0 <= d < Z.of_nat n -> P d = true.
Proof.
  intros H d Hd.
  rewrite forallb_forall in H. apply H.
  apply in_map_iff. exists (Z.to_nat d). split; [lia|].
  apply in_seq. lia.
Qed.

Lemma id_class_not_delim c : id_class c = true -> c <> delimitChar.
Proof. all_bytes c; vm_compute; congruence. Qed.

Lemma id_class_upper c : id_class c = true -> upper_byte c = c.
Proof. all_bytes c; vm_compute; congruence. Qed.

Lemma upper_byte_idem c : upper_byte (upper_byte c) = upper_byte c.
Proof. all_bytes c; vm_compute; reflexivity. Qed.

Lemma ToUpper_app a b : ToUpper (a ++ b) = ToUpper a ++ ToUpper b.
Proof. apply map_app. Qed.

Lemma ToUpper_length a : List.length (ToUpper a) = List.length a.
Proof. apply length_map. Qed.

Lemma ToUpper_class a : forallb id_class a = true -> ToUpper a = a.
Proof.
  induction a as [|c a IH]; simpl; [reflexivity|].
  intros H. apply andb_prop in H. destruct H as [Hc Ha].
  rewrite (id_class_upper c Hc), (IH Ha). reflexivity.
Qed.

Lemma field_ok_class a : field_ok a = true -> forallb id_class (ToUpper a) = true.
Proof.
  induction a as [|c a IH]; simpl; [reflexivity|].
  intros H. apply andb_prop in H. destruct H as [Hc Ha].
  unfold field_byte in Hc. rewrite Hc. simpl. exact (IH Ha).
Qed.

Lemma ToUpper_idem a : ToUpper (ToUpper a) = ToUpper a.
Proof.
  unfold ToUpper. rewrite map_map. apply map_ext. apply upper_byte_idem.
Qed.

(** ** Slices *)

Lemma len_app a b : len (a ++ b) = len a + len b.
Proof. unfold len. rewrite length_app. lia. Qed.

Lemma slice_init (a : gostring) (c : ascii) :
  slice (a ++ [c]) 0 (len (a ++ [c]) - 1) = Done a.
Proof.
  unfold slice. rewrite len_app. unfold len; simpl List.length.
  replace (0 <=? 0) with true by reflexivity.
  destruct (Z.leb_spec 0 (Z.of_nat (List.length a) + Z.of_nat 1 - 1)); [|lia].
  destruct (Z.leb_spec (Z.of_nat (List.length a) + Z.of_nat 1 - 1)
              (Z.of_nat (List.length a) + Z.of_nat 1)); [|lia].
  simpl andb. f_equal.
  replace (Z.to_nat (Z.of_nat (List.length a) + Z.of_nat 1 - 1 - 0)) with (List.length a) by lia.
  simpl skipn. rewrite firstn_app, firstn_all, Nat.sub_diag. simpl.
  rewrite app_nil_r. reflexivity.
Qed.

Lemma slice_last (a : gostring) (c : ascii) :
  slice (a ++ [c]) (len (a ++ [c]) - 1) (len (a ++ [c])) = Done [c].
Proof.
  unfold slice. rewrite len_app. unfold len; simpl List.length.
  destruct (Z.leb_spec 0 (Z.of_nat (List.length a) + Z.of_nat 1 - 1)); [|lia].
  destruct (Z.leb_spec (Z.of_nat (List.length a) + Z.of_nat 1 - 1)
              (Z.of_nat (List.length a) + Z.of_nat 1)); [|lia].
  destruct (Z.leb_spec (Z.of_nat (List.length a) + Z.of_nat 1)
              (Z.of_nat (List.length a) + Z.of_nat 1)); [|lia].
  simpl andb. f_equal.
  replace (Z.to_nat (Z.of_nat (List.length a) + Z.of_nat 1 - 1)) with (List.length a) by lia.
  replace (Z.to_nat _) with 1%nat by lia.
  rewrite skipn_app, skipn_all, Nat.sub_diag. reflexivity.
Qed.

(** ** The checksum byte *)

Lemma hex_digit_upper_class d :
  0 <= d < 16 -> id_class (upper_byte (hex_digit d)) = true.
Proof.
  apply (range_forallb (fun d => id_class (upper_byte (hex_digit d))) 16).
  vm_compute. reflexivity.
Qed.

Lemma checksum_byte (vendorSecret text : gostring) :
  exists c, checksum vendorSecret text = Done [c] /\ id_class c = true.
Proof.
  unfold checksum, MD5.Sum.
  set (st := MD5.blocks _ _ _).
  unfold MD5.le_bytes at 1.
  cbn [app EncodeToString flat_map index nth_error Z.to_nat bind].
  replace (0 <? 0) with false by reflexivity.
  cbn [ToUpper map].
  eexists. split; [reflexivity|].
  apply hex_digit_upper_class.
  assert (0 <= MD5.sa st mod 256 < 256) by (apply Z.mod_pos_bound; lia).
  split; [apply Z.div_pos; lia | apply Z.div_lt_upper_bound; lia].
Qed.

(** ** Matching a four-segment pattern *)

Lemma take_class_app cls (a b : gostring) :
  forallb cls a = true -> take_class cls (List.length a) (a ++ b) = Some (a, b).
Proof.
  induction a as [|c a IH]; simpl; [reflexivity|].
  intros H. apply andb_prop in H. destruct H as [Hc Ha].
  rewrite Hc, (IH Ha). reflexivity.
Qed.

Lemma take_class_inv cls n s m r :
  take_class cls n s = Some (m, r) ->
  s = m ++ r /\ List.length m = n /\ forallb cls m = true.
Proof.
  revert s m r. induction n as [|n IH]; simpl; intros s m r H.
  - inversion H; subst. auto.
  - destruct s as [|c s]; [discriminate|].
    destruct (cls c) eqn:Hc; [|discriminate].
    destruct (take_class cls n s) as [[m' r']|] eqn:Ht; [|discriminate].
    inversion H; subst. destruct (IH _ _ _ Ht) as (-> & Hl & Hf).
    simpl. rewrite Hc, Hl, Hf. auto.
Qed.

Lemma match_segments w1 w2 w3 w4 id a b c d :
  segments w1 w2 w3 w4 id a b c d ->
  match_here (seg_regex w1 w2 w3 w4) id = Some id.
Proof.
  intros (-> & <- & <- & <- & <- & Ha & Hb & Hc & Hd).
  unfold seg_regex, delimitChar. cbn [match_here].
  rewrite (take_class_app _ a _ Ha).
  destruct (ascii_dec "-" "-") as [_|n]; [|congruence].
  rewrite (take_class_app _ b _ Hb).
  rewrite (take_class_app _ c _ Hc).
  pose proof (take_class_app id_class d [] Hd) as H4.
  rewrite app_nil_r in H4. rewrite H4.
  cbn [option_map]. rewrite app_nil_r. reflexivity.
Qed.

Lemma match_segments_inv w1 w2 w3 w4 id m :
  match_here (seg_regex w1 w2 w3 w4) id = Some m ->
  m = id /\ exists a b c d, segments w1 w2 w3 w4 id a b c d.
Proof.
  unfold seg_regex. cbn [match_here]. intros H.
  destruct (take_class id_class w1 id) as [[a r1]|] eqn:H1; [|discriminate].
  destruct r1 as [|x1 r1]; [discriminate|].
  destruct (ascii_dec "-" x1) as [<-|]; [|discriminate].
  destruct (take_class id_class w2 r1) as [[b r2]|] eqn:H2; [|discriminate].
  destruct r2 as [|x2 r2]; [discriminate|].
  destruct (ascii_dec "-" x2) as [<-|]; [|discriminate].
  destruct (take_class id_class w3 r2) as [[c r3]|] eqn:H3; [|discriminate].
  destruct r3 as [|x3 r3]; [discriminate|].
  destruct (ascii_dec "-" x3) as [<-|]; [|discriminate].
  destruct (take_class id_class w4 r3) as [[d r4]|] eqn:H4; [|discriminate].
  destruct r4 as [|x4 r4]; [|discriminate].
  cbn [option_map] in H. inversion H; subst m; clear H.
  apply take_class_inv in H1, H2, H3, H4.
  destruct H1 as (-> & L1 & C1), H2 as (-> & L2 & C2),
           H3 as (-> & L3 & C3), H4 as (E4 & L4 & C4).
  rewrite app_nil_r in E4. subst r3.
  split; [rewrite app_nil_r; reflexivity|].
  exists a, b, c, d. unfold segments, delimitChar. repeat split; assumption.
Qed.

Lemma segments_length w1 w2 w3 w4 id a b c d :
  segments w1 w2 w3 w4 id a b c d ->
  List.length id = (w1 + w2 + w3 + w4 + 3)%nat.
Proof.
  intros (-> & <- & <- & <- & <- & _).
  repeat (rewrite length_app || cbn [List.length]). lia.
Qed.

Lemma Find_first re s : match_here re s = Some s -> FindStringSubmatch re s = [s].
Proof. intros H. destruct s; simpl; rewrite H; reflexivity. Qed.

Lemma Find_inv re s :
  FindStringSubmatch re s <> [] ->
  exists pre s' m, s = pre ++ s' /\ match_here re s' = Some m.
Proof.
  induction s as [|c s IH]; simpl.
  - destruct (match_here re []) eqn:H; [|congruence].
    intros _. exists [], [], g. auto.
  - destruct (match_here re (c :: s)) eqn:H.
    + intros _. exists [], (c :: s), g. auto.
    + intros Hn. destruct (IH Hn) as (pre & s' & m & -> & Hm).
      exists (c :: pre), s', m. auto.
Qed.

(** On a text of exactly the pattern's length the search can only succeed
    at offset 0: the pattern is as good as anchored at both ends. *)
Lemma Find_segments w1 w2 w3 w4 id :
  List.length id = (w1 + w2 + w3 + w4 + 3)%nat ->
  FindStringSubmatch (seg_regex w1 w2 w3 w4) id <> [] ->
  exists a b c d, segments w1 w2 w3 w4 id a b c d.
Proof.
  intros Hl Hn. destruct (Find_inv _ _ Hn) as (pre & s' & m & E & Hm).
  apply match_segments_inv in Hm. destruct Hm as (_ & a & b & c & d & Hs).
  pose proof (segments_length _ _ _ _ _ _ _ _ _ Hs) as Hl'.
  subst id. rewrite length_app in Hl.
  destruct pre; [|simpl in Hl; lia].
  exists a, b, c, d. exact Hs.
Qed.

(** ** Splitting at the dashes *)

Lemma Split_nonempty s sep : Split s sep <> [].
Proof.
  induction s as [|c s IH]; simpl; [congruence|].
  destruct (ascii_dec c sep); [congruence|].
  destruct (Split s sep); congruence.
Qed.

Lemma Split_app a r :
  forallb id_class a = true ->
  Split (a ++ delimitChar :: r) delimitChar = a :: Split r delimitChar.
Proof.
  induction a as [|c a IH]; simpl; intros H.
  - destruct (ascii_dec delimitChar delimitChar); [reflexivity|congruence].
  - apply andb_prop in H. destruct H as [Hc Ha].
    destruct (ascii_dec c delimitChar) as [E|_];
      [exfalso; exact (id_class_not_delim c Hc E)|].
    rewrite (IH Ha). reflexivity.
Qed.

Lemma Split_last a :
  forallb id_class a = true -> Split a delimitChar = [a].
Proof.
  induction a as [|c a IH]; simpl; intros H; [reflexivity|].
  apply andb_prop in H. destruct H as [Hc Ha].
  destruct (ascii_dec c delimitChar) as [E|_];
    [exfalso; exact (id_class_not_delim c Hc E)|].
  rewrite (IH Ha). reflexivity.
Qed.

Lemma Split_segments w1 w2 w3 w4 id a b c d :
  segments w1 w2 w3 w4 id a b c d -> Split id delimitChar = [a; b; c; d].
Proof.
  intros (-> & _ & _ & _ & _ & Ha & Hb & Hc & Hd).
  rewrite (Split_app a _ Ha), (Split_app b _ Hb), (Split_app c _ Hc), (Split_last d Hd).
  reflexivity.
Qed.

(** ** [Verify] as explicit segment checks *)

Lemma gostring_eqb_refl a : gostring_eqb a a = true.
Proof. unfold gostring_eqb. destruct (list_eq_dec ascii_dec a a); congruence. Qed.

Lemma gostring_eqb_eq a b : gostring_eqb a b = true <-> a = b.
Proof. unfold gostring_eqb. destruct (list_eq_dec ascii_dec a b); split; congruence. Qed.

Lemma TimeFirst_Verify_segments id a b c d vendorSecret :
  segments 9 8 5 7 id a b c d ->
  TimeFirst.Verify id vendorSecret = checksum_check id vendorSecret.
Proof.
  intros Hs. unfold TimeFirst.Verify.
  pose proof (segments_length _ _ _ _ _ _ _ _ _ Hs) as Hl.
  unfold len. rewrite Hl. cbn [Nat.add Z.of_nat]. 
  replace (Z.of_nat 32 =? TimeFirst.idLength) with true by reflexivity.
  cbn [negb].
  change TimeFirst.idRegex with (seg_regex 9 8 5 7).
  rewrite (Find_first _ _ (match_segments _ _ _ _ _ _ _ _ _ Hs)).
  rewrite (Split_segments _ _ _ _ _ _ _ _ _ Hs).
  cbn [List.length]. 
  replace (Z.of_nat 1 =? 1) with true by reflexivity.
  replace (Z.of_nat 4 =? TimeFirst.idElements) with true by reflexivity.
  cbn [negb]. unfold checksum_check, len. rewrite Hl. reflexivity.
Qed.

Lemma IndicatorFirst_Verify_segments id a b c d vendorSecret :
  segments 8 9 5 7 id a b c d ->
  IndicatorFirst.Verify id vendorSecret = checksum_check id vendorSecret.
Proof.
  intros Hs. unfold IndicatorFirst.Verify.
  pose proof (segments_length _ _ _ _ _ _ _ _ _ Hs) as Hl.
  unfold len. rewrite Hl. cbn [Nat.add Z.of_nat]. 
  replace (Z.of_nat 32 =? IndicatorFirst.idLength) with true by reflexivity.
  cbn [negb].
  change IndicatorFirst.idRegex with (seg_regex 8 9 5 7).
  rewrite (Find_first _ _ (match_segments _ _ _ _ _ _ _ _ _ Hs)).
  rewrite (Split_segments _ _ _ _ _ _ _ _ _ Hs).
  cbn [List.length]. 
  replace (Z.of_nat 1 =? 1) with true by reflexivity.
  replace (Z.of_nat 4 =? IndicatorFirst.idElements) with true by reflexivity.
  cbn [negb]. unfold checksum_check, len. rewrite Hl. reflexivity.
Qed.

Lemma TimeFirst_Verify_reject id vendorSecret :
  (forall a b c d, ~ segments 9 8 5 7 id a b c d) ->
  exists err, TimeFirst.Verify id vendorSecret = Done (false, err)
              /\ structural_error err.
Proof.
  intros Hn. unfold TimeFirst.Verify.
  destruct (len id =? TimeFirst.idLength) eqn:Hl; cbn [negb].
  - destruct (FindStringSubmatch TimeFirst.idRegex id) as [|m ms] eqn:Hf.
    + cbn. eexists; split; [reflexivity|constructor].
    + exfalso. apply Z.eqb_eq in Hl. unfold len, TimeFirst.idLength in Hl.
      destruct (Find_segments 9 8 5 7 id) as (a & b & c & d & Hs).
      * cbn. lia.
      * change (seg_regex 9 8 5 7) with TimeFirst.idRegex. rewrite Hf. congruence.
      * exact (Hn _ _ _ _ Hs).
  - eexists; split; [reflexivity|constructor].
Qed.

(** ** Base-36 formatting and parsing *)

Lemma alnum_upper c : alnum c = true -> alnum (upper_byte c) = true.
Proof. all_bytes c; vm_compute; congruence. Qed.

Lemma alnum_class c : alnum c = true -> id_class (upper_byte c) = true.
Proof. all_bytes c; vm_compute; congruence. Qed.

Lemma alnum_not_pad c : alnum c = true -> upper_byte c <> "="%char.
Proof. all_bytes c; vm_compute; congruence. Qed.

Lemma alnum_not_sign c :
  alnum c = true -> upper_byte c <> "-"%char /\ upper_byte c <> "+"%char.
Proof. all_bytes c; vm_compute; split; congruence. Qed.

Lemma digit_char_alnum d : 0 <= d < 36 -> alnum (digit_char d) = true.
Proof.
  apply (range_forallb (fun d => alnum (digit_char d)) 36).
  vm_compute. reflexivity.
Qed.

Lemma digit_val_char d :
  0 <= d < 36 -> digit_val (upper_byte (digit_char d)) = Some d.
Proof.
  intros Hd.
  pose proof (range_forallb
    (fun d => match digit_val (upper_byte (digit_char d)) with
              | Some x => x =? d
              | None => false
              end) 36 eq_refl d Hd) as H.
  cbv beta in H.
  destruct (digit_val (upper_byte (digit_char d))); [|discriminate].
  apply Z.eqb_eq in H. congruence.
Qed.

Lemma parse_digits_step c d rest n :
  digit_val c = Some d -> 0 <= d < 36 -> 0 <= n -> n * 36 + d < cutoff36 ->
  parse_digits 36 (c :: rest) n = parse_digits 36 rest (n * 36 + d).
Proof.
  intros Hc Hd Hn Hb. cbn [parse_digits]. rewrite Hc.
  unfold cutoff36 in Hb.
  destruct (Z.leb_spec 36 d); [lia|].
  change (maxUint64 / 36 + 1) with 512409557603043101.
  change maxUint64 with 18446744073709551615.
  change (36 ^ 11) with 131621703842267136 in Hb.
  destruct (Z.leb_spec 512409557603043101 n); [lia|].
  cbv zeta.
  destruct (Z.ltb_spec 18446744073709551615 (n * 36 + d)); [lia|].
  reflexivity.
Qed.

(** [formatBits] writes at least one digit, no more digits than the
    magnitude of [u] needs, and [parse_digits] reads the number back. *)
Lemma formatBits_spec fuel : forall u acc,
  (1 <= fuel)%nat ->
  0 <= u < 36 ^ Z.of_nat fuel ->
  exists ds,
    formatBits fuel 36 u acc = ds ++ acc
    /\ ds <> []
    /\ forallb alnum ds = true
    /\ (forall k, (1 <= k)%nat -> u < 36 ^ Z.of_nat k -> (List.length ds <= k)%nat)
    /\ (forall n rest, 0 <= n ->
          n * 36 ^ Z.of_nat (List.length ds) + u < cutoff36 ->
          parse_digits 36 (ToUpper ds ++ rest) n
          = parse_digits 36 rest (n * 36 ^ Z.of_nat (List.length ds) + u)).
Proof.
  induction fuel as [|f IH]; intros u acc Hf Hu.
  - lia.
  - cbn [formatBits]. destruct (Z.ltb_spec u 36) as [Hlt|Hge].
    + exists [digit_char u]. split; [reflexivity|]. split; [congruence|].
      split; [cbn [forallb]; rewrite digit_char_alnum by lia; reflexivity|].
      split; [intros k Hk _; cbn [List.length]; lia|].
      intros n rest Hn Hb. cbn [ToUpper map app List.length] in *.
      change (36 ^ Z.of_nat 1) with 36 in *.
      apply parse_digits_step; [apply digit_val_char; lia|lia|lia|lia].
    + assert (Hq : 0 <= u / 36 < 36 ^ Z.of_nat f).
      { split; [apply Z.div_pos; lia|].
        apply Z.div_lt_upper_bound; [lia|].
        rewrite Nat2Z.inj_succ, Z.pow_succ_r in Hu by lia. lia. }
      assert (Hf1 : (1 <= f)%nat).
      { destruct f; [|lia]. change (36 ^ Z.of_nat 1) with 36 in Hu. lia. }
      destruct (IH (u / 36) (digit_char (u mod 36) :: acc) Hf1 Hq)
        as (ds & E & Hne & Hal & Hlen & Hparse).
      assert (Hm : 0 <= u mod 36 < 36) by (apply Z.mod_pos_bound; lia).
      exists (ds ++ [digit_char (u mod 36)]).
      split; [rewrite E, <- app_assoc; reflexivity|].
      split; [destruct ds; discriminate|].
      split; [rewrite forallb_app, Hal; cbn [forallb];
              rewrite digit_char_alnum by lia; reflexivity|].
      split.
      * intros k Hk Huk. rewrite length_app. cbn [List.length].
        destruct k as [|k]; [lia|]. destruct k as [|k].
        { change (36 ^ Z.of_nat 1) with 36 in Huk. lia. }
        assert ((List.length ds <= S k)%nat); [|lia].
        apply Hlen; [lia|].
        apply Z.div_lt_upper_bound; [lia|].
        rewrite (Nat2Z.inj_succ (S k)), Z.pow_succ_r in Huk by lia. lia.
      * intros n rest Hn Hb.
        rewrite length_app in *. cbn [List.length] in *.
        rewrite Nat2Z.inj_add in *. change (Z.of_nat 1) with 1 in *.
        rewrite Z.pow_add_r in * by lia. change (36 ^ 1) with 36 in *.
        rewrite ToUpper_app, <- app_assoc. cbn [ToUpper map app].
        assert (Hp : 0 <= 36 ^ Z.of_nat (List.length ds)) by (apply Z.pow_nonneg; lia).
        pose proof (Z.div_mod u 36 ltac:(lia)) as Hdm.
        rewrite Hparse; [|lia|nia].
        rewrite (parse_digits_step _ (u mod 36)); [|apply digit_val_char; lia|lia|nia|nia].
        f_equal. nia.
Qed.

Lemma FormatInt_spec ms :
  0 <= ms < 36 ^ 9 ->
  exists ds,
    ToUpper (FormatInt ms 36) = ds
    /\ ds <> [] /\ (List.length ds <= 9)%nat
    /\ forallb id_class ds = true
    /\ Replace ds "="%char [] = ds
    /\ (forall zeros, parse_digits 36 (repeat "0"%char zeros ++ ds) 0 = inl ms)
    /\ (forall c rest, ds = c :: rest -> c <> "-"%char /\ c <> "+"%char).
Proof.
  intros Hms. unfold FormatInt.
  destruct (Z.ltb_spec ms 0); [lia|].
  assert (Hr : 0 <= ms < 36 ^ Z.of_nat 65).
  { split; [lia|]. eapply Z.lt_le_trans; [apply Hms|]. apply Z.pow_le_mono_r; lia. }
  destruct (formatBits_spec 65 ms [] ltac:(lia) Hr) as (ds & E & Hne & Hal & Hlen & Hparse).
  rewrite E, app_nil_r. exists (ToUpper ds).
  split; [reflexivity|].
  split; [destruct ds; [congruence|discriminate]|].
  split; [rewrite ToUpper_length; apply Hlen; [lia|apply Hms]|].
  assert (Hcls : forall l, forallb alnum l = true ->
            forallb id_class (ToUpper l) = true
            /\ Replace (ToUpper l) "="%char [] = ToUpper l).
  { induction l as [|c l IHl]; cbn; [auto|]. intros H'.
    apply andb_prop in H'. destruct H' as [Hc Hl].
    destruct (IHl Hl) as [I1 I2]. rewrite (alnum_class c Hc). cbn. split; [exact I1|].
    destruct (ascii_dec (upper_byte c) "=") as [E'|_];
      [exfalso; exact (alnum_not_pad c Hc E')|].
    cbn. unfold ToUpper in I2. rewrite I2. reflexivity. }
  destruct (Hcls ds Hal) as [H1 H2].
  split; [exact H1|]. split; [exact H2|].
  split.
  - intros zeros. induction zeros as [|z IHz].
    + cbn [repeat app].
      pose proof (Hparse 0 [] ltac:(lia)) as Hp. rewrite app_nil_r in Hp.
      rewrite Hp; [cbn [parse_digits]; f_equal; lia|].
      unfold cutoff36. cbn [Z.mul].
      eapply Z.lt_trans; [apply Hms|]. reflexivity.
    + cbn [repeat app].
      rewrite (parse_digits_step _ 0); [exact IHz|reflexivity|lia|lia|reflexivity].
  - intros c rest Ec. destruct ds as [|c0 ds0]; [congruence|].
    cbn [ToUpper map] in Ec. inversion Ec; subst.
    cbn [forallb] in Hal. apply andb_prop in Hal.
    apply alnum_not_sign. tauto.
Qed.

Lemma ParseInt_digits ds v :
  ds <> [] ->
  (forall c rest, ds = c :: rest -> c <> "-"%char /\ c <> "+"%char) ->
  parse_digits 36 ds 0 = inl v -> 0 <= v < 2 ^ 63 ->
  ParseInt ds 36 = (v, None).
Proof.
  intros Hne Hsign Hp Hv. unfold ParseInt.
  destruct ds as [|c rest]; [congruence|].
  destruct (Hsign c rest eq_refl) as [Hm Hpl].
  destruct (ascii_dec c "-"); [congruence|].
  destruct (ascii_dec c "+"); [congruence|].
  rewrite Hp. cbn [negb andb].
  destruct (Z.leb_spec (2 ^ 63) v); [lia|]. reflexivity.
Qed.

(** ** Time keys *)

Lemma millis_bound t :
  0 <= t < 2 ^ 63 ->
  go_div t 1000000 = t / 1000000 /\ 0 <= t / 1000000 < 9223372036855.
Proof.
  intros Ht. unfold go_div. rewrite Z.quot_div_nonneg by lia.
  split; [reflexivity|].
  split; [apply Z.div_pos; lia|].
  apply Z.div_lt_upper_bound; lia.
Qed.

Lemma pad_loop_repeat n key :
  TimeFirst.pad_loop n key = key ++ repeat TimeFirst.paddingChar n.
Proof.
  revert key. induction n as [|n IH]; intros key; cbn [TimeFirst.pad_loop repeat].
  - rewrite app_nil_r. reflexivity.
  - rewrite IH, <- app_assoc. reflexivity.
Qed.

Lemma Replace_app a b old new :
  Replace (a ++ b) old new = Replace a old new ++ Replace b old new.
Proof.
  induction a as [|c a IH]; cbn [Replace app]; [reflexivity|].
  rewrite IH, app_assoc. reflexivity.
Qed.

Lemma Replace_pads n : Replace (repeat "="%char n) "="%char [] = [].
Proof.
  induction n as [|n IH]; cbn [repeat Replace]; [reflexivity|].
  destruct (ascii_dec "=" "="); [exact IH|congruence].
Qed.

Lemma forallb_repeat {A} (f : A -> bool) x n : f x = true -> forallb f (repeat x n) = true.
Proof. intros H. induction n; cbn; [reflexivity|]. rewrite H, IHn. reflexivity. Qed.

(** The time key of the time-first revision at an instant after the epoch:
    nine bytes of the class, from which [GetTimeFromID]'s strip-and-parse
    reads the millisecond count back. *)
Lemma TimeFirst_timekey t :
  0 <= t < 2 ^ 63 ->
  exists key,
    TimeFirst.getBase32TimeKey t = (key, None)
    /\ List.length key = 9%nat
    /\ forallb id_class key = true
    /\ ParseInt (Replace key TimeFirst.paddingChar []) 36 = (t / 1000000, None).
Proof.
  intros Ht. destruct (millis_bound t Ht) as [Hq Hms].
  unfold TimeFirst.getBase32TimeKey. rewrite Hq.
  destruct (FormatInt_spec (t / 1000000)) as (ds & E & Hne & Hlen & Hcls & Hrep & Hparse & Hsign).
  { change (36 ^ 9) with 101559956668416. lia. }
  unfold TimeFirst.timeKeyBase. rewrite E. cbv zeta.
  set (paddingLen := (len ds - TimeFirst.timeKeyLength) * -1).
  assert (Hp : paddingLen = Z.of_nat (9 - List.length ds)).
  { unfold paddingLen, len, TimeFirst.timeKeyLength. lia. }
  exists (ds ++ repeat TimeFirst.paddingChar (9 - List.length ds)).
  split.
  - destruct (Z.ltb_spec paddingLen 0); [lia|].
    destruct (Z.ltb_spec 0 paddingLen).
    + rewrite pad_loop_repeat. rewrite Hp, Nat2Z.id. reflexivity.
    + replace (9 - List.length ds)%nat with 0%nat by lia.
      cbn [repeat]. rewrite app_nil_r. reflexivity.
  - split; [rewrite length_app, repeat_length; lia|].
    split; [rewrite forallb_app, Hcls; apply forallb_repeat; reflexivity|].
    rewrite Replace_app. unfold TimeFirst.paddingChar. rewrite Hrep, Replace_pads, app_nil_r.
    apply ParseInt_digits; auto.
    + exact (Hparse 0%nat).
    + lia.
Qed.

Lemma Repeat_zero n : Repeat (str "0") (Z.of_nat n) = repeat "0"%char n.
Proof.
  unfold Repeat. rewrite Nat2Z.id.
  induction n as [|n IH]; cbn [repeat List.concat]; [reflexivity|].
  rewrite IH. reflexivity.
Qed.

(** The time key of the indicator-first revision: nine bytes that parse to
    the complement [maxTimestampValBase10 - ms]. *)
Lemma IndicatorFirst_timekey t :
  0 <= t < 2 ^ 63 ->
  exists key,
    IndicatorFirst.getBase36TimeKey t = (key, None)
    /\ List.length key = 9%nat
    /\ forallb id_class key = true
    /\ ParseInt key 36 = (IndicatorFirst.maxTimestampValBase10 - t / 1000000, None).
Proof.
  intros Ht. destruct (millis_bound t Ht) as [Hq Hms].
  unfold IndicatorFirst.getBase36TimeKey. rewrite Hq.
  unfold IndicatorFirst.maxTimestampValBase10.
  set (rev := 101559956668415 - t / 1000000).
  assert (Hrev : 0 <= rev < 36 ^ 9).
  { change (36 ^ 9) with 101559956668416. unfold rev. lia. }
  destruct (FormatInt_spec rev Hrev) as (ds & E & Hne & Hlen & Hcls & Hrep & Hparse & Hsign).
  unfold IndicatorFirst.timeKeyBase. rewrite E. cbv zeta.
  set (paddingLen := IndicatorFirst.timeKeyLength - len ds).
  assert (Hp : paddingLen = Z.of_nat (9 - List.length ds)).
  { unfold paddingLen, len, IndicatorFirst.timeKeyLength. lia. }
  exists (repeat "0"%char (9 - List.length ds) ++ ds).
  split.
  - destruct (Z.ltb_spec paddingLen 0); [lia|].
    destruct (Z.ltb_spec 0 paddingLen).
    + rewrite Hp, Repeat_zero. reflexivity.
    + replace (9 - List.length ds)%nat with 0%nat by lia. reflexivity.
  - split; [rewrite length_app, repeat_length; lia|].
    split; [rewrite forallb_app, Hcls, forallb_repeat; reflexivity|].
    apply ParseInt_digits.
    + destruct (9 - List.length ds)%nat; [exact Hne|discriminate].
    + intros c rest Ec. destruct (9 - List.length ds)%nat.
      * exact (Hsign c rest Ec).
      * cbn [repeat app] in Ec. inversion Ec; subst. split; congruence.
    + apply Hparse.
    + change (2 ^ 63) with 9223372036854775808.
      change (36 ^ 9) with 101559956668416 in Hrev. lia.
Qed.

(** ** The random suffix *)

Lemma getRandString_spec e n :
  List.length (getRandString e n) = n
  /\ forallb id_class (getRandString e n) = true.
Proof.
  unfold getRandString. split; [rewrite length_map, length_seq; reflexivity|].
  apply forallb_forall. intros c Hc. apply in_map_iff in Hc.
  destruct Hc as (i & <- & _).
  assert (H : 0 <= Intn e i (len letterBytes) < 36).
  { unfold Intn. change (len letterBytes) with 36. apply Z.mod_pos_bound. lia. }
  revert H. generalize (Intn e i (len letterBytes)). intros d.
  apply (range_forallb
           (fun d => id_class (nth (Z.to_nat d) letterBytes "0"%char)) 36).
  vm_compute. reflexivity.
Qed.

Lemma snoc_split {A} (l : list A) n :
  List.length l = S n -> exists a c, l = a ++ [c] /\ List.length a = n.
Proof.
  intros H. destruct (exists_last (l := l)) as (a & c & E).
  - destruct l; [discriminate|congruence].
  - exists a, c. split; [exact E|]. subst l. rewrite length_app in H. cbn in H. lia.
Qed.

(** ** What [Generate] returns on well-formed fields *)

Lemma indicator_facts ind :
  In ind indicators ->
  isValidIndicator ind = true /\ List.length ind = 1%nat
  /\ forallb id_class ind = true.
Proof.
  cbn [indicators map In]. intros H.
  repeat (destruct H as [<-|H]; [vm_compute; auto|]). contradiction.
Qed.

Lemma assemble_snoc a b c d x :
  assemble a b c (d ++ [x]) = assemble a b c d ++ [x].
Proof.
  unfold assemble. repeat (rewrite <- app_assoc || rewrite <- app_comm_cons). reflexivity.
Qed.

Lemma assemble_length a b c d :
  List.length (assemble a b c d)
  = (List.length a + List.length b + List.length c + List.length d + 3)%nat.
Proof.
  unfold assemble. repeat (rewrite length_app || cbn [List.length]). lia.
Qed.

Lemma embedded_location_spec loc :
  (List.length loc = 5%nat \/ loc = []) -> field_ok loc = true ->
  List.length (embedded_location loc) = 5%nat
  /\ forallb id_class (embedded_location loc) = true
  /\ ToUpper (embedded_location loc) = embedded_location loc
  /\ embedded_location loc =
       ToUpper (if negb (len loc =? 5) then str "MISCR" else loc).
Proof.
  intros [H| ->] Hf; unfold embedded_location, len.
  - rewrite H. cbn [Z.of_nat Z.eqb Pos.eqb Pos.of_succ_nat Pos.succ negb].
    rewrite ToUpper_length, ToUpper_idem. auto using field_ok_class.
  - vm_compute. auto.
Qed.

Lemma len_cons_pos c (s : gostring) : (0 <? len (c :: s)) = true.
Proof. unfold len. cbn [List.length]. apply Z.ltb_lt. lia. Qed.

Lemma seal_spec pre c7 vendorSecret :
  id_class c7 = true ->
  exists c, seal (pre ++ [c7]) vendorSecret = Done (pre ++ [c], None)
            /\ id_class c = true
            /\ (vendorSecret <> [] -> checksum vendorSecret pre = Done [c])
            /\ (vendorSecret = [] -> c = c7).
Proof.
  intros Hc7. unfold seal. destruct vendorSecret as [|x s].
  - exists c7. replace (0 <? len []) with false by reflexivity.
    repeat split; auto. congruence.
  - rewrite len_cons_pos, slice_init. cbn [bind].
    destruct (checksum_byte (x :: s) pre) as (c & Hcs & Hcc).
    exists c. rewrite Hcs. cbn [bind]. repeat split; auto. discriminate.
Qed.

Lemma TimeFirst_Generate_shape e ind vendor nType nSubType loc vendorSecret :
  0 <= now e < 2 ^ 63 ->
  valid_input ind vendor nType nSubType loc ->
  exists key r6 c,
    TimeFirst.getBase32TimeKey (now e) = (key, None)
    /\ TimeFirst.Generate e ind vendor nType nSubType loc vendorSecret
       = Done (assemble key (ind ++ ToUpper vendor ++ ToUpper nType ++ ToUpper nSubType)
                 (embedded_location loc) r6 ++ [c], None)
    /\ segments 9 8 5 7
         (assemble key (ind ++ ToUpper vendor ++ ToUpper nType ++ ToUpper nSubType)
            (embedded_location loc) r6 ++ [c])
         key (ind ++ ToUpper vendor ++ ToUpper nType ++ ToUpper nSubType)
         (embedded_location loc) (r6 ++ [c])
    /\ (vendorSecret <> [] ->
        checksum vendorSecret
          (assemble key (ind ++ ToUpper vendor ++ ToUpper nType ++ ToUpper nSubType)
             (embedded_location loc) r6) = Done [c])
    /\ (vendorSecret = [] -> r6 ++ [c] = getRandString e 7).
Proof.
  intros Ht [Hi [Hvl Hvf] [Htl Htf] [Hsl Hsf] [Hll Hlf]].
  destruct (TimeFirst_timekey _ Ht) as (key & Hk & Hkl & Hkc & _).
  destruct (indicator_facts _ Hi) as (Hiv & Hil & Hic).
  destruct (getRandString_spec e 7) as (Hrl & Hrc).
  destruct (snoc_split _ _ Hrl) as (r6 & c7 & Er & Hr6).
  rewrite Er, forallb_app in Hrc. apply andb_prop in Hrc.
  destruct Hrc as [Hr6c Hc7]. cbn [forallb] in Hc7. rewrite andb_true_r in Hc7.
  destruct (embedded_location_spec loc Hll Hlf) as (HLl & HLc & HLu & HLe).
  set (B := ind ++ ToUpper vendor ++ ToUpper nType ++ ToUpper nSubType).
  set (L := embedded_location loc) in *.
  destruct (seal_spec (assemble key B L r6) c7 vendorSecret Hc7)
    as (c & Hseal & Hcc & Hsum & Hnos).
  exists key, r6, c. split; [exact Hk|].
  split; [|split; [|split]].
  - unfold TimeFirst.Generate. rewrite Hk. cbv beta iota zeta.
    assert (Ei : len ind = 1) by (unfold len; rewrite Hil; reflexivity).
    assert (Ev : len vendor = 3) by (unfold len; rewrite Hvl; reflexivity).
    assert (Et : len nType = 2) by (unfold len; rewrite Htl; reflexivity).
    assert (Es : len nSubType = 2) by (unfold len; rewrite Hsl; reflexivity).
    rewrite Hiv, Ei, Ev, Et, Es.
    cbn [negb orb Z.eqb Pos.eqb
         TimeFirst.vendorLength TimeFirst.typeElementLength].
    unfold TimeFirst.priLocationLength, TimeFirst.unknownLocationValue, TimeFirst.randLen.
    fold (seal
      (ToUpper (key ++ [delimitChar] ++ ind ++ vendor ++ nType ++ nSubType
                ++ [delimitChar] ++ (if negb (len loc =? 5) then str "MISCR" else loc)
                ++ [delimitChar] ++ getRandString e 7)) vendorSecret).
    rewrite <- Hseal. f_equal.
    rewrite <- assemble_snoc, <- Er. unfold assemble, B.
    repeat rewrite ToUpper_app.
    rewrite <- HLe. fold L.
    rewrite (ToUpper_class key Hkc), (ToUpper_class ind Hic).
    rewrite (ToUpper_class (getRandString e 7)) by (rewrite Er, forallb_app, Hr6c; cbn; rewrite Hc7; reflexivity).
    cbn [ToUpper map app]. 
    replace (upper_byte delimitChar) with delimitChar by reflexivity.
    repeat rewrite <- app_assoc. reflexivity.
  - unfold segments. rewrite <- assemble_snoc.
    split; [reflexivity|]. unfold B.
    repeat rewrite length_app. repeat rewrite ToUpper_length.
    rewrite Hkl, Hil, Hvl, Htl, Hsl, HLl, Hr6. cbn [List.length].
    repeat rewrite forallb_app.
    rewrite Hkc, Hic, HLc, Hr6c, (field_ok_class _ Hvf), (field_ok_class _ Htf),
      (field_ok_class _ Hsf). cbn [forallb]. rewrite Hcc.
    repeat split; reflexivity.
  - exact Hsum.
  - intros Hs. rewrite (Hnos Hs). symmetry. exact Er.
Qed.


(** ** [Verify] and [GetTimeFromID] on accepted identifiers *)

Lemma checksum_check_nosecret id : checksum_check id [] = Done (true, None).
Proof. reflexivity. Qed.

Lemma checksum_check_secret pre c vendorSecret :
  vendorSecret <> [] ->
  checksum_check (pre ++ [c]) vendorSecret =
  (cs <- checksum vendorSecret pre ;;
   if negb (gostring_eqb cs [c])
   then Done (false, errorsNew "Checksum does not match vendor secret")
   else Done (true, None)).
Proof.
  intros Hne. unfold checksum_check.
  destruct (gostring_eqb vendorSecret []) eqn:E.
  - apply gostring_eqb_eq in E. congruence.
  - cbn [negb]. rewrite slice_last, slice_init. reflexivity.
Qed.

Lemma TimeFirst_GetTime_segments id a b c d :
  segments 9 8 5 7 id a b c d ->
  TimeFirst.GetTimeFromID id =
  (let '(msInt, err) := ParseInt (Replace a TimeFirst.paddingChar []) 36 in
   match err with
   | Some _ => Done (ZeroTime, err)
   | None => Done (UnixTime (wrap64 (msInt * Millisecond)), None)
   end).
Proof.
  intros Hs. unfold TimeFirst.GetTimeFromID.
  rewrite (TimeFirst_Verify_segments _ _ _ _ _ _ Hs), checksum_check_nosecret.
  cbn [bind negb]. rewrite (Split_segments _ _ _ _ _ _ _ _ _ Hs).
  reflexivity.
Qed.

Lemma wrap64_small z : - 2 ^ 63 <= z < 2 ^ 63 -> wrap64 z = z.
Proof.
  intros H. unfold wrap64.
  rewrite Z.mod_small; [lia|].
  change (2 ^ 64) with (2 * 2 ^ 63). lia.
Qed.

(** Decoding a generated identifier gives the generation instant truncated
    to the millisecond. *)
Lemma TimeFirst_GetTime_Generate e ind vendor nType nSubType loc vendorSecret :
  0 <= now e < 2 ^ 63 ->
  valid_input ind vendor nType nSubType loc ->
  exists id,
    TimeFirst.Generate e ind vendor nType nSubType loc vendorSecret = Done (id, None)
    /\ TimeFirst.GetTimeFromID id
       = Done (UnixTime (now e / 1000000 * Millisecond), None).
Proof.
  intros Ht Hv.
  destruct (TimeFirst_Generate_shape e ind vendor nType nSubType loc vendorSecret Ht Hv)
    as (key & r6 & c & Hk & Hg & Hs & _).
  destruct (TimeFirst_timekey _ Ht) as (key' & Hk' & _ & _ & Hp).
  rewrite Hk in Hk'. inversion Hk'; subst key'.
  eexists. split; [exact Hg|].
  rewrite (TimeFirst_GetTime_segments _ _ _ _ _ Hs), Hp.
  destruct (millis_bound _ Ht) as [_ Hb].
  rewrite wrap64_small; [reflexivity|].
  unfold Millisecond. pose proof (Z.mul_div_le (now e) 1000000 ltac:(lia)). lia.
Qed.

(** ** Sample calls *)


(** ** The canonical layout, position by position *)

Lemma segments_canonical id a b c d :
  segments 9 8 5 7 id a b c d -> canonical id = true.
Proof.
  intros (-> & La & Lb & Lc & Ld & Ca & Cb & Cc & Cd).
  explode a 9. explode b 8. explode c 5. explode d 7.
  cbn [forallb] in Ca, Cb, Cc, Cd.
  split_andb Ca. split_andb Cb. split_andb Cc. split_andb Cd.
  clear Ca Cb Cc Cd La Lb Lc Ld.
  unfold canonical, canonical_byte, delimitChar.
  cbn [app List.length Nat.eqb seq combine forallb fst snd delimiter_offset orb andb].
  use_class_hyps. reflexivity.
Qed.

Lemma canonical_segments id :
  canonical id = true -> exists a b c d, segments 9 8 5 7 id a b c d.
Proof.
  unfold canonical. intros H. apply andb_prop in H. destruct H as [Hl H].
  apply Nat.eqb_eq in Hl.
  explode id 32. clear Hl.
  unfold canonical_byte, delimitChar in H.
  cbn [List.length seq combine forallb fst snd delimiter_offset Nat.eqb orb] in H.
  split_andb H. clear H.
  repeat match goal with
         | H : Ascii.eqb _ _ = true |- _ => apply Ascii.eqb_eq in H; subst
         end.
  exists [a; a0; a1; a2; a3; a4; a5; a6; a7], [a9; a10; a11; a12; a13; a14; a15; a16],
    [a18; a19; a20; a21; a22], [a24; a25; a26; a27; a28; a29; a30].
  unfold segments, delimitChar. cbn [app List.length forallb].
  use_class_hyps. repeat split; reflexivity.
Qed.

Lemma TimeFirst_Verify_accept_inv id vendorSecret :
  TimeFirst.Verify id vendorSecret = Done (true, None) ->
  exists a b c d, segments 9 8 5 7 id a b c d.
Proof.
  unfold TimeFirst.Verify.
  destruct (len id =? TimeFirst.idLength) eqn:Hl; cbn [negb]; [|discriminate].
  destruct (FindStringSubmatch TimeFirst.idRegex id) as [|m ms] eqn:Hf;
    [cbn; discriminate|].
  intros _. apply Z.eqb_eq in Hl. unfold len, TimeFirst.idLength in Hl.
  apply Find_segments.
  - cbn. lia.
  - change (seg_regex 9 8 5 7) with TimeFirst.idRegex. rewrite Hf. congruence.
Qed.

(** [Verify] with an empty secret is exactly the positional check. *)
Lemma TimeFirst_Verify_canonical id :
  TimeFirst.Verify id [] = Done (true, None) <-> canonical id = true.
Proof.
  split.
  - intros H. destruct (TimeFirst_Verify_accept_inv _ _ H) as (a & b & c & d & Hs).
    exact (segments_canonical _ _ _ _ _ Hs).
  - intros H. destruct (canonical_segments _ H) as (a & b & c & d & Hs).
    rewrite (TimeFirst_Verify_segments _ _ _ _ _ _ Hs). reflexivity.
Qed.

(** No identifier fits both layouts: offset 8 is a dash in one and a byte of
    the class in the other. *)
Lemma layouts_disjoint id a b c d a' b' c' d' :
  segments 9 8 5 7 id a b c d -> segments 8 9 5 7 id a' b' c' d' -> False.
Proof.
  intros (-> & La & _ & _ & _ & Ca & _) (E & La' & _).
  explode a 9. explode a' 8.
  cbn [app] in E. inversion E; subst.
  cbn [forallb] in Ca. split_andb Ca.
  match goal with
  | H : id_class delimitChar = true |- _ => vm_compute in H; discriminate
  end.
Qed.

Lemma IndicatorFirst_Verify_reject id vendorSecret :
  (forall a b c d, ~ segments 8 9 5 7 id a b c d) ->
  exists err, IndicatorFirst.Verify id vendorSecret = Done (false, err)
              /\ structural_error err.
Proof.
  intros Hn. unfold IndicatorFirst.Verify.
  destruct (len id =? IndicatorFirst.idLength) eqn:Hl; cbn [negb].
  - destruct (FindStringSubmatch IndicatorFirst.idRegex id) as [|m ms] eqn:Hf.
    + cbn. eexists; split; [reflexivity|constructor].
    + exfalso. apply Z.eqb_eq in Hl. unfold len, IndicatorFirst.idLength in Hl.
      destruct (Find_segments 8 9 5 7 id) as (a & b & c & d & Hs).
      * cbn. lia.
      * change (seg_regex 8 9 5 7) with IndicatorFirst.idRegex. rewrite Hf. congruence.
      * exact (Hn _ _ _ _ Hs).
  - eexists; split; [reflexivity|constructor].
Qed.


(** ** The time segment as a base-36 number *)

(** Stripping the pad byte drops every occurrence, wherever it stands. *)
Lemma Replace_pad_filter s :
  Replace s TimeFirst.paddingChar [] = filter not_pad s.
Proof.
  induction s as [|c s IH]; cbn [Replace filter]; [reflexivity|].
  unfold not_pad at 1. destruct (ascii_dec c TimeFirst.paddingChar) as [->|Hn].
  - rewrite Ascii.eqb_refl. cbn [negb app]. exact IH.
  - apply Ascii.eqb_neq in Hn. rewrite Hn. cbn [negb app]. rewrite IH. reflexivity.
Qed.

Lemma class_digit c :
  id_class c = true -> not_pad c = true ->
  exists d, digit_val c = Some d /\ 0 <= d < 36
            /\ c <> "-"%char /\ c <> "+"%char.
Proof.
  all_bytes c; vm_compute; intros H1 H2; try discriminate;
    (eexists; split; [reflexivity|]; repeat split; congruence).
Qed.

Lemma parse_digits_class s : forall n,
  forallb id_class s = true -> forallb not_pad s = true ->
  0 <= n -> (n + 1) * 36 ^ Z.of_nat (List.length s) <= cutoff36 ->
  parse_digits 36 s n = inl (fold_left (fun n c => n * 36 + b36 c) s n)
  /\ fold_left (fun n c => n * 36 + b36 c) s n
     < (n + 1) * 36 ^ Z.of_nat (List.length s)
  /\ 0 <= fold_left (fun n c => n * 36 + b36 c) s n.
Proof.
  induction s as [|c s IH]; intros n Hc Hp Hn Hb.
  - cbn. repeat split; lia.
  - cbn [forallb] in Hc, Hp.
    apply andb_prop in Hc. destruct Hc as [Hc Hcs].
    apply andb_prop in Hp. destruct Hp as [Hp Hps].
    destruct (class_digit c Hc Hp) as (d & Hd & Hr & _).
    cbn [List.length] in Hb. rewrite Nat2Z.inj_succ, Z.pow_succ_r in Hb by lia.
    assert (Hpow : 1 <= 36 ^ Z.of_nat (List.length s)).
    { pose proof (Z.pow_pos_nonneg 36 (Z.of_nat (List.length s)) ltac:(lia) ltac:(lia)). lia. }
    assert (Hb' : (n * 36 + d + 1) * 36 ^ Z.of_nat (List.length s) <= cutoff36) by nia.
    rewrite (parse_digits_step c d); [|exact Hd|exact Hr|exact Hn|nia].
    assert (Hb36 : b36 c = d) by (unfold b36; rewrite Hd; reflexivity).
    cbn [fold_left]. rewrite Hb36.
    destruct (IH (n * 36 + d) Hcs Hps ltac:(lia) Hb') as (I1 & I2 & I3).
    split; [exact I1|]. split; [|exact I3].
    cbn [List.length]. rewrite Nat2Z.inj_succ, Z.pow_succ_r by lia. nia.
Qed.

Lemma segments_firstn w2 w3 w4 id a b c d :
  segments 9 w2 w3 w4 id a b c d -> firstn 9 id = a.
Proof.
  intros (-> & La & _). rewrite <- La, firstn_app, Nat.sub_diag, firstn_all.
  cbn [firstn]. apply app_nil_r.
Qed.

(** [GetTimeFromID] on an accepted identifier whose time segment keeps at
    least one byte after the pads are stripped. *)
Lemma TimeFirst_GetTime_value id :
  canonical id = true ->
  Replace (firstn 9 id) TimeFirst.paddingChar [] <> [] ->
  let v := base36_value (Replace (firstn 9 id) TimeFirst.paddingChar []) in
  0 <= v < 36 ^ 9
  /\ ParseInt (Replace (firstn 9 id) TimeFirst.paddingChar []) 36 = (v, None)
  /\ TimeFirst.GetTimeFromID id = Done (UnixTime (wrap64 (v * Millisecond)), None).
Proof.
  intros Hc Hne.
  destruct (canonical_segments _ Hc) as (a & b & c & d & Hs).
  rewrite (segments_firstn _ _ _ _ _ _ _ _ Hs) in *.
  pose proof Hs as Hs'.
  destruct Hs as (E & La & Hrest). destruct Hrest as (_ & _ & _ & Ca & _).
  set (ds := Replace a TimeFirst.paddingChar []) in *.
  intros v.
  assert (Hds : ds = filter not_pad a) by apply Replace_pad_filter.
  assert (Hcls : forallb id_class ds = true).
  { rewrite Hds. apply forallb_forall. intros x Hx. apply filter_In in Hx.
    rewrite forallb_forall in Ca. apply Ca. tauto. }
  assert (Hnp : forallb not_pad ds = true).
  { rewrite Hds. apply forallb_forall. intros x Hx. apply filter_In in Hx. tauto. }
  assert (Hlen : (List.length ds <= 9)%nat).
  { rewrite Hds, <- La. apply filter_length_le. }
  assert (Hpow : 36 ^ Z.of_nat (List.length ds) <= 36 ^ 9).
  { apply Z.pow_le_mono_r; lia. }
  destruct (parse_digits_class ds 0 Hcls Hnp ltac:(lia)) as (P1 & P2 & P3).
  { unfold cutoff36. change (36 ^ 11) with (36 ^ 9 * 1296). lia. }
  change (fold_left (fun n c => n * 36 + b36 c) ds 0) with v in P1, P2, P3.
  assert (Hv : 0 <= v < 36 ^ 9) by lia.
  assert (Hparse : ParseInt ds 36 = (v, None)).
  { apply ParseInt_digits; auto.
    - intros x rest Ex. subst ds. rewrite Ex in Hcls, Hnp. cbn [forallb] in Hcls, Hnp.
      apply andb_prop in Hcls, Hnp.
      destruct (class_digit x (proj1 Hcls) (proj1 Hnp)) as (_ & _ & _ & H1 & H2). auto.
    - change (36 ^ 9) with 101559956668416 in Hv.
      change (2 ^ 63) with 9223372036854775808. lia. }
  split; [exact Hv|]. split; [exact Hparse|].
  rewrite (TimeFirst_GetTime_segments _ _ _ _ _ Hs').
  fold ds. rewrite Hparse. reflexivity.
Qed.


Lemma TimeFirst_Generate_eq e ind vendor nType nSubType loc vendorSecret :
  TimeFirst.Generate e ind vendor nType nSubType loc vendorSecret =
  match TimeFirst.getBase32TimeKey (now e) with
  | (_, Some err) => Done ([], Some err)
  | (timeKey, None) =>
      if negb (len vendor =? 3)
      then Done ([], errorsNew "Vendor must be of length '3'")
      else if negb (len nType =? 2)
      then Done ([], errorsNew "Type must be of length '2'")
      else seal (ToUpper (timeKey ++ [delimitChar] ++ default_indicator ind ++ vendor
                          ++ nType ++ default_subtype nType nSubType ++ [delimitChar]
                          ++ default_location loc ++ [delimitChar]
                          ++ getRandString e 7)) vendorSecret
  end.
Proof.
  unfold TimeFirst.Generate.
  destruct (TimeFirst.getBase32TimeKey (now e)) as [timeKey [err|]]; reflexivity.
Qed.

Lemma seal_total p vendorSecret :
  p <> [] -> exists id, seal p vendorSecret = Done (id, None).
Proof.
  intros Hp. destruct (exists_last Hp) as (pre & c7 & ->).
  unfold seal. destruct vendorSecret as [|x s].
  - eexists. reflexivity.
  - rewrite len_cons_pos, slice_init. cbn [bind].
    destruct (checksum_byte (x :: s) pre) as (c & -> & _). eexists. reflexivity.
Qed.

Lemma len_eqb_length (s : gostring) (n : nat) :
  (len s =? Z.of_nat n) = Nat.eqb (List.length s) n.
Proof.
  unfold len. destruct (Nat.eqb_spec (List.length s) n) as [->|Hn].
  - apply Z.eqb_refl.
  - apply Z.eqb_neq. lia.
Qed.


(** ** The length of what [Generate] returns *)


Lemma seal_length p vendorSecret id :
  p <> [] -> seal p vendorSecret = Done (id, None) -> List.length id = List.length p.
Proof.
  intros Hp. destruct (exists_last Hp) as (pre & c7 & ->).
  unfold seal. destruct vendorSecret as [|x s].
  - intros E. inversion E. reflexivity.
  - rewrite len_cons_pos, slice_init. cbn [bind].
    destruct (checksum_byte (x :: s) pre) as (c & -> & _). cbn [bind].
    intros E. inversion E. repeat rewrite length_app. reflexivity.
Qed.



(** ** The indicator-first revision: [Generate], then [Describe] *)

Lemma IndicatorFirst_Generate_shape e ind vendor app nType loc vendorSecret :
  0 <= now e < 2 ^ 63 ->
  valid_input ind vendor app nType loc ->
  exists key r6 c,
    ParseInt key 36 = (IndicatorFirst.maxTimestampValBase10 - now e / 1000000, None)
    /\ IndicatorFirst.Generate e ind vendor app nType loc vendorSecret
       = Done (assemble (ind ++ ToUpper vendor ++ ToUpper app ++ ToUpper nType) key
                 (embedded_location loc) r6 ++ [c], None)
    /\ segments 8 9 5 7
         (assemble (ind ++ ToUpper vendor ++ ToUpper app ++ ToUpper nType) key
            (embedded_location loc) r6 ++ [c])
         (ind ++ ToUpper vendor ++ ToUpper app ++ ToUpper nType) key
         (embedded_location loc) (r6 ++ [c]).
Proof.
  intros Ht [Hi [Hvl Hvf] [Hal Haf] [Htl Htf] [Hll Hlf]].
  destruct (IndicatorFirst_timekey _ Ht) as (key & Hk & Hkl & Hkc & Hkp).
  destruct (indicator_facts _ Hi) as (Hiv & Hil & Hic).
  destruct (getRandString_spec e 7) as (Hrl & Hrc).
  destruct (snoc_split _ _ Hrl) as (r6 & c7 & Er & Hr6).
  rewrite Er, forallb_app in Hrc. apply andb_prop in Hrc.
  destruct Hrc as [Hr6c Hc7]. cbn [forallb] in Hc7. rewrite andb_true_r in Hc7.
  destruct (embedded_location_spec loc Hll Hlf) as (HLl & HLc & HLu & HLe).
  set (B := ind ++ ToUpper vendor ++ ToUpper app ++ ToUpper nType).
  set (L := embedded_location loc) in *.
  destruct (seal_spec (assemble B key L r6) c7 vendorSecret Hc7)
    as (c & Hseal & Hcc & _ & _).
  exists key, r6, c. split; [exact Hkp|]. split.
  - unfold IndicatorFirst.Generate. rewrite Hk. cbv beta iota zeta.
    assert (Ei : len ind = 1) by (unfold len; rewrite Hil; reflexivity).
    assert (Ev : len vendor = 3) by (unfold len; rewrite Hvl; reflexivity).
    assert (Ea : len app = 2) by (unfold len; rewrite Hal; reflexivity).
    assert (Et : len nType = 2) by (unfold len; rewrite Htl; reflexivity).
    rewrite Hiv, Ei, Ev, Ea, Et.
    cbn [negb orb Z.eqb Pos.eqb
         IndicatorFirst.vendorLength IndicatorFirst.typeElementLength].
    unfold IndicatorFirst.priLocationLength, IndicatorFirst.unknownLocationValue,
      IndicatorFirst.randLen.
    fold (seal
      (ToUpper (ind ++ vendor ++ app ++ nType ++ [delimitChar] ++ key
                ++ [delimitChar] ++ (if negb (len loc =? 5) then str "MISCR" else loc)
                ++ [delimitChar] ++ getRandString e 7)) vendorSecret).
    rewrite <- Hseal. f_equal.
    rewrite <- assemble_snoc, <- Er. unfold assemble, B.
    repeat rewrite ToUpper_app.
    rewrite <- HLe. fold L.
    rewrite (ToUpper_class key Hkc), (ToUpper_class ind Hic).
    rewrite (ToUpper_class (getRandString e 7))
      by (rewrite Er, forallb_app, Hr6c; cbn; rewrite Hc7; reflexivity).
    cbn [ToUpper map List.app].
    replace (upper_byte delimitChar) with delimitChar by reflexivity.
    repeat rewrite <- app_assoc. reflexivity.
  - unfold segments. rewrite <- assemble_snoc.
    split; [reflexivity|]. unfold B.
    repeat rewrite length_app. repeat rewrite ToUpper_length.
    rewrite Hkl, Hil, Hvl, Hal, Htl, HLl, Hr6. cbn [List.length].
    repeat rewrite forallb_app.
    rewrite Hkc, Hic, HLc, Hr6c, (field_ok_class _ Hvf), (field_ok_class _ Haf),
      (field_ok_class _ Htf). cbn [forallb]. rewrite Hcc.
    repeat split; reflexivity.
Qed.

Lemma IndicatorFirst_getTime_segments id a b c d :
  segments 8 9 5 7 id a b c d ->
  IndicatorFirst.getTimeFromID id =
  (let '(msInt, err) := ParseInt b 36 in
   match err with
   | Some _ => Done (ZeroTime, err)
   | None =>
       Done (UnixTime (wrap64 (wrap64 (IndicatorFirst.maxTimestampValBase10 - msInt)
                               * Millisecond)), None)
   end).
Proof.
  intros Hs. unfold IndicatorFirst.getTimeFromID.
  rewrite (IndicatorFirst_Verify_segments _ _ _ _ _ _ Hs), checksum_check_nosecret.
  cbn [bind negb]. rewrite (Split_segments _ _ _ _ _ _ _ _ _ Hs).
  reflexivity.
Qed.

(** [Describe] cuts the first segment at the fixed widths 1, 3, 2, 2. *)
Lemma IndicatorFirst_Describe_segments id i v a t key L R ms :
  segments 8 9 5 7 id (i ++ v ++ a ++ t) key L R ->
  List.length i = 1%nat -> List.length v = 3%nat ->
  List.length a = 2%nat -> List.length t = 2%nat ->
  ParseInt key 36 = (ms, None) ->
  IndicatorFirst.Describe id =
  Done (IndicatorFirst.mkDescription i v a t L key
          (UnixTime (wrap64 (wrap64 (IndicatorFirst.maxTimestampValBase10 - ms)
                             * Millisecond))) R, None).
Proof.
  intros Hs Li Lv La Lt Hp. unfold IndicatorFirst.Describe.
  rewrite (IndicatorFirst_getTime_segments _ _ _ _ _ Hs), Hp.
  rewrite (IndicatorFirst_Verify_segments _ _ _ _ _ _ Hs), checksum_check_nosecret.
  cbn [bind snd]. rewrite (Split_segments _ _ _ _ _ _ _ _ _ Hs).
  explode i 1. explode v 3. explode a 2. explode t 2.
  reflexivity.
Qed.

(** [Describe] rejects whatever the time-first [Verify] accepts. *)
Lemma Describe_rejects_time_first id :
  canonical id = true ->
  exists err,
    IndicatorFirst.Describe id = Done (IndicatorFirst.emptyDescription, Some err).
Proof.
  intros Hc. destruct (canonical_segments _ Hc) as (a & b & c & d & Hs).
  destruct (IndicatorFirst_Verify_reject id []) as (err & Hv & He).
  { intros a' b' c' d' Hs'. exact (layouts_disjoint _ _ _ _ _ _ _ _ _ Hs Hs'). }
  unfold IndicatorFirst.Describe. rewrite Hv. cbn [bind snd].
  destruct He; eexists; reflexivity.
Qed.


(** * The claims *)

Module Claims.

(** C1, as stated, fails.  [Describe] exists in the indicator-first revision
    only, and it rejects the identifier the time-first [Generate] of the
    claim returns.  Paired with the [Generate] of its own revision it does
    decode, but it returns the upper-cased vendor and the sentinel location,
    not the vendor ["for"] and the empty location that were passed in. *)
Lemma C1_counterexample :
  TimeFirst.Generate sample_env (str "E") (str "for") (str "TE") (str "ST") []
    (str "secr3t")
  = Done (str "LOYW3V5N=-EFORTEST-MISCR-X27CHM0", None)
  /\ IndicatorFirst.Describe (str "LOYW3V5N=-EFORTEST-MISCR-X27CHM0")
     = Done (IndicatorFirst.emptyDescription, errorsNew "ID format is invalid")
  /\ IndicatorFirst.Generate sample_env (str "E") (str "for") (str "TE") (str "ST") []
       (str "secr3t")
     = Done (str "EFORTEST-ZEB13W4UC-MISCR-X27CHM8", None)
  /\ exists d,
       IndicatorFirst.Describe (str "EFORTEST-ZEB13W4UC-MISCR-X27CHM8") = Done (d, None)
       /\ IndicatorFirst.VendorKey d = str "FOR"
       /\ IndicatorFirst.VendorKey d <> str "for"
       /\ IndicatorFirst.Location d = str "MISCR"
       /\ IndicatorFirst.Location d <> [].
Proof.
  split; [vm_compute; reflexivity|].
  split; [vm_compute; reflexivity|].
  split; [vm_compute; reflexivity|].
  eexists. split; [vm_compute; reflexivity|].
  cbn. repeat split; discriminate.
Qed.

(** C1 (amended): in the revision that defines [Describe] (indicator-first
    layout, [Generate(indicator, vendor, app, type, location, secret)]), for
    an indicator among the ten defined ones, vendor, app and type of lengths
    3, 2, 2 and a location of length 5 or empty, all made of letters, digits
    and ['='], at an instant after the epoch, [Describe] of the identifier
    [Generate] returns succeeds and gives back the indicator, the
    upper-cased vendor, app and type (the fields themselves when they are
    upper-case already), the upper-cased location or ["MISCR"] for an empty
    one, and the generation instant truncated to the millisecond, hence less
    than one second before that instant.  On the identifier the time-first
    [Generate] returns for the same arguments, [Describe] returns an
    error. *)
Theorem C1_describe_roundtrip
  (e : Env) (ind vendor app nType loc vendorSecret : gostring) :
  0 <= now e < 2 ^ 63 ->
  valid_input ind vendor app nType loc ->
  exists id d nsec,
    IndicatorFirst.Generate e ind vendor app nType loc vendorSecret = Done (id, None)
    /\ IndicatorFirst.Describe id = Done (d, None)
    /\ IndicatorFirst.Indicator d = ind
    /\ IndicatorFirst.VendorKey d = ToUpper vendor
    /\ IndicatorFirst.App d = ToUpper app
    /\ IndicatorFirst.Type_ d = ToUpper nType
    /\ IndicatorFirst.Location d = embedded_location loc
    /\ (forallb id_class (vendor ++ app ++ nType ++ loc) = true ->
        IndicatorFirst.VendorKey d = vendor /\ IndicatorFirst.App d = app
        /\ IndicatorFirst.Type_ d = nType
        /\ (List.length loc = 5%nat -> IndicatorFirst.Location d = loc))
    /\ IndicatorFirst.Time_ d = UnixTime nsec
    /\ nsec = now e / 1000000 * Millisecond
    /\ 0 <= now e - nsec < 1000000000
    /\ exists id' err,
         TimeFirst.Generate e ind vendor app nType loc vendorSecret = Done (id', None)
         /\ IndicatorFirst.Describe id'
            = Done (IndicatorFirst.emptyDescription, Some err).
Proof.
  intros Ht Hv.
  assert (Hrej : exists id' err,
             TimeFirst.Generate e ind vendor app nType loc vendorSecret = Done (id', None)
             /\ IndicatorFirst.Describe id'
                = Done (IndicatorFirst.emptyDescription, Some err)).
  { destruct (TimeFirst_Generate_shape e ind vendor app nType loc vendorSecret Ht Hv)
      as (key & r6 & c & _ & Hg & Hs & _).
    destruct (Describe_rejects_time_first _ (segments_canonical _ _ _ _ _ Hs))
      as (err & Hd).
    eexists _, err. split; [exact Hg|exact Hd]. }
  destruct (IndicatorFirst_Generate_shape e ind vendor app nType loc vendorSecret Ht Hv)
    as (key & r6 & c & Hp & Hg & Hs).
  destruct Hv as [Hi [Hvl Hvf] [Hal Haf] [Htl Htf] [Hll Hlf]].
  destruct (indicator_facts _ Hi) as (_ & Hil & _).
  destruct (millis_bound _ Ht) as [_ Hb].
  pose proof (IndicatorFirst_Describe_segments _ _ _ _ _ _ _ _ _ Hs Hil
                ltac:(rewrite ToUpper_length; exact Hvl)
                ltac:(rewrite ToUpper_length; exact Hal)
                ltac:(rewrite ToUpper_length; exact Htl) Hp) as Hd.
  unfold IndicatorFirst.maxTimestampValBase10 in Hd.
  replace (101559956668415 - (101559956668415 - now e / 1000000))
    with (now e / 1000000) in Hd by lia.
  pose proof (Z.mul_div_le (now e) 1000000 ltac:(lia)) as Hle.
  pose proof (Z.mod_pos_bound (now e) 1000000 ltac:(lia)) as Hmod.
  pose proof (Z.div_mod (now e) 1000000 ltac:(lia)) as Hdm.
  rewrite (wrap64_small (now e / 1000000)) in Hd
    by (change (2 ^ 63) with 9223372036854775808; lia).
  rewrite wrap64_small in Hd by (unfold Millisecond; lia).
  eexists _, _, _. split; [exact Hg|]. split; [exact Hd|].
  cbn [IndicatorFirst.Indicator IndicatorFirst.VendorKey IndicatorFirst.App
       IndicatorFirst.Type_ IndicatorFirst.Location IndicatorFirst.Time_].
  repeat (split; [reflexivity|]).
  split.
  - intros Hcls. repeat rewrite forallb_app in Hcls.
    repeat (apply andb_prop in Hcls; destruct Hcls as [? Hcls]).
    repeat split; try (apply ToUpper_class; assumption).
    intros Hl5. unfold embedded_location, len. rewrite Hl5.
    cbn [Z.of_nat Pos.of_succ_nat Pos.succ Z.eqb Pos.eqb].
    apply ToUpper_class; assumption.
  - split; [reflexivity|]. split; [reflexivity|].
    split; [unfold Millisecond; lia|exact Hrej].
Qed.

Lemma C1_witness :
  exists id d nsec,
    IndicatorFirst.Generate sample_env (str "L") (str "FOR") (str "TE") (str "ST")
      (str "USC1B") (str "secr3t") = Done (id, None)
    /\ IndicatorFirst.Describe id = Done (d, None)
    /\ IndicatorFirst.Indicator d = str "L"
    /\ IndicatorFirst.VendorKey d = ToUpper (str "FOR")
    /\ IndicatorFirst.App d = ToUpper (str "TE")
    /\ IndicatorFirst.Type_ d = ToUpper (str "ST")
    /\ IndicatorFirst.Location d = embedded_location (str "USC1B")
    /\ (forallb id_class (str "FOR" ++ str "TE" ++ str "ST" ++ str "USC1B") = true ->
        IndicatorFirst.VendorKey d = str "FOR" /\ IndicatorFirst.App d = str "TE"
        /\ IndicatorFirst.Type_ d = str "ST"
        /\ (List.length (str "USC1B") = 5%nat -> IndicatorFirst.Location d = str "USC1B"))
    /\ IndicatorFirst.Time_ d = UnixTime nsec
    /\ nsec = now sample_env / 1000000 * Millisecond
    /\ 0 <= now sample_env - nsec < 1000000000
    /\ exists id' err,
         TimeFirst.Generate sample_env (str "L") (str "FOR") (str "TE") (str "ST")
           (str "USC1B") (str "secr3t") = Done (id', None)
         /\ IndicatorFirst.Describe id'
            = Done (IndicatorFirst.emptyDescription, Some err).
Proof.
  apply C1_describe_roundtrip.
  - vm_compute. split; congruence.
  - valid_fields.
Defined.

(** C2, as stated, fails: a vendor of three bytes need not consist of
    letters and digits.  [Generate] upper-cases but does not check the
    bytes, and [Verify] rejects the identifier it returned. *)
Lemma C2_counterexample :
  TimeFirst.Generate sample_env (str "E") (str "A_B") (str "TE") (str "ST") []
    (str "secr3t")
  = Done (str "LOYW3V5N=-EA_BTEST-MISCR-X27CHM8", None)
  /\ TimeFirst.Verify (str "LOYW3V5N=-EA_BTEST-MISCR-X27CHM8") (str "secr3t")
     = Done (false, errorsNew "ID format is invalid").
Proof. split; vm_compute; reflexivity. Qed.

(** C2 (amended): for every indicator among the ten defined ones, vendor,
    type and subtype of lengths 3, 2, 2 and location of length 5 or empty,
    all made of letters, digits and ['='], at an instant after the epoch and
    with a non-empty secret, [Generate] returns an identifier without error
    and [Verify] of that identifier with the same secret returns true: the
    identifier is 31 bytes followed by the checksum byte of the secret over
    those 31 bytes, which is what [Verify] recomputes and compares. *)
Theorem C2_checksum_roundtrip
  (e : Env) (ind vendor nType nSubType loc vendorSecret : gostring) :
  0 <= now e < 2 ^ 63 ->
  valid_input ind vendor nType nSubType loc ->
  vendorSecret <> [] ->
  exists pre c,
    TimeFirst.Generate e ind vendor nType nSubType loc vendorSecret
    = Done (pre ++ [c], None)
    /\ List.length pre = 31%nat
    /\ checksum vendorSecret pre = Done [c]
    /\ TimeFirst.Verify (pre ++ [c]) vendorSecret = Done (true, None).
Proof.
  intros Ht Hv Hne.
  destruct (TimeFirst_Generate_shape e ind vendor nType nSubType loc vendorSecret Ht Hv)
    as (key & r6 & c & Hk & Hg & Hs & Hsum & _).
  eexists _, c. split; [exact Hg|].
  split.
  - pose proof (segments_length _ _ _ _ _ _ _ _ _ Hs) as Hl.
    rewrite length_app in Hl. cbn in Hl. lia.
  - split; [exact (Hsum Hne)|].
    rewrite (TimeFirst_Verify_segments _ _ _ _ _ _ Hs).
    rewrite (checksum_check_secret _ _ _ Hne), (Hsum Hne).
    cbn [bind]. rewrite gostring_eqb_refl. reflexivity.
Qed.

Lemma C2_witness :
  exists pre c,
    TimeFirst.Generate sample_env (str "E") (str "FOR") (str "TE") (str "ST") []
      (str "secr3t")
    = Done (pre ++ [c], None)
    /\ List.length pre = 31%nat
    /\ checksum (str "secr3t") pre = Done [c]
    /\ TimeFirst.Verify (pre ++ [c]) (str "secr3t") = Done (true, None).
Proof.
  apply C2_checksum_roundtrip.
  - vm_compute. split; congruence.
  - valid_fields.
  - discriminate.
Defined.

(** C3 at its failing input: [isValidIndicator] is a substring test against
    ["ELCMAFTTRND"], so the two-byte indicator ["EL"] counts as known, is not
    replaced by ["E"], and the identifier [Generate] returns has 33 bytes. *)
Theorem C3_length_at_two_byte_indicator :
  isValidIndicator (str "EL") = true
  /\ TimeFirst.Generate sample_env (str "EL") (str "FID") (str "TE") (str "ES") [] []
     = Done (str "LOYW3V5N=-ELFIDTEES-MISCR-X27CHMR", None)
  /\ len (str "LOYW3V5N=-ELFIDTEES-MISCR-X27CHMR") = 33
  /\ TimeFirst.Verify (str "LOYW3V5N=-ELFIDTEES-MISCR-X27CHMR") []
     = Done (false, errorsNew "ID is of invalid length").
Proof. repeat split; vm_compute; reflexivity. Qed.




(** C5, as stated, fails on two accepted identifiers: a time segment made
    of pads alone leaves nothing to parse and the call returns an error; and
    the largest key ["ZZZZZZZZZ"] parses to 101559956668415, whose product
    with [time.Millisecond] leaves [int64], so the returned time is not that
    many milliseconds after the epoch. *)
Lemma C5_counterexample :
  TimeFirst.Verify (str "=========-EABCCDEF-MISCR-AAAAAAA") [] = Done (true, None)
  /\ TimeFirst.GetTimeFromID (str "=========-EABCCDEF-MISCR-AAAAAAA")
     = Done (ZeroTime, Some (NumError "ParseInt" [] ErrSyntax))
  /\ TimeFirst.Verify (str "ZZZZZZZZZ-EABCCDEF-MISCR-AAAAAAA") [] = Done (true, None)
  /\ ParseInt (str "ZZZZZZZZZ") 36 = (101559956668415, None)
  /\ TimeFirst.GetTimeFromID (str "ZZZZZZZZZ-EABCCDEF-MISCR-AAAAAAA")
     = Done (UnixTime (-9120507773842309696), None)
  /\ -9120507773842309696 <> 101559956668415 * Millisecond.
Proof. repeat split; vm_compute; congruence. Qed.

(** C5 (amended): for every identifier of the canonical layout whose time
    segment keeps at least one byte once the pads are stripped, and whose
    base-36 value is at most 9223372036854, [GetTimeFromID] parses the
    stripped segment to that value and returns exactly that many
    milliseconds after the Unix epoch: nothing is subtracted or reversed. *)
Theorem C5_time_decoding (id : gostring) :
  canonical id = true ->
  Replace (firstn 9 id) TimeFirst.paddingChar [] <> [] ->
  base36_value (Replace (firstn 9 id) TimeFirst.paddingChar []) <= 9223372036854 ->
  ParseInt (Replace (firstn 9 id) TimeFirst.paddingChar []) 36
  = (base36_value (Replace (firstn 9 id) TimeFirst.paddingChar []), None)
  /\ TimeFirst.GetTimeFromID id
     = Done (UnixTime (base36_value (Replace (firstn 9 id) TimeFirst.paddingChar [])
                       * Millisecond), None).
Proof.
  intros Hc Hne Hb.
  destruct (TimeFirst_GetTime_value id Hc Hne) as (Hv & Hp & Hg).
  split; [exact Hp|]. rewrite Hg, wrap64_small; [reflexivity|].
  unfold Millisecond. change (2 ^ 63) with 9223372036854775808. lia.
Qed.

Lemma C5_witness :
  ParseInt (Replace (firstn 9 (str "IPIH7MI2=-EABCCDEF-MISCR-V669VFQ"))
              TimeFirst.paddingChar []) 36
  = (base36_value (Replace (firstn 9 (str "IPIH7MI2=-EABCCDEF-MISCR-V669VFQ"))
                     TimeFirst.paddingChar []), None)
  /\ TimeFirst.GetTimeFromID (str "IPIH7MI2=-EABCCDEF-MISCR-V669VFQ")
     = Done (UnixTime (base36_value
                         (Replace (firstn 9 (str "IPIH7MI2=-EABCCDEF-MISCR-V669VFQ"))
                            TimeFirst.paddingChar [])
                       * Millisecond), None).
Proof.
  apply C5_time_decoding.
  - vm_compute. reflexivity.
  - vm_compute. discriminate.
  - vm_compute. discriminate.
Defined.

(** C6, as stated, fails: the checksum is one hexadecimal digit, so another
    secret can produce the same digit.  The identifier generated with
    ["secr3t"] is accepted with the different secret ["a"]. *)
Lemma C6_counterexample :
  TimeFirst.Generate sample_env (str "E") (str "FOR") (str "TE") (str "ST") []
    (str "secr3t")
  = Done (str "LOYW3V5N=-EFORTEST-MISCR-X27CHM0", None)
  /\ str "a" <> str "secr3t"
  /\ TimeFirst.Verify (str "LOYW3V5N=-EFORTEST-MISCR-X27CHM0") (str "a")
     = Done (true, None).
Proof. split; [|split]; [vm_compute; reflexivity|discriminate|vm_compute; reflexivity]. Qed.

(** C6 (amended): for an identifier generated from well-formed fields with
    a non-empty secret [s], and any non-empty secret [s'], [Verify] with
    [s'] returns false with the checksum-mismatch error exactly when the
    checksum byte of [s'] over the first 31 bytes differs from the one
    [Generate] appended, and true when the two bytes coincide. *)
Theorem C6_wrong_secret
  (e : Env) (ind vendor nType nSubType loc s s' : gostring) :
  0 <= now e < 2 ^ 63 ->
  valid_input ind vendor nType nSubType loc ->
  s <> [] -> s' <> [] ->
  exists pre c c',
    TimeFirst.Generate e ind vendor nType nSubType loc s = Done (pre ++ [c], None)
    /\ checksum s pre = Done [c]
    /\ checksum s' pre = Done [c']
    /\ (c' <> c ->
        TimeFirst.Verify (pre ++ [c]) s'
        = Done (false, errorsNew "Checksum does not match vendor secret"))
    /\ (c' = c -> TimeFirst.Verify (pre ++ [c]) s' = Done (true, None)).
Proof.
  intros Ht Hv Hs Hs'.
  destruct (TimeFirst_Generate_shape e ind vendor nType nSubType loc s Ht Hv)
    as (key & r6 & c & Hk & Hg & Hseg & Hsum & _).
  set (pre := assemble _ _ _ _) in *.
  destruct (checksum_byte s' pre) as (c' & Hc' & _).
  exists pre, c, c'. split; [exact Hg|]. split; [exact (Hsum Hs)|].
  split; [exact Hc'|].
  rewrite (TimeFirst_Verify_segments _ _ _ _ _ _ Hseg).
  rewrite (checksum_check_secret _ _ _ Hs'), Hc'. cbn [bind].
  split; intros Hcc.
  - destruct (gostring_eqb [c'] [c]) eqn:E; [|reflexivity].
    apply gostring_eqb_eq in E. congruence.
  - subst c'. rewrite gostring_eqb_refl. reflexivity.
Qed.

Lemma C6_witness :
  exists pre c c',
    TimeFirst.Generate sample_env (str "E") (str "FOR") (str "TE") (str "ST") []
      (str "secr3t") = Done (pre ++ [c], None)
    /\ checksum (str "secr3t") pre = Done [c]
    /\ checksum (str "wrong") pre = Done [c']
    /\ (c' <> c ->
        TimeFirst.Verify (pre ++ [c]) (str "wrong")
        = Done (false, errorsNew "Checksum does not match vendor secret"))
    /\ (c' = c -> TimeFirst.Verify (pre ++ [c]) (str "wrong") = Done (true, None)).
Proof.
  apply C6_wrong_secret.
  - vm_compute. split; congruence.
  - valid_fields.
  - discriminate.
  - discriminate.
Defined.




(** C8: [Verify] returns on every identifier and every secret, it never
    panics; and when the identifier is not of the canonical layout (length
    other than 32, a dash missing at offset 9, 18 or 24, or a byte outside
    [[A-Z0-9=]] elsewhere) it returns false together with one of the three
    structural errors, whatever the secret. *)
Theorem C8_malformed_rejected (id vendorSecret : gostring) :
  (exists b err, TimeFirst.Verify id vendorSecret = Done (b, err))
  /\ (canonical id = false ->
      exists err, TimeFirst.Verify id vendorSecret = Done (false, err)
                  /\ structural_error err).
Proof.
  assert (Hrej : canonical id = false ->
                 exists err, TimeFirst.Verify id vendorSecret = Done (false, err)
                             /\ structural_error err).
  { intros Hc. apply TimeFirst_Verify_reject. intros a b c d Hs.
    rewrite (segments_canonical _ _ _ _ _ Hs) in Hc. discriminate. }
  split; [|exact Hrej].
  destruct (canonical id) eqn:Hc.
  - destruct (canonical_segments _ Hc) as (a & b & c & d & Hs).
    rewrite (TimeFirst_Verify_segments _ _ _ _ _ _ Hs).
    pose proof (segments_length _ _ _ _ _ _ _ _ _ Hs) as Hl.
    destruct (snoc_split id 31 Hl) as (pre & x & -> & _).
    destruct vendorSecret as [|s0 s]; [do 2 eexists; reflexivity|].
    rewrite checksum_check_secret by discriminate.
    destruct (checksum_byte (s0 :: s) pre) as (cs & -> & _). cbn [bind].
    destruct (negb (gostring_eqb [cs] [x])); do 2 eexists; reflexivity.
  - destruct (Hrej eq_refl) as (err & -> & _). do 2 eexists; reflexivity.
Qed.

Lemma C8_witness :
  (exists b err,
      TimeFirst.Verify (str "55QRHT4E-EFOTKPS-USC1B-39H6POWT") (str "secr3t")
      = Done (b, err))
  /\ canonical (str "55QRHT4E-EFOTKPS-USC1B-39H6POWT") = false
  /\ exists err,
       TimeFirst.Verify (str "55QRHT4E-EFOTKPS-USC1B-39H6POWT") (str "secr3t")
       = Done (false, err)
       /\ structural_error err.
Proof.
  destruct (C8_malformed_rejected (str "55QRHT4E-EFOTKPS-USC1B-39H6POWT") (str "secr3t"))
    as [H1 H2].
  split; [exact H1|]. split; [vm_compute; reflexivity|].
  apply H2. vm_compute. reflexivity.
Defined.

(** C9: the literal identifier of the README passes [Verify] with an empty
    secret, with no error. *)
Theorem C9_literal_identifier :
  TimeFirst.Verify (str "IPIH7MI2=-EABCCDEF-MISCR-V669VFQ") [] = Done (true, None).
Proof. vm_compute. reflexivity. Qed.



End Claims.

(** * Further properties of the code *)

(** ** [Verify] of the time-first revision *)

Lemma TimeFirst_Verify_format id vendorSecret :
  List.length id = 32%nat -> canonical id = false ->
  TimeFirst.Verify id vendorSecret = Done (false, errorsNew "ID format is invalid").
Proof.
  intros Hl Hc. unfold TimeFirst.Verify, len. rewrite Hl.
  replace (Z.of_nat 32 =? TimeFirst.idLength) with true by reflexivity. cbn [negb].
  destruct (FindStringSubmatch TimeFirst.idRegex id) as [|m ms] eqn:Hf; [reflexivity|].
  exfalso. destruct (Find_segments 9 8 5 7 id) as (a & b & c & d & Hs).
  - exact Hl.
  - change (seg_regex 9 8 5 7) with TimeFirst.idRegex. rewrite Hf. congruence.
  - rewrite (segments_canonical _ _ _ _ _ Hs) in Hc. discriminate.
Qed.

Lemma TimeFirst_Verify_length id vendorSecret :
  List.length id <> 32%nat ->
  TimeFirst.Verify id vendorSecret = Done (false, errorsNew "ID is of invalid length").
Proof.
  intros Hl. unfold TimeFirst.Verify, len, TimeFirst.idLength.
  destruct (Z.eqb_spec (Z.of_nat (List.length id)) 32); [lia|reflexivity].
Qed.

Lemma canonical_length id : canonical id = true -> List.length id = 32%nat.
Proof.
  unfold canonical. intros H. apply andb_prop in H. apply Nat.eqb_eq. tauto.
Qed.

Lemma TimeFirst_Verify_checksum id vendorSecret :
  canonical id = true -> vendorSecret <> [] ->
  exists pre c cs,
    id = pre ++ [c] /\ List.length pre = 31%nat
    /\ checksum vendorSecret pre = Done [cs]
    /\ TimeFirst.Verify id vendorSecret
       = if Ascii.eqb cs c then Done (true, None)
         else Done (false, errorsNew "Checksum does not match vendor secret").
Proof.
  intros Hc Hs. destruct (canonical_segments _ Hc) as (a & b & c & d & Hseg).
  destruct (snoc_split id 31 (canonical_length _ Hc)) as (pre & x & -> & Hl).
  destruct (checksum_byte vendorSecret pre) as (cs & Hcs & _).
  exists pre, x, cs. repeat split; try assumption.
  rewrite (TimeFirst_Verify_segments _ _ _ _ _ _ Hseg).
  rewrite (checksum_check_secret _ _ _ Hs), Hcs. cbn [bind].
  destruct (Ascii.eqb_spec cs x) as [->|Hn].
  - rewrite gostring_eqb_refl. reflexivity.
  - destruct (gostring_eqb [cs] [x]) eqn:E; [|reflexivity].
    apply gostring_eqb_eq in E. congruence.
Qed.

(** X1: the decision table of [Verify].  A length other than 32 is reported
    first; at length 32 a layout that is not canonical is reported as a
    format error; a canonical identifier is accepted with an empty secret,
    and with a non-empty one exactly when its last byte is the checksum byte
    of the secret over the first 31. *)
Theorem X1_Verify_decision_table (id vendorSecret : gostring) :
  (List.length id <> 32%nat ->
   TimeFirst.Verify id vendorSecret = Done (false, errorsNew "ID is of invalid length"))
  /\ (List.length id = 32%nat -> canonical id = false ->
      TimeFirst.Verify id vendorSecret = Done (false, errorsNew "ID format is invalid"))
  /\ (canonical id = true -> TimeFirst.Verify id [] = Done (true, None))
  /\ (canonical id = true -> vendorSecret <> [] ->
      exists pre c cs,
        id = pre ++ [c] /\ List.length pre = 31%nat
        /\ checksum vendorSecret pre = Done [cs]
        /\ TimeFirst.Verify id vendorSecret
           = if Ascii.eqb cs c then Done (true, None)
             else Done (false, errorsNew "Checksum does not match vendor secret")).
Proof.
  split; [apply TimeFirst_Verify_length|].
  split; [apply TimeFirst_Verify_format|].
  split; [apply TimeFirst_Verify_canonical|].
  apply TimeFirst_Verify_checksum.
Qed.

Lemma X1_witness :
  TimeFirst.Verify (str "55QRHT4E-EFOTKPS-USC1B-39H6POWT") (str "s")
  = Done (false, errorsNew "ID is of invalid length")
  /\ TimeFirst.Verify (str "EFORTKPS-55QRHT4ET-USC1B-XRAQPPD") (str "s")
     = Done (false, errorsNew "ID format is invalid")
  /\ TimeFirst.Verify (str "55QRHT4ET-EFORTKPS-USC1B-XRAQPPD") [] = Done (true, None)
  /\ exists pre c cs,
       str "55QRHT4ET-EFORTKPS-USC1B-XRAQPPD" = pre ++ [c] /\ List.length pre = 31%nat
       /\ checksum (str "s") pre = Done [cs]
       /\ TimeFirst.Verify (str "55QRHT4ET-EFORTKPS-USC1B-XRAQPPD") (str "s")
          = if Ascii.eqb cs c then Done (true, None)
            else Done (false, errorsNew "Checksum does not match vendor secret").
Proof.
  split; [|split; [|split]].
  - apply (proj1 (X1_Verify_decision_table _ _)). vm_compute. discriminate.
  - apply (proj1 (proj2 (X1_Verify_decision_table _ _))); vm_compute; reflexivity.
  - apply (proj1 (proj2 (proj2 (X1_Verify_decision_table _ (str "s"))))).
    vm_compute. reflexivity.
  - apply (proj2 (proj2 (proj2 (X1_Verify_decision_table _ _)))).
    + vm_compute. reflexivity.
    + discriminate.
Defined.

(** X2: [Verify] has four outcomes and no other; the third structural
    check, on the number of dash-separated components, never fires, because
    a 32-byte text that matches the pattern has exactly three dashes. *)
Theorem X2_Verify_outcomes (id vendorSecret : gostring) :
  (TimeFirst.Verify id vendorSecret = Done (true, None)
   \/ TimeFirst.Verify id vendorSecret
      = Done (false, errorsNew "ID is of invalid length")
   \/ TimeFirst.Verify id vendorSecret = Done (false, errorsNew "ID format is invalid")
   \/ TimeFirst.Verify id vendorSecret
      = Done (false, errorsNew "Checksum does not match vendor secret"))
  /\ forall b, TimeFirst.Verify id vendorSecret
               <> Done (b, errorsNew "Unexpected element count in ID").
Proof.
  assert (H : TimeFirst.Verify id vendorSecret = Done (true, None)
   \/ TimeFirst.Verify id vendorSecret
      = Done (false, errorsNew "ID is of invalid length")
   \/ TimeFirst.Verify id vendorSecret = Done (false, errorsNew "ID format is invalid")
   \/ TimeFirst.Verify id vendorSecret
      = Done (false, errorsNew "Checksum does not match vendor secret")).
  { destruct (Nat.eq_dec (List.length id) 32) as [Hl|Hl].
    - destruct (canonical id) eqn:Hc.
      + destruct vendorSecret as [|x s].
        * left. apply TimeFirst_Verify_canonical. exact Hc.
        * destruct (TimeFirst_Verify_checksum id (x :: s) Hc ltac:(discriminate))
            as (pre & c & cs & _ & _ & _ & ->).
          destruct (Ascii.eqb cs c); auto.
      + right. right. left. apply TimeFirst_Verify_format; assumption.
    - right. left. apply TimeFirst_Verify_length. exact Hl. }
  split; [exact H|].
  intros b. destruct H as [-> | [-> | [-> | ->]]]; discriminate.
Qed.

(** X3: an identifier accepted with some secret is accepted with the empty
    secret too: the checksum is checked on top of the structure, never in
    its place. *)
Theorem X3_Verify_secret_implies_structure (id vendorSecret : gostring) :
  TimeFirst.Verify id vendorSecret = Done (true, None) ->
  TimeFirst.Verify id [] = Done (true, None).
Proof.
  intros H. destruct (TimeFirst_Verify_accept_inv _ _ H) as (a & b & c & d & Hs).
  rewrite (TimeFirst_Verify_segments _ _ _ _ _ _ Hs). reflexivity.
Qed.

Lemma X3_witness :
  TimeFirst.Verify (str "LOYW3V5N=-EFORTEST-MISCR-X27CHM0") [] = Done (true, None).
Proof.
  apply (X3_Verify_secret_implies_structure _ (str "secr3t")).
  vm_compute. reflexivity.
Defined.

Lemma hex_digit_upper_hex d :
  0 <= d < 16 -> is_upper_hex (upper_byte (hex_digit d)) = true.
Proof.
  apply (range_forallb (fun d => is_upper_hex (upper_byte (hex_digit d))) 16).
  vm_compute. reflexivity.
Qed.

Lemma checksum_upper_hex (vendorSecret text : gostring) :
  exists c, checksum vendorSecret text = Done [c] /\ is_upper_hex c = true.
Proof.
  unfold checksum, MD5.Sum.
  set (st := MD5.blocks _ _ _).
  unfold MD5.le_bytes at 1.
  cbn [List.app EncodeToString flat_map index nth_error Z.to_nat bind].
  replace (0 <? 0) with false by reflexivity.
  cbn [ToUpper map].
  eexists. split; [reflexivity|].
  apply hex_digit_upper_hex.
  assert (0 <= MD5.sa st mod 256 < 256) by (apply Z.mod_pos_bound; lia).
  split; [apply Z.div_pos; lia | apply Z.div_lt_upper_bound; lia].
Qed.

Lemma upper_hex_class c : is_upper_hex c = true -> id_class c = true.
Proof. all_bytes c; vm_compute; congruence. Qed.

Lemma segments_replace_last w1 w2 w3 w4 pre x y a b c d :
  segments w1 w2 w3 (S w4) (pre ++ [x]) a b c d ->
  id_class y = true ->
  exists d', segments w1 w2 w3 (S w4) (pre ++ [y]) a b c d'.
Proof.
  intros (E & La & Lb & Lc & Ld & Ca & Cb & Cc & Cd) Hy.
  destruct (snoc_split d w4 Ld) as (d6 & x' & -> & L6).
  fold (assemble a b c (d6 ++ [x'])) in E. rewrite assemble_snoc in E.
  apply app_inj_tail in E. destruct E as [-> ->].
  exists (d6 ++ [y]). unfold segments.
  fold (assemble a b c (d6 ++ [y])). rewrite assemble_snoc.
  rewrite forallb_app in Cd |- *. apply andb_prop in Cd. destruct Cd as [Cd _].
  rewrite length_app. cbn [List.length forallb]. rewrite Cd, Hy.
  repeat split; auto. lia.
Qed.

(** X4: for the first 31 bytes of an accepted identifier and a non-empty
    secret, exactly one final byte makes [Verify] accept, and it is one of
    the sixteen bytes [0-9A-F]. *)
Theorem X4_one_checksum_byte (pre vendorSecret : gostring) :
  (exists x0, canonical (pre ++ [x0]) = true) ->
  vendorSecret <> [] ->
  exists c,
    is_upper_hex c = true
    /\ checksum vendorSecret pre = Done [c]
    /\ forall x, TimeFirst.Verify (pre ++ [x]) vendorSecret = Done (true, None) <-> x = c.
Proof.
  intros (x0 & Hc0) Hs.
  destruct (checksum_upper_hex vendorSecret pre) as (c & Hcs & Hhex).
  exists c. split; [exact Hhex|]. split; [exact Hcs|].
  intros x. split.
  - intros Hv. destruct (TimeFirst_Verify_accept_inv _ _ Hv) as (a & b & c' & d & Hseg).
    rewrite (TimeFirst_Verify_segments _ _ _ _ _ _ Hseg) in Hv.
    rewrite (checksum_check_secret _ _ _ Hs), Hcs in Hv. cbn [bind] in Hv.
    destruct (gostring_eqb [c] [x]) eqn:E; [|discriminate].
    apply gostring_eqb_eq in E. congruence.
  - intros ->. destruct (canonical_segments _ Hc0) as (a & b & c' & d & Hseg).
    destruct (segments_replace_last _ _ _ _ _ _ c _ _ _ _ Hseg (upper_hex_class _ Hhex))
      as (d' & Hseg').
    rewrite (TimeFirst_Verify_segments _ _ _ _ _ _ Hseg').
    rewrite (checksum_check_secret _ _ _ Hs), Hcs. cbn [bind].
    rewrite gostring_eqb_refl. reflexivity.
Qed.

Lemma X4_witness :
  exists c,
    is_upper_hex c = true
    /\ checksum (str "secr3t") (str "LOYW3V5N=-EFORTEST-MISCR-X27CHM") = Done [c]
    /\ forall x,
         TimeFirst.Verify (str "LOYW3V5N=-EFORTEST-MISCR-X27CHM" ++ [x]) (str "secr3t")
         = Done (true, None) <-> x = c.
Proof.
  apply X4_one_checksum_byte.
  - exists "R"%char. vm_compute. reflexivity.
  - discriminate.
Defined.

(** ** The time key of the time-first revision *)

Lemma formatBits_length_ge fuel : forall u acc k,
  0 <= u -> 36 ^ Z.of_nat k <= u ->
  (1 <= fuel)%nat -> u < 36 ^ Z.of_nat fuel ->
  (k + 1 + List.length acc <= List.length (formatBits fuel 36 u acc))%nat.
Proof.
  induction fuel as [|f IH]; intros u acc k Hu Hk Hf Hlt; [lia|].
  cbn [formatBits]. destruct (Z.ltb_spec u 36) as [H36|H36].
  - destruct k as [|k]; [cbn [List.length]; lia|].
    exfalso. rewrite Nat2Z.inj_succ, Z.pow_succ_r in Hk by lia.
    pose proof (Z.pow_pos_nonneg 36 (Z.of_nat k) ltac:(lia) ltac:(lia)). lia.
  - assert (Hf1 : (1 <= f)%nat).
    { destruct f; [|lia]. change (36 ^ Z.of_nat 1) with 36 in Hlt. lia. }
    assert (Hq : 0 <= u / 36 < 36 ^ Z.of_nat f).
    { split; [apply Z.div_pos; lia|].
      apply Z.div_lt_upper_bound; [lia|].
      rewrite Nat2Z.inj_succ, Z.pow_succ_r in Hlt by lia. lia. }
    destruct k as [|k].
    + specialize (IH (u / 36) (digit_char (u mod 36) :: acc) 0%nat
                    ltac:(lia)).
      cbn [List.length] in IH. 
      assert (36 ^ Z.of_nat 0 <= u / 36).
      { change (36 ^ Z.of_nat 0) with 1. apply Z.div_le_lower_bound; lia. }
      specialize (IH H Hf1 ltac:(lia)). lia.
    + specialize (IH (u / 36) (digit_char (u mod 36) :: acc) k ltac:(lia)).
      cbn [List.length] in IH.
      assert (36 ^ Z.of_nat k <= u / 36).
      { apply Z.div_le_lower_bound; [lia|].
        rewrite Nat2Z.inj_succ, Z.pow_succ_r in Hk by lia. lia. }
      specialize (IH H Hf1 ltac:(lia)). lia.
Qed.

(** The digits [FormatInt] writes for a negative number, after the sign. *)
Lemma FormatInt_negative ms :
  ms < 0 -> - 36 ^ 13 < ms ->
  exists ds,
    ToUpper (FormatInt ms 36) = "-"%char :: ds
    /\ (forall k, (1 <= k)%nat -> - ms < 36 ^ Z.of_nat k -> (List.length ds <= k)%nat)
    /\ (forall k, 36 ^ Z.of_nat k <= - ms -> (k + 1 <= List.length ds)%nat).
Proof.
  intros Hneg Hlow. unfold FormatInt.
  destruct (Z.ltb_spec ms 0); [|lia].
  assert (Hr : 0 <= - ms < 36 ^ Z.of_nat 65).
  { split; [lia|]. eapply Z.lt_le_trans with (m := 36 ^ 13); [lia|].
    apply Z.pow_le_mono_r; lia. }
  destruct (formatBits_spec 65 (- ms) [] ltac:(lia) Hr) as (ds & E & _ & _ & Hlen & _).
  exists (ToUpper ds). split.
  - rewrite E, app_nil_r. reflexivity.
  - split.
    + intros k Hk Hlt. rewrite ToUpper_length. apply Hlen; assumption.
    + intros k Hk. rewrite ToUpper_length.
      pose proof (formatBits_length_ge 65 (- ms) [] k ltac:(lia) Hk ltac:(lia)
                    (proj2 Hr)) as Hge.
      rewrite E, app_nil_r in Hge. cbn [List.length] in Hge. lia.
Qed.

Lemma quot_int64 t :
  int64_range t -> - 9223372036855 < Z.quot t 1000000 < 9223372036855.
Proof.
  unfold int64_range. change (2 ^ 63) with 9223372036854775808. intros Ht.
  destruct (Z_lt_le_dec t 0).
  - rewrite <- (Z.opp_involutive t), Z.quot_opp_l by lia.
    rewrite Z.quot_div_nonneg by lia.
    assert (0 <= - t / 1000000) by (apply Z.div_pos; lia).
    assert (- t / 1000000 < 9223372036855) by (apply Z.div_lt_upper_bound; lia).
    lia.
  - rewrite Z.quot_div_nonneg by lia.
    assert (0 <= t / 1000000) by (apply Z.div_pos; lia).
    assert (t / 1000000 < 9223372036855) by (apply Z.div_lt_upper_bound; lia).
    lia.
Qed.

(** X5: at an instant from the epoch on, [getBase32TimeKey] never fails:
    it returns nine bytes, the upper-case base-36 digits of the millisecond
    count first and pad bytes after them, and the digits parse back to the
    millisecond count. *)
Theorem X5_timekey_after_epoch (t : Z) :
  0 <= t < 2 ^ 63 ->
  exists digits n,
    TimeFirst.getBase32TimeKey t = (digits ++ repeat TimeFirst.paddingChar n, None)
    /\ (1 <= List.length digits)%nat
    /\ (List.length digits + n = 9)%nat
    /\ forallb (fun c => id_class c && not_pad c) digits = true
    /\ ParseInt digits 36 = (t / 1000000, None).
Proof.
  intros Ht. destruct (millis_bound t Ht) as [Hq Hms].
  unfold TimeFirst.getBase32TimeKey. rewrite Hq.
  destruct (FormatInt_spec (t / 1000000))
    as (ds & E & Hne & Hlen & Hcls & Hrep & Hparse & Hsign).
  { change (36 ^ 9) with 101559956668416. lia. }
  unfold TimeFirst.timeKeyBase. rewrite E. cbv zeta.
  set (paddingLen := (len ds - TimeFirst.timeKeyLength) * -1).
  assert (Hp : paddingLen = Z.of_nat (9 - List.length ds)).
  { unfold paddingLen, len, TimeFirst.timeKeyLength. lia. }
  exists ds, (9 - List.length ds)%nat.
  split.
  - destruct (Z.ltb_spec paddingLen 0); [lia|].
    destruct (Z.ltb_spec 0 paddingLen).
    + rewrite pad_loop_repeat. rewrite Hp, Nat2Z.id. reflexivity.
    + replace (9 - List.length ds)%nat with 0%nat by lia.
      cbn [repeat]. rewrite app_nil_r. reflexivity.
  - split; [destruct ds; [congruence|cbn; lia]|].
    split; [lia|]. split.
    + rewrite Replace_pad_filter in Hrep.
      apply forallb_forall. intros c Hc.
      rewrite forallb_forall in Hcls. rewrite (Hcls c Hc). cbn [andb].
      rewrite <- Hrep in Hc. apply filter_In in Hc. tauto.
    + apply ParseInt_digits; auto.
      * exact (Hparse 0%nat).
      * lia.
Qed.

Lemma X5_witness :
  exists digits n,
    TimeFirst.getBase32TimeKey 1700000000123456789
    = (digits ++ repeat TimeFirst.paddingChar n, None)
    /\ (1 <= List.length digits)%nat
    /\ (List.length digits + n = 9)%nat
    /\ forallb (fun c => id_class c && not_pad c) digits = true
    /\ ParseInt digits 36 = (1700000000123456789 / 1000000, None).
Proof. apply X5_timekey_after_epoch. vm_compute. split; congruence. Defined.

Lemma timekey_result key :
  let paddingLen := (len key - TimeFirst.timeKeyLength) * -1 in
  ((if paddingLen <? 0 then ([], errorsNew "Invalid time key")
    else (if 0 <? paddingLen then TimeFirst.pad_loop (Z.to_nat paddingLen) key else key,
          None))
   = if (9 <? len key) then ([], errorsNew "Invalid time key")
     else (key ++ repeat TimeFirst.paddingChar (9 - List.length key), None)).
Proof.
  cbv zeta. unfold len, TimeFirst.timeKeyLength.
  destruct (Z.ltb_spec ((Z.of_nat (List.length key) - 9) * -1) 0);
    destruct (Z.ltb_spec 9 (Z.of_nat (List.length key))); try lia; [reflexivity|].
  destruct (Z.ltb_spec 0 ((Z.of_nat (List.length key) - 9) * -1)).
  - rewrite pad_loop_repeat. do 3 f_equal. lia.
  - replace (9 - List.length key)%nat with 0%nat by lia.
    cbn [repeat]. rewrite app_nil_r. reflexivity.
Qed.

Lemma getBase32TimeKey_eq t :
  TimeFirst.getBase32TimeKey t
  = if 9 <? len (ToUpper (FormatInt (go_div t 1000000) 36))
    then ([], errorsNew "Invalid time key")
    else (ToUpper (FormatInt (go_div t 1000000) 36)
          ++ repeat TimeFirst.paddingChar
               (9 - List.length (ToUpper (FormatInt (go_div t 1000000) 36))), None).
Proof.
  unfold TimeFirst.getBase32TimeKey.
  exact (timekey_result (ToUpper (FormatInt (go_div t 1000000) 36))).
Qed.

(** X6: for an [int64] clock, [getBase32TimeKey] fails with "Invalid time
    key" exactly when the millisecond count is at most [-36^8]
    (-2821109907456, in the year 1880): the sign and nine digits do not fit.
    No instant after that fails, so the error cannot be an overflow of a
    late timestamp. *)
Theorem X6_timekey_error (t : Z) :
  int64_range t ->
  (Z.quot t 1000000 <= - 2821109907456 ->
   TimeFirst.getBase32TimeKey t = ([], errorsNew "Invalid time key"))
  /\ (- 2821109907456 < Z.quot t 1000000 ->
      exists key, TimeFirst.getBase32TimeKey t = (key, None)
                  /\ List.length key = 9%nat).
Proof.
  intros Ht. pose proof (quot_int64 t Ht) as Hq.
  rewrite getBase32TimeKey_eq. unfold go_div.
  set (ms := Z.quot t 1000000) in *.
  split.
  - intros Hlow.
    destruct (FormatInt_negative ms) as (ds & E & _ & Hge); [lia| |].
    { change (36 ^ 13) with 170581728179578208256. lia. }
    rewrite E. specialize (Hge 8%nat).
    change (36 ^ Z.of_nat 8) with 2821109907456 in Hge. specialize (Hge ltac:(lia)).
    unfold len. cbn [List.length].
    destruct (Z.ltb_spec 9 (Z.of_nat (S (List.length ds)))); [reflexivity|lia].
  - intros Hhigh.
    assert (Hlen : (List.length (ToUpper (FormatInt ms 36)) <= 9)%nat).
    { destruct (Z_lt_le_dec ms 0) as [Hneg|Hpos].
      - destruct (FormatInt_negative ms) as (ds & E & Hle & _); [lia| |].
        { change (36 ^ 13) with 170581728179578208256. lia. }
        rewrite E. cbn [List.length]. specialize (Hle 8%nat ltac:(lia)).
        change (36 ^ Z.of_nat 8) with 2821109907456 in Hle. lia.
      - destruct (FormatInt_spec ms) as (ds & E & _ & Hl & _).
        { change (36 ^ 9) with 101559956668416. lia. }
        rewrite E. exact Hl. }
    unfold len.
    destruct (Z.ltb_spec 9 (Z.of_nat (List.length (ToUpper (FormatInt ms 36))))); [lia|].
    eexists. split; [reflexivity|].
    rewrite length_app, repeat_length. lia.
Qed.

Lemma X6_witness :
  TimeFirst.getBase32TimeKey (- 2821109907456000000)
  = ([], errorsNew "Invalid time key")
  /\ exists key, TimeFirst.getBase32TimeKey (- 2821109907455999999) = (key, None)
                 /\ List.length key = 9%nat.
Proof.
  split.
  - apply (proj1 (X6_timekey_error (- 2821109907456000000) ltac:(vm_compute; split; congruence))).
    vm_compute. discriminate.
  - apply (proj2 (X6_timekey_error (- 2821109907455999999) ltac:(vm_compute; split; congruence))).
    vm_compute. reflexivity.
Defined.

(** ** [Generate] of the time-first revision *)

Lemma seal_nosecret p : seal p [] = Done (p, None).
Proof. reflexivity. Qed.

Lemma seal_secret pre c7 vendorSecret :
  vendorSecret <> [] ->
  exists cs, is_upper_hex cs = true
             /\ checksum vendorSecret pre = Done [cs]
             /\ seal (pre ++ [c7]) vendorSecret = Done (pre ++ [cs], None).
Proof.
  intros Hs. destruct vendorSecret as [|x s]; [congruence|].
  destruct (checksum_upper_hex (x :: s) pre) as (cs & Hcs & Hhex).
  exists cs. split; [exact Hhex|]. split; [exact Hcs|].
  unfold seal. rewrite len_cons_pos, slice_init. cbn [bind]. rewrite Hcs. reflexivity.
Qed.

Lemma seal_head c p vendorSecret id :
  p <> [] -> seal (c :: p) vendorSecret = Done (id, None) ->
  exists rest, id = c :: rest.
Proof.
  intros Hp Hseal.
  destruct (exists_last (l := c :: p) ltac:(discriminate)) as (pre & c7 & E).
  destruct pre as [|c' pre].
  { cbn in E. inversion E. congruence. }
  cbn [List.app] in E. inversion E; subst c'.
  destruct vendorSecret as [|x s].
  - rewrite seal_nosecret in Hseal. inversion Hseal. eauto.
  - change (c :: p) with ([c] ++ p) in Hseal. rewrite H1 in Hseal.
    change ([c] ++ pre ++ [c7]) with ((c :: pre) ++ [c7]) in Hseal.
    destruct (seal_secret (c :: pre) c7 (x :: s) ltac:(discriminate))
      as (cs & _ & _ & Hs).
    rewrite Hs in Hseal. inversion Hseal. cbn. eauto.
Qed.

Lemma canonical_head c rest : canonical (c :: rest) = true -> id_class c = true.
Proof.
  unfold canonical. intros H. apply andb_prop in H. destruct H as [_ H].
  cbn [seq combine forallb] in H. apply andb_prop in H. destruct H as [H _].
  exact H.
Qed.

Lemma TimeFirst_Verify_not_canonical id vendorSecret :
  canonical id = false ->
  exists err, TimeFirst.Verify id vendorSecret = Done (false, err)
              /\ structural_error err.
Proof.
  intros Hc. destruct (Nat.eq_dec (List.length id) 32) as [Hl|Hl].
  - rewrite (TimeFirst_Verify_format _ _ Hl Hc). eexists; split; [reflexivity|constructor].
  - rewrite (TimeFirst_Verify_length _ _ Hl). eexists; split; [reflexivity|constructor].
Qed.

(** X7: with the clock set before the epoch (but after 1880), [Generate]
    still returns an identifier without error, yet the time key starts with
    the minus sign of the negative millisecond count, and [Verify] rejects
    that identifier on its structure, whatever the fields and secrets. *)
Theorem X7_Generate_before_epoch
  (e : Env) (ind vendor nType nSubType loc vendorSecret secret' : gostring) :
  - 2821109907456 < Z.quot (now e) 1000000 < 0 ->
  List.length vendor = 3%nat -> List.length nType = 2%nat ->
  exists rest err,
    TimeFirst.Generate e ind vendor nType nSubType loc vendorSecret
    = Done ("-"%char :: rest, None)
    /\ TimeFirst.Verify ("-"%char :: rest) secret' = Done (false, err)
    /\ structural_error err.
Proof.
  intros Hms Hv Ht.
  destruct (FormatInt_negative (Z.quot (now e) 1000000)) as (ds & E & Hle & _); [lia| |].
  { change (36 ^ 13) with 170581728179578208256. lia. }
  specialize (Hle 8%nat ltac:(lia)).
  change (36 ^ Z.of_nat 8) with 2821109907456 in Hle. specialize (Hle ltac:(lia)).
  assert (Hk : TimeFirst.getBase32TimeKey (now e)
               = ("-"%char :: ds ++ repeat TimeFirst.paddingChar (8 - List.length ds), None)).
  { rewrite getBase32TimeKey_eq. unfold go_div. rewrite E. unfold len.
    cbn [List.length].
    destruct (Z.ltb_spec 9 (Z.of_nat (S (List.length ds)))); [lia|].
    reflexivity. }
  rewrite TimeFirst_Generate_eq, Hk.
  change 3 with (Z.of_nat 3). change 2 with (Z.of_nat 2).
  repeat rewrite len_eqb_length. rewrite Hv, Ht. cbn [Nat.eqb negb].
  cbn [List.app ToUpper map].
  replace (upper_byte "-") with "-"%char by reflexivity.
  match goal with
  | |- exists rest err, seal ("-"%char :: ?p) _ = _ /\ _ =>
      destruct (seal_total ("-"%char :: p) vendorSecret ltac:(discriminate))
        as (id & Hseal);
      destruct (seal_head "-"%char p vendorSecret id) as (rest & ->);
        [|exact Hseal|]
  end.
  { intros Hnil. apply (f_equal (@List.length ascii)) in Hnil.
    rewrite length_map, length_app, length_app in Hnil. cbn in Hnil. lia. }
  destruct (TimeFirst_Verify_not_canonical ("-"%char :: rest) secret') as (err & Hver & Herr).
  { destruct (canonical ("-"%char :: rest)) eqn:Hc; [|reflexivity].
    apply canonical_head in Hc. vm_compute in Hc. discriminate. }
  exists rest, err. auto.
Qed.

Lemma X7_witness :
  exists rest err,
    TimeFirst.Generate (mkEnv (- 86400000000000) (draw sample_env))
      (str "E") (str "FID") (str "TE") (str "ES") [] (str "secr3t")
    = Done ("-"%char :: rest, None)
    /\ TimeFirst.Verify ("-"%char :: rest) (str "secr3t") = Done (false, err)
    /\ structural_error err.
Proof.
  apply X7_Generate_before_epoch.
  - vm_compute. split; reflexivity.
  - reflexivity.
  - reflexivity.
Defined.

(** X8: the failures of [Generate], in the order the code checks them.  A
    time-key error comes first, whatever the fields; then a vendor whose
    length is not 3; then a type whose length is not 2.  Every failure
    returns the empty string with the error, and there is no other failure:
    with the time key produced, a vendor of length 3 and a type of length 2,
    a non-empty identifier is returned. *)
Theorem X8_Generate_failures
  (e : Env) (ind vendor nType nSubType loc vendorSecret : gostring) :
  (forall err, snd (TimeFirst.getBase32TimeKey (now e)) = Some err ->
     TimeFirst.Generate e ind vendor nType nSubType loc vendorSecret
     = Done ([], Some err))
  /\ (snd (TimeFirst.getBase32TimeKey (now e)) = None ->
      List.length vendor <> 3%nat ->
      TimeFirst.Generate e ind vendor nType nSubType loc vendorSecret
      = Done ([], errorsNew "Vendor must be of length '3'"))
  /\ (snd (TimeFirst.getBase32TimeKey (now e)) = None ->
      List.length vendor = 3%nat -> List.length nType <> 2%nat ->
      TimeFirst.Generate e ind vendor nType nSubType loc vendorSecret
      = Done ([], errorsNew "Type must be of length '2'"))
  /\ (snd (TimeFirst.getBase32TimeKey (now e)) = None ->
      List.length vendor = 3%nat -> List.length nType = 2%nat ->
      exists id,
        id <> []
        /\ TimeFirst.Generate e ind vendor nType nSubType loc vendorSecret
           = Done (id, None)).
Proof.
  rewrite TimeFirst_Generate_eq.
  destruct (TimeFirst.getBase32TimeKey (now e)) as [timeKey [err0|]] eqn:Hk; cbn [snd].
  { split; [intros err E; inversion E; reflexivity|].
    repeat split; discriminate. }
  change 3 with (Z.of_nat 3). change 2 with (Z.of_nat 2).
  repeat rewrite len_eqb_length.
  split; [discriminate|].
  split; [intros _ Hv; apply Nat.eqb_neq in Hv; rewrite Hv; reflexivity|].
  split; [intros _ Hv Ht; apply Nat.eqb_neq in Ht; rewrite Hv, Ht; reflexivity|].
  intros _ Hv Ht. rewrite Hv, Ht. cbn [Nat.eqb negb].
  match goal with
  | |- exists id, _ /\ seal ?p _ = _ =>
      assert (Hp : p <> []) by (unfold ToUpper; destruct timeKey; discriminate);
      destruct (seal_total p vendorSecret Hp) as (id & Hseal);
      pose proof (seal_length _ _ _ Hp Hseal) as Hlen
  end.
  exists id. split; [|exact Hseal].
  intros ->. cbn [List.length] in Hlen.
  rewrite ToUpper_length in Hlen. repeat rewrite length_app in Hlen.
  cbn [List.length] in Hlen. lia.
Qed.

Lemma X8_witness :
  TimeFirst.Generate (mkEnv (- 2821109907456000000) (draw sample_env))
    (str "E") (str "TOOLONG") (str "T") [] [] []
  = Done ([], errorsNew "Invalid time key")
  /\ TimeFirst.Generate sample_env (str "E") (str "TOOLONG") (str "T") [] [] []
     = Done ([], errorsNew "Vendor must be of length '3'")
  /\ TimeFirst.Generate sample_env (str "E") (str "FID") (str "T") [] [] []
     = Done ([], errorsNew "Type must be of length '2'")
  /\ exists id,
       id <> []
       /\ TimeFirst.Generate sample_env (str "E") (str "FID") (str "TE") [] [] []
          = Done (id, None).
Proof.
  split; [|split; [|split]].
  - apply (proj1 (X8_Generate_failures _ _ _ _ _ _ _)). vm_compute. reflexivity.
  - apply (proj1 (proj2 (X8_Generate_failures _ _ _ _ _ _ _)));
      vm_compute; congruence.
  - apply (proj1 (proj2 (proj2 (X8_Generate_failures _ _ _ _ _ _ _))));
      vm_compute; congruence.
  - apply (proj2 (proj2 (proj2 (X8_Generate_failures _ _ _ _ _ _ _))));
      vm_compute; congruence.
Defined.

(** X9: the secret touches the last byte only.  When [Generate] returns an
    identifier without a secret, the same call with a non-empty secret
    returns the same first 31 bytes followed by the checksum byte, one of
    [0-9A-F], in place of the seventh random byte. *)
Theorem X9_secret_replaces_last_byte
  (e : Env) (ind vendor nType nSubType loc vendorSecret id : gostring) :
  vendorSecret <> [] ->
  TimeFirst.Generate e ind vendor nType nSubType loc [] = Done (id, None) ->
  exists pre c cs,
    id = pre ++ [c]
    /\ is_upper_hex cs = true
    /\ checksum vendorSecret pre = Done [cs]
    /\ TimeFirst.Generate e ind vendor nType nSubType loc vendorSecret
       = Done (pre ++ [cs], None).
Proof.
  intros Hs. repeat rewrite TimeFirst_Generate_eq.
  destruct (TimeFirst.getBase32TimeKey (now e)) as [timeKey [err0|]]; [discriminate|].
  destruct (negb (len vendor =? 3)); [discriminate|].
  destruct (negb (len nType =? 2)); [discriminate|].
  match goal with
  | |- seal ?p [] = _ -> _ =>
      assert (Hp : p <> []) by (unfold ToUpper; destruct timeKey; discriminate);
      set (P := p) in *
  end.
  rewrite seal_nosecret. intros E. inversion E as [Hid]. clear E.
  rewrite Hid in *. clear Hid P.
  destruct (exists_last Hp) as (pre & c & ->).
  destruct (seal_secret pre c vendorSecret Hs) as (cs & Hhex & Hcs & Hseal).
  exists pre, c, cs. repeat split; try assumption; reflexivity.
Qed.

Lemma X9_witness :
  exists pre c cs,
    str "LOYW3V5N=-EFORTEST-MISCR-X27CHMR" = pre ++ [c]
    /\ is_upper_hex cs = true
    /\ checksum (str "secr3t") pre = Done [cs]
    /\ TimeFirst.Generate sample_env (str "E") (str "FOR") (str "TE") (str "ST") []
         (str "secr3t")
       = Done (pre ++ [cs], None).
Proof.
  apply X9_secret_replaces_last_byte.
  - discriminate.
  - vm_compute. reflexivity.
Defined.



Lemma assemble_inj_last a b c d d' :
  assemble a b c d = assemble a b c d' -> d = d'.
Proof.
  unfold assemble. intros H.
  apply app_inv_head in H. inversion H as [H1].
  apply app_inv_head in H1. inversion H1 as [H2].
  apply app_inv_head in H2. inversion H2. reflexivity.
Qed.

(** X11: the four components of a generated identifier.  For well-formed
    fields at an instant from the epoch on, splitting the identifier at the
    dashes gives the time key, then indicator, vendor, type and subtype in
    upper case, then the upper-cased location or ["MISCR"], then seven bytes
    of which the first six are the first six random bytes; without a secret
    the seventh is the seventh random byte too. *)
Theorem X11_Generate_components
  (e : Env) (ind vendor nType nSubType loc vendorSecret : gostring) :
  0 <= now e < 2 ^ 63 ->
  valid_input ind vendor nType nSubType loc ->
  exists id key suffix,
    TimeFirst.getBase32TimeKey (now e) = (key, None)
    /\ TimeFirst.Generate e ind vendor nType nSubType loc vendorSecret = Done (id, None)
    /\ Split id delimitChar
       = [key; ind ++ ToUpper vendor ++ ToUpper nType ++ ToUpper nSubType;
          embedded_location loc; suffix]
    /\ List.length suffix = 7%nat
    /\ firstn 6 suffix = firstn 6 (getRandString e 7)
    /\ (vendorSecret = [] -> suffix = getRandString e 7).
Proof.
  intros Ht Hv.
  destruct (TimeFirst_Generate_shape e ind vendor nType nSubType loc vendorSecret Ht Hv)
    as (key & r6 & c & Hk & Hg & Hs & _ & Hno).
  destruct (TimeFirst_Generate_shape e ind vendor nType nSubType loc [] Ht Hv)
    as (key0 & r60 & c0 & Hk0 & Hg0 & Hs0 & _ & Hno0).
  rewrite Hk in Hk0. inversion Hk0; subst key0. clear Hk0.
  specialize (Hno0 eq_refl).
  assert (Hr : r6 = r60).
  { destruct vendorSecret as [|x s].
    - specialize (Hno eq_refl). rewrite <- Hno0 in Hno.
      apply app_inj_tail in Hno. tauto.
    - pose proof Hg0 as Hg0'.
      repeat rewrite TimeFirst_Generate_eq in Hg, Hg0'. rewrite Hk in Hg, Hg0'.
      destruct (negb (len vendor =? 3)); [discriminate|].
      destruct (negb (len nType =? 2)); [discriminate|].
      match type of Hg0' with
      | seal ?p [] = _ => set (P := p) in *
      end.
      rewrite seal_nosecret in Hg0'. inversion Hg0' as [Hp]. rewrite Hp in Hg.
      destruct (seal_secret (assemble key
                  (ind ++ ToUpper vendor ++ ToUpper nType ++ ToUpper nSubType)
                  (embedded_location loc) r60) c0 (x :: s) ltac:(discriminate))
        as (cs & _ & _ & Hseal).
      rewrite Hseal in Hg. inversion Hg as [Hid].
      apply app_inj_tail in Hid. destruct Hid as [Hid _].
      symmetry. exact (assemble_inj_last _ _ _ _ _ Hid). }
  subst r60.
  pose proof (Split_segments _ _ _ _ _ _ _ _ _ Hs) as Hsplit.
  destruct Hs as (_ & _ & _ & _ & Ld & _).
  eexists _, key, (r6 ++ [c]). split; [exact Hk|]. split; [exact Hg|].
  split; [exact Hsplit|]. split; [exact Ld|]. split.
  - rewrite <- Hno0. rewrite length_app in Ld. cbn in Ld.
    repeat rewrite firstn_app.
    replace (6 - List.length r6)%nat with 0%nat by lia. reflexivity.
  - exact Hno.
Qed.

Lemma X11_witness :
  exists id key suffix,
    TimeFirst.getBase32TimeKey (now sample_env) = (key, None)
    /\ TimeFirst.Generate sample_env (str "L") (str "for") (str "te") (str "st")
         (str "usc1b") (str "secr3t") = Done (id, None)
    /\ Split id delimitChar
       = [key; str "L" ++ ToUpper (str "for") ++ ToUpper (str "te") ++ ToUpper (str "st");
          embedded_location (str "usc1b"); suffix]
    /\ List.length suffix = 7%nat
    /\ firstn 6 suffix = firstn 6 (getRandString sample_env 7)
    /\ (str "secr3t" = [] -> suffix = getRandString sample_env 7).
Proof.
  apply X11_Generate_components.
  - vm_compute. split; congruence.
  - valid_fields.
Defined.

(** ** [GetTimeFromID], [isValidIndicator] and [getRandString] *)

(** X12: when [GetTimeFromID] succeeds.  On an identifier that is not of
    the canonical layout it returns the zero time with the structural error
    of [Verify]; and it returns a time exactly when the identifier is of the
    canonical layout and its time segment keeps at least one byte once the
    pads are stripped. *)
Theorem X12_GetTimeFromID_outcomes (id : gostring) :
  (canonical id = false ->
   exists err, TimeFirst.GetTimeFromID id = Done (ZeroTime, err)
               /\ structural_error err)
  /\ ((exists nsec, TimeFirst.GetTimeFromID id = Done (UnixTime nsec, None))
      <-> canonical id = true
          /\ Replace (firstn 9 id) TimeFirst.paddingChar [] <> []).
Proof.
  assert (Hrej : canonical id = false ->
                 exists err, TimeFirst.GetTimeFromID id = Done (ZeroTime, err)
                             /\ structural_error err).
  { intros Hc. destruct (TimeFirst_Verify_not_canonical id [] Hc) as (err & Hv & He).
    exists err. split; [|exact He].
    unfold TimeFirst.GetTimeFromID. rewrite Hv. reflexivity. }
  split; [exact Hrej|]. split.
  - intros (nsec & Hg). destruct (canonical id) eqn:Hc.
    + split; [reflexivity|]. intros Hnil.
      destruct (canonical_segments _ Hc) as (a & b & c & d & Hs).
      rewrite (segments_firstn _ _ _ _ _ _ _ _ Hs) in Hnil.
      rewrite (TimeFirst_GetTime_segments _ _ _ _ _ Hs), Hnil in Hg.
      discriminate.
    + destruct (Hrej eq_refl) as (err & Hz & _). rewrite Hz in Hg. discriminate.
  - intros (Hc & Hne).
    destruct (TimeFirst_GetTime_value id Hc Hne) as (_ & _ & Hg).
    eexists. exact Hg.
Qed.

Lemma X12_witness :
  (exists err,
      TimeFirst.GetTimeFromID (str "55QRHT4E-EFOTKPS-USC1B-39H6POWT")
      = Done (ZeroTime, err) /\ structural_error err)
  /\ exists nsec,
       TimeFirst.GetTimeFromID (str "IP41IR5M=-EFIOUSAC-MISCR-9JQLO0F")
       = Done (UnixTime nsec, None).
Proof.
  split.
  - apply (proj1 (X12_GetTimeFromID_outcomes _)). vm_compute. reflexivity.
  - apply (proj2 (X12_GetTimeFromID_outcomes _)). split.
    + vm_compute. reflexivity.
    + vm_compute. discriminate.
Defined.

Lemma isValidIndicator_byte c :
  isValidIndicator [c] = existsb (gostring_eqb [upper_byte c]) indicators.
Proof. all_bytes c; vm_compute; reflexivity. Qed.

(** X13: on one byte, [isValidIndicator] accepts exactly the ten indicator
    letters in either case; the empty string passes the substring test too,
    which is why [Generate] tests the length as well. *)
Theorem X13_isValidIndicator_one_byte :
  (forall c, isValidIndicator [c] = true <-> In [upper_byte c] indicators)
  /\ isValidIndicator [] = true.
Proof.
  split; [|reflexivity].
  intros c. rewrite isValidIndicator_byte, existsb_exists. split.
  - intros (x & Hin & Hx). apply gostring_eqb_eq in Hx. subst x. exact Hin.
  - intros Hin. exists [upper_byte c]. split; [exact Hin|apply gostring_eqb_refl].
Qed.

Lemma X13_witness :
  isValidIndicator (str "l") = true /\ ~ In [upper_byte "z"] indicators.
Proof.
  split.
  - apply (proj1 X13_isValidIndicator_one_byte "l"%char). vm_compute. tauto.
  - intros H. apply (proj1 X13_isValidIndicator_one_byte "z"%char) in H.
    vm_compute in H. discriminate.
Defined.

Lemma letterBytes_nth d :
  0 <= d < 36 ->
  (is_digit (nth (Z.to_nat d) letterBytes "0"%char)
   || is_upper (nth (Z.to_nat d) letterBytes "0"%char)) = true.
Proof.
  apply (range_forallb
           (fun d => is_digit (nth (Z.to_nat d) letterBytes "0"%char)
                     || is_upper (nth (Z.to_nat d) letterBytes "0"%char)) 36).
  vm_compute. reflexivity.
Qed.

Lemma digit_or_upper_fixed c : is_digit c || is_upper c = true -> upper_byte c = c.
Proof. all_bytes c; vm_compute; congruence. Qed.

(** X14: for every stream of draws and every length [n], [getRandString]
    returns [n] bytes, each a digit or an upper-case letter, so the string
    is its own upper-case form. *)
Theorem X14_getRandString (e : Env) (n : nat) :
  List.length (getRandString e n) = n
  /\ forallb (fun c => is_digit c || is_upper c) (getRandString e n) = true
  /\ ToUpper (getRandString e n) = getRandString e n.
Proof.
  assert (H : forallb (fun c => is_digit c || is_upper c) (getRandString e n) = true).
  { unfold getRandString. apply forallb_forall. intros c Hc.
    apply in_map_iff in Hc. destruct Hc as (i & <- & _).
    apply letterBytes_nth. unfold Intn. change (len letterBytes) with 36.
    apply Z.mod_pos_bound. lia. }
  split; [unfold getRandString; rewrite length_map, length_seq; reflexivity|].
  split; [exact H|].
  rewrite forallb_forall in H. unfold ToUpper.
  rewrite <- (map_id (getRandString e n)) at 2.
  apply map_ext_in. intros c Hc. apply digit_or_upper_fixed. exact (H c Hc).
Qed.

(** ** The indicator-first revision *)

Lemma segments_canonical_indicator_first id a b c d :
  segments 8 9 5 7 id a b c d -> canonical_indicator_first id = true.
Proof.
  intros (-> & La & Lb & Lc & Ld & Ca & Cb & Cc & Cd).
  explode a 8. explode b 9. explode c 5. explode d 7.
  cbn [forallb] in Ca, Cb, Cc, Cd.
  split_andb Ca. split_andb Cb. split_andb Cc. split_andb Cd.
  clear Ca Cb Cc Cd La Lb Lc Ld.
  unfold canonical_indicator_first, delimitChar.
  cbn [List.app List.length Nat.eqb seq combine forallb fst snd
       delimiter_offset_indicator_first orb andb].
  use_class_hyps. reflexivity.
Qed.

Lemma canonical_indicator_first_segments id :
  canonical_indicator_first id = true ->
  exists a b c d, segments 8 9 5 7 id a b c d.
Proof.
  unfold canonical_indicator_first. intros H. apply andb_prop in H.
  destruct H as [Hl H]. apply Nat.eqb_eq in Hl.
  explode id 32. clear Hl.
  unfold delimitChar in H.
  cbn [List.length seq combine forallb fst snd delimiter_offset_indicator_first
       Nat.eqb orb] in H.
  split_andb H. clear H.
  repeat match goal with
         | H : Ascii.eqb _ _ = true |- _ => apply Ascii.eqb_eq in H; subst
         end.
  exists [a; a0; a1; a2; a3; a4; a5; a6], [a8; a9; a10; a11; a12; a13; a14; a15; a16],
    [a18; a19; a20; a21; a22], [a24; a25; a26; a27; a28; a29; a30].
  unfold segments, delimitChar. cbn [List.app List.length forallb].
  use_class_hyps. repeat split; reflexivity.
Qed.

Lemma IndicatorFirst_Verify_accept_inv id vendorSecret :
  IndicatorFirst.Verify id vendorSecret = Done (true, None) ->
  exists a b c d, segments 8 9 5 7 id a b c d.
Proof.
  unfold IndicatorFirst.Verify.
  destruct (len id =? IndicatorFirst.idLength) eqn:Hl; cbn [negb]; [|discriminate].
  destruct (FindStringSubmatch IndicatorFirst.idRegex id) as [|m ms] eqn:Hf;
    [cbn; discriminate|].
  intros _. apply Z.eqb_eq in Hl. unfold len, IndicatorFirst.idLength in Hl.
  apply Find_segments.
  - cbn. lia.
  - change (seg_regex 8 9 5 7) with IndicatorFirst.idRegex. rewrite Hf. congruence.
Qed.

(** X15: [Verify] of the indicator-first revision with an empty secret is
    the positional check of its layout (a dash at offsets 8, 18 and 24), and
    no identifier is accepted by the [Verify] of both revisions, whatever
    the secrets: identifiers written by one revision are always rejected by
    the other. *)
Theorem X15_IndicatorFirst_Verify_layout (id : gostring) :
  (IndicatorFirst.Verify id [] = Done (true, None)
   <-> canonical_indicator_first id = true)
  /\ (forall s s',
        ~ (IndicatorFirst.Verify id s = Done (true, None)
           /\ TimeFirst.Verify id s' = Done (true, None))).
Proof.
  split; [split|].
  - intros H. destruct (IndicatorFirst_Verify_accept_inv _ _ H) as (a & b & c & d & Hs).
    exact (segments_canonical_indicator_first _ _ _ _ _ Hs).
  - intros H. destruct (canonical_indicator_first_segments _ H) as (a & b & c & d & Hs).
    rewrite (IndicatorFirst_Verify_segments _ _ _ _ _ _ Hs). reflexivity.
  - intros s s' [H1 H2].
    destruct (IndicatorFirst_Verify_accept_inv _ _ H1) as (a & b & c & d & Hs).
    destruct (TimeFirst_Verify_accept_inv _ _ H2) as (a' & b' & c' & d' & Hs').
    exact (layouts_disjoint _ _ _ _ _ _ _ _ _ Hs' Hs).
Qed.

Lemma X15_witness :
  IndicatorFirst.Verify (str "EFIOUSAC-IP41IR5M=-MISCR-9JQLO0F") [] = Done (true, None)
  /\ TimeFirst.Verify (str "EFIOUSAC-IP41IR5M=-MISCR-9JQLO0F") [] <> Done (true, None).
Proof.
  split.
  - apply (proj1 (X15_IndicatorFirst_Verify_layout _)). vm_compute. reflexivity.
  - intros H.
    apply (proj2 (X15_IndicatorFirst_Verify_layout
                    (str "EFIOUSAC-IP41IR5M=-MISCR-9JQLO0F")) [] []).
    split; [vm_compute; reflexivity|exact H].
Defined.

Lemma FormatInt_digits_nopad ms :
  0 <= ms < 36 ^ 9 ->
  forallb (fun c => id_class c && not_pad c) (ToUpper (FormatInt ms 36)) = true.
Proof.
  intros Hms.
  destruct (FormatInt_spec ms Hms) as (ds & E & _ & _ & Hcls & Hrep & _).
  rewrite E. rewrite Replace_pad_filter in Hrep.
  apply forallb_forall. intros c Hc.
  rewrite forallb_forall in Hcls. rewrite (Hcls c Hc). cbn [andb].
  rewrite <- Hrep in Hc. apply filter_In in Hc. tauto.
Qed.

Lemma IndicatorFirst_timekey_digits t :
  0 <= t < 2 ^ 63 ->
  exists key,
    IndicatorFirst.getBase36TimeKey t = (key, None)
    /\ List.length key = 9%nat
    /\ forallb id_class key = true
    /\ forallb not_pad key = true
    /\ ParseInt key 36
       = (IndicatorFirst.maxTimestampValBase10 - t / 1000000, None).
Proof.
  intros Ht. destruct (millis_bound t Ht) as [Hq Hms].
  destruct (IndicatorFirst_timekey t Ht) as (key & Hk & Hl & Hc & Hp).
  exists key. split; [exact Hk|]. split; [exact Hl|]. split; [exact Hc|].
  split; [|exact Hp].
  revert Hk. unfold IndicatorFirst.getBase36TimeKey. rewrite Hq.
  unfold IndicatorFirst.maxTimestampValBase10, IndicatorFirst.timeKeyBase.
  set (rev := 101559956668415 - t / 1000000).
  assert (Hrev : 0 <= rev < 36 ^ 9).
  { change (36 ^ 9) with 101559956668416. unfold rev. lia. }
  pose proof (FormatInt_digits_nopad rev Hrev) as Hd.
  assert (Hd' : forallb not_pad (ToUpper (FormatInt rev 36)) = true).
  { apply forallb_forall. intros c Hc'. rewrite forallb_forall in Hd.
    specialize (Hd c Hc'). apply andb_prop in Hd. tauto. }
  cbv zeta.
  destruct (IndicatorFirst.timeKeyLength - len (ToUpper (FormatInt rev 36)) <? 0);
    [discriminate|].
  destruct (0 <? IndicatorFirst.timeKeyLength - len (ToUpper (FormatInt rev 36)));
    intros E; inversion E; [|exact Hd'].
  rewrite forallb_app, Hd', andb_true_r.
  unfold Repeat. apply forallb_forall. intros c Hc'.
  apply in_concat in Hc'. destruct Hc' as (l & Hl' & Hc').
  apply repeat_spec in Hl'. subst l. destruct Hc' as [<-|[]]. reflexivity.
Qed.

(** X16: the reversed time key.  At an instant from the epoch on,
    [getBase36TimeKey] returns nine base-36 digits, without any pad byte,
    that parse to [maxTimestampValBase10] minus the millisecond count; one
    millisecond or more before the epoch it fails with "Invalid time key",
    because the complement then needs ten digits. *)
Theorem X16_reversed_timekey (t : Z) :
  (0 <= t < 2 ^ 63 ->
   exists key,
     IndicatorFirst.getBase36TimeKey t = (key, None)
     /\ List.length key = 9%nat
     /\ forallb (fun c => id_class c && not_pad c) key = true
     /\ ParseInt key 36
        = (IndicatorFirst.maxTimestampValBase10 - t / 1000000, None))
  /\ (- 2 ^ 63 <= t <= - 1000000 ->
      IndicatorFirst.getBase36TimeKey t = ([], errorsNew "Invalid time key")).
Proof.
  split.
  - intros Ht.
    destruct (IndicatorFirst_timekey_digits t Ht) as (key & Hk & Hl & Hc & Hn & Hp).
    exists key. split; [exact Hk|]. split; [exact Hl|]. split; [|exact Hp].
    apply forallb_forall. intros c Hin. rewrite forallb_forall in Hc, Hn.
    rewrite (Hc c Hin), (Hn c Hin). reflexivity.
  - intros Ht. unfold IndicatorFirst.getBase36TimeKey, go_div.
    assert (Hq : - 9223372036855 < Z.quot t 1000000 <= - 1).
    { change (2 ^ 63) with 9223372036854775808 in Ht.
      rewrite <- (Z.opp_involutive t), Z.quot_opp_l by lia.
      rewrite Z.quot_div_nonneg by lia.
      assert (1 <= - t / 1000000) by (apply Z.div_le_lower_bound; lia).
      assert (- t / 1000000 < 9223372036855) by (apply Z.div_lt_upper_bound; lia).
      lia. }
    unfold IndicatorFirst.maxTimestampValBase10, IndicatorFirst.timeKeyBase.
    set (rev := 101559956668415 - Z.quot t 1000000).
    assert (Hrev : 36 ^ Z.of_nat 9 <= rev).
    { change (36 ^ Z.of_nat 9) with 101559956668416. unfold rev. lia. }
    assert (Hlen : (10 <= List.length (ToUpper (FormatInt rev 36)))%nat).
    { rewrite ToUpper_length. unfold FormatInt.
      destruct (Z.ltb_spec rev 0); [unfold rev in *; lia|].
      pose proof (formatBits_length_ge 65 rev [] 9 ltac:(lia) Hrev ltac:(lia)) as Hge.
      cbn [List.length] in Hge. apply Hge.
      eapply Z.lt_le_trans with (m := 36 ^ 13).
      - change (36 ^ 13) with 170581728179578208256. unfold rev. lia.
      - apply Z.pow_le_mono_r; lia. }
    cbv zeta. unfold len, IndicatorFirst.timeKeyLength.
    destruct (Z.ltb_spec (9 - Z.of_nat (List.length (ToUpper (FormatInt rev 36)))) 0);
      [reflexivity|lia].
Qed.

Lemma X16_witness :
  (exists key,
     IndicatorFirst.getBase36TimeKey 1700000000123456789 = (key, None)
     /\ List.length key = 9%nat
     /\ forallb (fun c => id_class c && not_pad c) key = true
     /\ ParseInt key 36
        = (IndicatorFirst.maxTimestampValBase10 - 1700000000123456789 / 1000000, None))
  /\ IndicatorFirst.getBase36TimeKey (- 1000000) = ([], errorsNew "Invalid time key").
Proof.
  split.
  - apply (proj1 (X16_reversed_timekey _)). vm_compute. split; congruence.
  - apply (proj2 (X16_reversed_timekey _)). vm_compute. split; congruence.
Defined.

Lemma IndicatorFirst_Generate_eq e ind vendor app nType loc vendorSecret :
  IndicatorFirst.Generate e ind vendor app nType loc vendorSecret =
  match IndicatorFirst.getBase36TimeKey (now e) with
  | (_, Some err) => Done ([], Some err)
  | (timeKey, None) =>
      if negb (len vendor =? 3)
      then Done ([], errorsNew "Vendor must be of length '3'")
      else if negb (len app =? 2)
      then Done ([], errorsNew "App must be of length '2'")
      else if negb (len nType =? 2)
      then Done ([], errorsNew "Type must be of length '2'")
      else seal (ToUpper (default_indicator ind ++ vendor ++ app ++ nType
                          ++ [delimitChar] ++ timeKey ++ [delimitChar]
                          ++ default_location loc ++ [delimitChar]
                          ++ getRandString e 7)) vendorSecret
  end.
Proof.
  unfold IndicatorFirst.Generate.
  destruct (IndicatorFirst.getBase36TimeKey (now e)) as [timeKey [err|]]; reflexivity.
Qed.

(** X17: the failures of the indicator-first [Generate], in the order the
    code checks them: a time-key error, then a vendor whose length is not 3,
    then an app whose length is not 2, then a type whose length is not 2.
    This revision has no default for the second two-byte field: a wrong
    length there is an error, not a copy of the first.  Otherwise a
    non-empty identifier is returned. *)
Theorem X17_IndicatorFirst_Generate_failures
  (e : Env) (ind vendor app nType loc vendorSecret : gostring) :
  (forall err, snd (IndicatorFirst.getBase36TimeKey (now e)) = Some err ->
     IndicatorFirst.Generate e ind vendor app nType loc vendorSecret
     = Done ([], Some err))
  /\ (snd (IndicatorFirst.getBase36TimeKey (now e)) = None ->
      List.length vendor <> 3%nat ->
      IndicatorFirst.Generate e ind vendor app nType loc vendorSecret
      = Done ([], errorsNew "Vendor must be of length '3'"))
  /\ (snd (IndicatorFirst.getBase36TimeKey (now e)) = None ->
      List.length vendor = 3%nat -> List.length app <> 2%nat ->
      IndicatorFirst.Generate e ind vendor app nType loc vendorSecret
      = Done ([], errorsNew "App must be of length '2'"))
  /\ (snd (IndicatorFirst.getBase36TimeKey (now e)) = None ->
      List.length vendor = 3%nat -> List.length app = 2%nat ->
      List.length nType <> 2%nat ->
      IndicatorFirst.Generate e ind vendor app nType loc vendorSecret
      = Done ([], errorsNew "Type must be of length '2'"))
  /\ (snd (IndicatorFirst.getBase36TimeKey (now e)) = None ->
      List.length vendor = 3%nat -> List.length app = 2%nat ->
      List.length nType = 2%nat ->
      exists id,
        id <> []
        /\ IndicatorFirst.Generate e ind vendor app nType loc vendorSecret
           = Done (id, None)).
Proof.
  rewrite IndicatorFirst_Generate_eq.
  destruct (IndicatorFirst.getBase36TimeKey (now e)) as [timeKey [err0|]] eqn:Hk;
    cbn [snd].
  { split; [intros err E; inversion E; reflexivity|].
    repeat split; discriminate. }
  change 3 with (Z.of_nat 3). change 2 with (Z.of_nat 2).
  repeat rewrite len_eqb_length.
  split; [discriminate|].
  split; [intros _ Hv; apply Nat.eqb_neq in Hv; rewrite Hv; reflexivity|].
  split; [intros _ Hv Ha; apply Nat.eqb_neq in Ha; rewrite Hv, Ha; reflexivity|].
  split; [intros _ Hv Ha Ht; apply Nat.eqb_neq in Ht; rewrite Hv, Ha, Ht; reflexivity|].
  intros _ Hv Ha Ht. rewrite Hv, Ha, Ht. cbn [Nat.eqb negb].
  match goal with
  | |- exists id, _ /\ seal ?p _ = _ =>
      assert (Hp : p <> []);
        [|destruct (seal_total p vendorSecret Hp) as (id & Hseal);
          pose proof (seal_length _ _ _ Hp Hseal) as Hlen]
  end.
  { intros Hnil. apply (f_equal (@List.length ascii)) in Hnil.
    rewrite ToUpper_length in Hnil. repeat rewrite length_app in Hnil.
    rewrite Hv in Hnil. cbn in Hnil. lia. }
  exists id. split; [|exact Hseal].
  intros ->. cbn [List.length] in Hlen.
  rewrite ToUpper_length in Hlen. repeat rewrite length_app in Hlen.
  rewrite Hv in Hlen. cbn [List.length] in Hlen. lia.
Qed.

Lemma X17_witness :
  IndicatorFirst.Generate (mkEnv (- 1000000) (draw sample_env))
    (str "E") (str "FID") (str "TE") (str "ES") [] []
  = Done ([], errorsNew "Invalid time key")
  /\ IndicatorFirst.Generate sample_env (str "E") (str "FI") (str "TE") (str "ES") [] []
     = Done ([], errorsNew "Vendor must be of length '3'")
  /\ IndicatorFirst.Generate sample_env (str "E") (str "FID") [] (str "ES") [] []
     = Done ([], errorsNew "App must be of length '2'")
  /\ IndicatorFirst.Generate sample_env (str "E") (str "FID") (str "TE") [] [] []
     = Done ([], errorsNew "Type must be of length '2'")
  /\ exists id,
       id <> []
       /\ IndicatorFirst.Generate sample_env (str "E") (str "FID") (str "TE") (str "ES")
            [] [] = Done (id, None).
Proof.
  split; [|split; [|split; [|split]]].
  - apply (proj1 (X17_IndicatorFirst_Generate_failures _ _ _ _ _ _ _)).
    vm_compute. reflexivity.
  - apply (proj1 (proj2 (X17_IndicatorFirst_Generate_failures _ _ _ _ _ _ _)));
      vm_compute; congruence.
  - apply (proj1 (proj2 (proj2 (X17_IndicatorFirst_Generate_failures _ _ _ _ _ _ _))));
      vm_compute; congruence.
  - apply (proj1 (proj2 (proj2 (proj2
             (X17_IndicatorFirst_Generate_failures _ _ _ _ _ _ _)))));
      vm_compute; congruence.
  - apply (proj2 (proj2 (proj2 (proj2
             (X17_IndicatorFirst_Generate_failures _ _ _ _ _ _ _)))));
      vm_compute; congruence.
Defined.

(** *** [Describe] *)

Lemma class_not_sign c : id_class c = true -> c <> "-"%char /\ c <> "+"%char.
Proof. all_bytes c; vm_compute; split; congruence. Qed.

Lemma not_pad_false c : not_pad c = false -> c = "="%char.
Proof.
  unfold not_pad, TimeFirst.paddingChar. intros H.
  apply negb_false_iff in H. apply Ascii.eqb_eq in H. exact H.
Qed.

Lemma parse_digits_pad s : forall n,
  forallb id_class s = true -> forallb not_pad s = false ->
  0 <= n -> (n + 1) * 36 ^ Z.of_nat (List.length s) <= cutoff36 ->
  parse_digits 36 s n = inr ErrSyntax.
Proof.
  induction s as [|c s IH]; intros n Hc Hp Hn Hb; [discriminate|].
  cbn [forallb] in Hc, Hp. apply andb_prop in Hc. destruct Hc as [Hc Hcs].
  destruct (not_pad c) eqn:Hpc.
  - cbn [andb] in Hp.
    destruct (class_digit c Hc Hpc) as (d & Hd & Hr & _).
    cbn [List.length] in Hb. rewrite Nat2Z.inj_succ, Z.pow_succ_r in Hb by lia.
    assert (Hpow : 1 <= 36 ^ Z.of_nat (List.length s)).
    { pose proof (Z.pow_pos_nonneg 36 (Z.of_nat (List.length s)) ltac:(lia) ltac:(lia)). lia. }
    rewrite (parse_digits_step c d); [|exact Hd|exact Hr|exact Hn|nia].
    apply IH; [exact Hcs|exact Hp|lia|nia].
  - apply not_pad_false in Hpc. subst c. reflexivity.
Qed.

(** [ParseInt] on nine bytes of the class: the base-36 value when no byte is
    a pad, a syntax error otherwise. *)
Lemma ParseInt_key key :
  List.length key = 9%nat -> forallb id_class key = true ->
  (forallb not_pad key = true ->
   ParseInt key 36 = (base36_value key, None) /\ 0 <= base36_value key < 36 ^ 9)
  /\ (forallb not_pad key = false ->
      ParseInt key 36 = (0, Some (NumError "ParseInt" key ErrSyntax))).
Proof.
  intros Hl Hc.
  assert (Hb : (0 + 1) * 36 ^ Z.of_nat (List.length key) <= cutoff36).
  { rewrite Hl. vm_compute. discriminate. }
  assert (Hsign : forall c rest, key = c :: rest -> c <> "-"%char /\ c <> "+"%char).
  { intros c rest ->. cbn [forallb] in Hc. apply andb_prop in Hc.
    apply class_not_sign. tauto. }
  split; intros Hp.
  - destruct (parse_digits_class key 0 Hc Hp ltac:(lia) Hb) as (P1 & P2 & P3).
    change (fold_left (fun n c => n * 36 + b36 c) key 0) with (base36_value key)
      in P1, P2, P3.
    rewrite Hl in P2. change ((0 + 1) * 36 ^ Z.of_nat 9) with (36 ^ 9) in P2.
    split; [|lia].
    apply ParseInt_digits; auto.
    + intros ->. discriminate.
    + change (36 ^ 9) with 101559956668416 in P2.
      change (2 ^ 63) with 9223372036854775808. lia.
  - pose proof (parse_digits_pad key 0 Hc Hp ltac:(lia) Hb) as P.
    unfold ParseInt. destruct key as [|c rest]; [discriminate|].
    destruct (Hsign c rest eq_refl) as [H1 H2].
    destruct (ascii_dec c "-"); [congruence|].
    destruct (ascii_dec c "+"); [congruence|].
    rewrite P. reflexivity.
Qed.

Lemma IndicatorFirst_Describe_cases id a key L R :
  segments 8 9 5 7 id a key L R ->
  IndicatorFirst.Describe id =
  if forallb not_pad key
  then Done (IndicatorFirst.mkDescription (firstn 1 a) (firstn 3 (skipn 1 a))
               (firstn 2 (skipn 4 a)) (skipn 6 a) L key
               (UnixTime (wrap64 (wrap64 (IndicatorFirst.maxTimestampValBase10
                                           - base36_value key) * Millisecond))) R,
             None)
  else Done (IndicatorFirst.emptyDescription,
             Some (NumError "ParseInt" key ErrSyntax)).
Proof.
  intros Hs.
  pose proof Hs as (_ & La & Lk & _ & _ & Ca & Ck & _).
  destruct (ParseInt_key key Lk Ck) as [Hok Hbad].
  destruct (forallb not_pad key) eqn:Hp.
  - destruct (Hok eq_refl) as [Hparse _].
    assert (Ea : a = firstn 1 a ++ firstn 3 (skipn 1 a) ++ firstn 2 (skipn 4 a)
                     ++ skipn 6 a).
    { explode a 8. reflexivity. }
    rewrite Ea in Hs.
    rewrite (IndicatorFirst_Describe_segments _ _ _ _ _ _ _ _ (base36_value key) Hs);
      try reflexivity; try exact Hparse; explode a 8; reflexivity.
  - specialize (Hbad eq_refl).
    unfold IndicatorFirst.Describe.
    rewrite (IndicatorFirst_getTime_segments _ _ _ _ _ Hs), Hbad.
    rewrite (IndicatorFirst_Verify_segments _ _ _ _ _ _ Hs), checksum_check_nosecret.
    cbn [bind snd]. rewrite (Split_segments _ _ _ _ _ _ _ _ _ Hs).
    explode a 8. reflexivity.
Qed.

Lemma segments_timekey_indicator_first id a key L R :
  segments 8 9 5 7 id a key L R -> firstn 9 (skipn 9 id) = key.
Proof.
  intros (-> & La & Lk & _). explode a 8. cbn [List.app skipn].
  rewrite <- Lk, firstn_app, Nat.sub_diag, firstn_all. cbn [firstn].
  apply app_nil_r.
Qed.

Lemma IndicatorFirst_Describe_rejected id :
  canonical_indicator_first id = false ->
  exists err,
    IndicatorFirst.Describe id = Done (IndicatorFirst.emptyDescription, Some err).
Proof.
  intros Hc. destruct (IndicatorFirst_Verify_reject id []) as (err & Hv & He).
  { intros a b c d Hs.
    rewrite (segments_canonical_indicator_first _ _ _ _ _ Hs) in Hc. discriminate. }
  unfold IndicatorFirst.Describe. rewrite Hv. cbn [bind snd].
  destruct He; eexists; reflexivity.
Qed.

(** X18: [Describe] never panics: the slices it takes are inside the first
    component whenever [Verify] has accepted.  It succeeds exactly on the
    identifiers of the indicator-first layout whose nine-byte time key has no
    pad byte, and every failure returns the empty description. *)
Theorem X18_Describe_outcomes (id : gostring) :
  (exists d err, IndicatorFirst.Describe id = Done (d, err))
  /\ (forall d err, IndicatorFirst.Describe id = Done (d, Some err) ->
        d = IndicatorFirst.emptyDescription)
  /\ ((exists d, IndicatorFirst.Describe id = Done (d, None))
      <-> canonical_indicator_first id = true
          /\ forallb not_pad (firstn 9 (skipn 9 id)) = true).
Proof.
  destruct (canonical_indicator_first id) eqn:Hc.
  - destruct (canonical_indicator_first_segments _ Hc) as (a & key & L & R & Hs).
    rewrite (segments_timekey_indicator_first _ _ _ _ _ Hs).
    rewrite (IndicatorFirst_Describe_cases _ _ _ _ _ Hs).
    destruct (forallb not_pad key).
    + split; [do 2 eexists; reflexivity|]. split; [discriminate|].
      split; [auto|]. intros _. eexists. reflexivity.
    + split; [do 2 eexists; reflexivity|].
      split; [intros d err E; inversion E; reflexivity|].
      split; [intros (d & E); discriminate|intros [_ E]; discriminate].
  - destruct (IndicatorFirst_Describe_rejected id Hc) as (err & ->).
    split; [do 2 eexists; reflexivity|].
    split; [intros d err' E; inversion E; reflexivity|].
    split; [intros (d & E); discriminate|intros [E _]; discriminate].
Qed.

Lemma X18_witness :
  (exists d, IndicatorFirst.Describe (str "LFORTEST-55QRHT4ET-USC1B-XRAQPPD")
             = Done (d, None))
  /\ ~ (exists d, IndicatorFirst.Describe (str "EFIOUSAC-IP41IR5M=-MISCR-9JQLO0F")
                  = Done (d, None)).
Proof.
  split.
  - apply (proj2 (proj2 (X18_Describe_outcomes _))).
    split; vm_compute; reflexivity.
  - intros H.
    apply (proj2 (proj2 (X18_Describe_outcomes _))) in H.
    destruct H as [_ H]. vm_compute in H. discriminate.
Defined.

(** X19: [Describe] loses nothing.  When it succeeds, the identifier is the
    indicator, vendor, app and type joined, a dash, the time key, a dash, the
    location, a dash and the random string, of lengths 1, 3, 2, 2, 9, 5
    and 7. *)
Theorem X19_Describe_lossless (id : gostring) (d : IndicatorFirst.Description) :
  IndicatorFirst.Describe id = Done (d, None) ->
  id = IndicatorFirst.Indicator d ++ IndicatorFirst.VendorKey d
       ++ IndicatorFirst.App d ++ IndicatorFirst.Type_ d ++ [delimitChar]
       ++ IndicatorFirst.TimeKey d ++ [delimitChar]
       ++ IndicatorFirst.Location d ++ [delimitChar]
       ++ IndicatorFirst.RandomString d
  /\ List.length (IndicatorFirst.Indicator d) = 1%nat
  /\ List.length (IndicatorFirst.VendorKey d) = 3%nat
  /\ List.length (IndicatorFirst.App d) = 2%nat
  /\ List.length (IndicatorFirst.Type_ d) = 2%nat
  /\ List.length (IndicatorFirst.TimeKey d) = 9%nat
  /\ List.length (IndicatorFirst.Location d) = 5%nat
  /\ List.length (IndicatorFirst.RandomString d) = 7%nat.
Proof.
  intros Hd. destruct (canonical_indicator_first id) eqn:Hc.
  - destruct (canonical_indicator_first_segments _ Hc) as (a & key & L & R & Hs).
    rewrite (IndicatorFirst_Describe_cases _ _ _ _ _ Hs) in Hd.
    destruct (forallb not_pad key); [|discriminate].
    match type of Hd with
    | Done (IndicatorFirst.mkDescription _ _ _ _ _ _ ?t _, _) = _ => set (T := t) in Hd
    end.
    injection Hd as Hd. subst d. subst T.
    destruct Hs as (-> & La & Lk & LL & LR & _).
    cbn [IndicatorFirst.Indicator IndicatorFirst.VendorKey IndicatorFirst.App
         IndicatorFirst.Type_ IndicatorFirst.TimeKey IndicatorFirst.Location
         IndicatorFirst.RandomString].
    explode a 8. cbn [firstn skipn List.app List.length].
    repeat split; try assumption; reflexivity.
  - destruct (IndicatorFirst_Describe_rejected id Hc) as (err & E).
    rewrite E in Hd. discriminate.
Qed.

Lemma X19_witness :
  exists d,
    str "LFORTEST-55QRHT4ET-USC1B-XRAQPPD"
    = IndicatorFirst.Indicator d ++ IndicatorFirst.VendorKey d
      ++ IndicatorFirst.App d ++ IndicatorFirst.Type_ d ++ [delimitChar]
      ++ IndicatorFirst.TimeKey d ++ [delimitChar]
      ++ IndicatorFirst.Location d ++ [delimitChar]
      ++ IndicatorFirst.RandomString d
    /\ List.length (IndicatorFirst.Indicator d) = 1%nat
    /\ List.length (IndicatorFirst.VendorKey d) = 3%nat
    /\ List.length (IndicatorFirst.App d) = 2%nat
    /\ List.length (IndicatorFirst.Type_ d) = 2%nat
    /\ List.length (IndicatorFirst.TimeKey d) = 9%nat
    /\ List.length (IndicatorFirst.Location d) = 5%nat
    /\ List.length (IndicatorFirst.RandomString d) = 7%nat.
Proof.
  eexists. apply X19_Describe_lossless. vm_compute. reflexivity.
Defined.

(** X20: the time [Describe] returns is [maxTimestampValBase10] minus the
    base-36 value of the time key, in milliseconds after the epoch, as long
    as that difference is at most 9223372036854, that is for keys from
    92336584631561 up; the key value itself never exceeds
    [maxTimestampValBase10]. *)
Theorem X20_Describe_time (id : gostring) (d : IndicatorFirst.Description) :
  IndicatorFirst.Describe id = Done (d, None) ->
  92336584631561 <= base36_value (IndicatorFirst.TimeKey d) ->
  base36_value (IndicatorFirst.TimeKey d) <= IndicatorFirst.maxTimestampValBase10
  /\ IndicatorFirst.Time_ d
     = UnixTime ((IndicatorFirst.maxTimestampValBase10
                  - base36_value (IndicatorFirst.TimeKey d)) * Millisecond).
Proof.
  intros Hd Hv. destruct (canonical_indicator_first id) eqn:Hc.
  - destruct (canonical_indicator_first_segments _ Hc) as (a & key & L & R & Hs).
    rewrite (IndicatorFirst_Describe_cases _ _ _ _ _ Hs) in Hd.
    destruct (forallb not_pad key) eqn:Hp; [|discriminate].
    match type of Hd with
    | Done (IndicatorFirst.mkDescription _ _ _ _ _ _ ?t _, _) = _ => set (T := t) in Hd
    end.
    injection Hd as Hd. subst d. subst T.
    cbn [IndicatorFirst.TimeKey IndicatorFirst.Time_] in *.
    destruct Hs as (_ & _ & Lk & _ & _ & _ & Ck & _).
    destruct (proj1 (ParseInt_key key Lk Ck) Hp) as [_ Hb].
    change (36 ^ 9) with 101559956668416 in Hb.
    unfold IndicatorFirst.maxTimestampValBase10, Millisecond.
    split; [lia|].
    rewrite (wrap64_small (101559956668415 - base36_value key))
      by (change (2 ^ 63) with 9223372036854775808; lia).
    rewrite wrap64_small by (change (2 ^ 63) with 9223372036854775808; lia).
    reflexivity.
  - destruct (IndicatorFirst_Describe_rejected id Hc) as (err & E).
    rewrite E in Hd. discriminate.
Qed.

Lemma X20_witness :
  exists d,
    IndicatorFirst.Describe (str "EFORTEST-ZEB13W4UC-MISCR-X27CHM8") = Done (d, None)
    /\ base36_value (IndicatorFirst.TimeKey d) <= IndicatorFirst.maxTimestampValBase10
    /\ IndicatorFirst.Time_ d
       = UnixTime ((IndicatorFirst.maxTimestampValBase10
                    - base36_value (IndicatorFirst.TimeKey d)) * Millisecond).
Proof.
  eexists. split; [vm_compute; reflexivity|].
  apply (X20_Describe_time (str "EFORTEST-ZEB13W4UC-MISCR-X27CHM8")).
  - vm_compute. reflexivity.
  - vm_compute. discriminate.
Defined.

(** ** Sorting identifiers by their time key *)

Lemma class_b36_bool c :
  id_class c = true -> not_pad c = true ->
  (is_digit c && (b36 c =? byte_val c - 48))
  || (is_upper c && (b36 c =? byte_val c - 55)) = true.
Proof. all_bytes c; vm_compute; congruence. Qed.

Lemma class_b36 c :
  id_class c = true -> not_pad c = true ->
  (48 <= byte_val c <= 57 /\ b36 c = byte_val c - 48)
  \/ (65 <= byte_val c <= 90 /\ b36 c = byte_val c - 55).
Proof.
  intros H1 H2. pose proof (class_b36_bool c H1 H2) as H.
  apply orb_prop in H. unfold is_digit, is_upper in H.
  destruct H as [H|H]; apply andb_prop in H; destruct H as [Hr He];
    apply andb_prop in Hr; destruct Hr as [Hr1 Hr2];
    apply Z.leb_le in Hr1, Hr2; apply Z.eqb_eq in He; [left|right]; lia.
Qed.

Lemma byte_val_inj x y : byte_val x = byte_val y -> x = y.
Proof.
  unfold byte_val. intros H. apply N2Z.inj in H.
  rewrite <- (ascii_N_embedding x), <- (ascii_N_embedding y), H. reflexivity.
Qed.

Lemma fold_base36_shift s : forall n,
  fold_left (fun n c => n * 36 + b36 c) s n
  = n * 36 ^ Z.of_nat (List.length s) + base36_value s.
Proof.
  unfold base36_value.
  induction s as [|c s IH]; intros n; cbn [fold_left List.length].
  - change (36 ^ Z.of_nat 0) with 1. lia.
  - rewrite IH, (IH (0 * 36 + b36 c)).
    rewrite Nat2Z.inj_succ, Z.pow_succ_r by lia. ring.
Qed.

Lemma base36_value_cons c s :
  base36_value (c :: s) = b36 c * 36 ^ Z.of_nat (List.length s) + base36_value s.
Proof.
  unfold base36_value at 1. cbn [fold_left]. rewrite fold_base36_shift. ring.
Qed.

Lemma base36_value_bound s :
  forallb id_class s = true -> forallb not_pad s = true ->
  0 <= base36_value s < 36 ^ Z.of_nat (List.length s).
Proof.
  induction s as [|c s IH]; intros Hc Hp.
  - cbn. lia.
  - cbn [forallb] in Hc, Hp. apply andb_prop in Hc, Hp.
    destruct Hc as [Hc Hcs], Hp as [Hp Hps].
    specialize (IH Hcs Hps). rewrite base36_value_cons.
    cbn [List.length]. rewrite Nat2Z.inj_succ, Z.pow_succ_r by lia.
    destruct (class_b36 c Hc Hp) as [[Hr ->]|[Hr ->]]; nia.
Qed.

(** On digit strings of one length, the byte-wise order of Go's [<] is the
    order of the base-36 values. *)
Lemma bytes_lt_value a : forall b,
  List.length a = List.length b ->
  forallb id_class a = true -> forallb not_pad a = true ->
  forallb id_class b = true -> forallb not_pad b = true ->
  (bytes_lt a b = true <-> base36_value a < base36_value b).
Proof.
  induction a as [|x a IH]; intros [|y b] Hl Ca Pa Cb Pb; try discriminate.
  - cbn. split; [discriminate|lia].
  - cbn [List.length] in Hl. injection Hl as Hl.
    cbn [forallb] in Ca, Pa, Cb, Pb.
    apply andb_prop in Ca, Pa, Cb, Pb.
    destruct Ca as [Cx Ca], Pa as [Px Pa], Cb as [Cy Cb], Pb as [Py Pb].
    specialize (IH b Hl Ca Pa Cb Pb).
    pose proof (base36_value_bound a Ca Pa) as Ba.
    pose proof (base36_value_bound b Cb Pb) as Bb.
    rewrite <- Hl in Bb.
    repeat rewrite base36_value_cons. rewrite <- Hl.
    set (P := 36 ^ Z.of_nat (List.length a)) in *.
    cbn [bytes_lt].
    assert (Hord : (byte_val x < byte_val y <-> b36 x < b36 y)
                   /\ (byte_val x = byte_val y <-> b36 x = b36 y)).
    { destruct (class_b36 x Cx Px) as [[Hx ->]|[Hx ->]];
        destruct (class_b36 y Cy Py) as [[Hy ->]|[Hy ->]]; lia. }
    destruct Hord as [Hlt Heq].
    destruct (Z.ltb_spec (byte_val x) (byte_val y)) as [H|H]; cbn [orb].
    + split; [intros _|reflexivity]. apply Hlt in H. nia.
    + destruct (Z.eqb_spec (byte_val x) (byte_val y)) as [E|E]; cbn [andb].
      * apply Heq in E. rewrite E. rewrite IH. lia.
      * split; [discriminate|]. intros Hv. exfalso.
        assert (b36 y < b36 x) by lia. nia.
Qed.

(** X21: the reversed time keys sort newest first.  For two instants from
    the epoch on, the one in the later millisecond gets the key that is
    smaller in Go's byte-wise string order, and two instants in the same
    millisecond get the same key. *)
Theorem X21_reversed_keys_sort_newest_first (t1 t2 : Z) :
  0 <= t1 < 2 ^ 63 -> 0 <= t2 < 2 ^ 63 ->
  exists k1 k2,
    IndicatorFirst.getBase36TimeKey t1 = (k1, None)
    /\ IndicatorFirst.getBase36TimeKey t2 = (k2, None)
    /\ (t1 / 1000000 < t2 / 1000000 -> bytes_lt k2 k1 = true)
    /\ (t1 / 1000000 = t2 / 1000000 -> k1 = k2).
Proof.
  intros H1 H2.
  destruct (IndicatorFirst_timekey_digits t1 H1) as (k1 & Hk1 & L1 & C1 & P1 & V1).
  destruct (IndicatorFirst_timekey_digits t2 H2) as (k2 & Hk2 & L2 & C2 & P2 & V2).
  exists k1, k2. split; [exact Hk1|]. split; [exact Hk2|].
  destruct (proj1 (ParseInt_key k1 L1 C1) P1) as [E1 _].
  destruct (proj1 (ParseInt_key k2 L2 C2) P2) as [E2 _].
  rewrite V1 in E1. rewrite V2 in E2.
  apply (f_equal fst) in E1, E2. cbn [fst] in E1, E2.
  split.
  - intros Hlt. apply bytes_lt_value; auto; [congruence|lia].
  - intros Heq. revert Hk1 Hk2. unfold IndicatorFirst.getBase36TimeKey.
    rewrite (proj1 (millis_bound t1 H1)), (proj1 (millis_bound t2 H2)), Heq.
    intros E1' E2'. rewrite E1' in E2'.
    apply (f_equal fst) in E2'. exact E2'.
Qed.

Lemma X21_witness :
  exists k1 k2,
    IndicatorFirst.getBase36TimeKey 1700000000000000000 = (k1, None)
    /\ IndicatorFirst.getBase36TimeKey 1700000000001000000 = (k2, None)
    /\ (1700000000000000000 / 1000000 < 1700000000001000000 / 1000000 ->
        bytes_lt k2 k1 = true)
    /\ (1700000000000000000 / 1000000 = 1700000000001000000 / 1000000 -> k1 = k2).
Proof.
  apply X21_reversed_keys_sort_newest_first; vm_compute; split; congruence.
Defined.

(** ** Round trips in the indicator-first revision and in package [idgen] *)

(** X22: the checksum round trip of the indicator-first revision.  For
    well-formed fields, a non-empty secret and an instant from the epoch on,
    [Generate] returns 31 bytes followed by the checksum byte of the secret
    over them, and [Verify] accepts the identifier with that secret and with
    the empty secret. *)
Theorem X22_IndicatorFirst_checksum_roundtrip
  (e : Env) (ind vendor app nType loc vendorSecret : gostring) :
  0 <= now e < 2 ^ 63 ->
  valid_input ind vendor app nType loc ->
  vendorSecret <> [] ->
  exists pre c,
    IndicatorFirst.Generate e ind vendor app nType loc vendorSecret
    = Done (pre ++ [c], None)
    /\ List.length pre = 31%nat
    /\ checksum vendorSecret pre = Done [c]
    /\ IndicatorFirst.Verify (pre ++ [c]) vendorSecret = Done (true, None)
    /\ IndicatorFirst.Verify (pre ++ [c]) [] = Done (true, None).
Proof.
  intros Ht Hv Hs.
  destruct (IndicatorFirst_Generate_shape e ind vendor app nType loc [] Ht Hv)
    as (key & r6 & c0 & _ & Hg0 & Hseg0).
  set (pre := assemble _ _ _ r6) in *.
  destruct (seal_secret pre c0 vendorSecret Hs) as (cs & Hhex & Hcs & Hseal).
  assert (Hg : IndicatorFirst.Generate e ind vendor app nType loc vendorSecret
               = Done (pre ++ [cs], None)).
  { rewrite IndicatorFirst_Generate_eq in Hg0 |- *.
    destruct (IndicatorFirst.getBase36TimeKey (now e)) as [timeKey [err|]];
      [discriminate|].
    destruct (negb (len vendor =? 3)); [discriminate|].
    destruct (negb (len app =? 2)); [discriminate|].
    destruct (negb (len nType =? 2)); [discriminate|].
    match type of Hg0 with
    | seal ?p [] = _ => set (P := p) in *
    end.
    rewrite seal_nosecret in Hg0.
    assert (HP : P = pre ++ [c0]) by congruence.
    rewrite HP. exact Hseal. }
  destruct (segments_replace_last _ _ _ _ _ _ cs _ _ _ _ Hseg0 (upper_hex_class _ Hhex))
    as (d' & Hseg).
  exists pre, cs. split; [exact Hg|]. split.
  - pose proof (segments_length _ _ _ _ _ _ _ _ _ Hseg) as Hl.
    rewrite length_app in Hl. cbn in Hl. lia.
  - split; [exact Hcs|].
    repeat rewrite (IndicatorFirst_Verify_segments _ _ _ _ _ _ Hseg).
    rewrite (checksum_check_secret _ _ _ Hs), Hcs. cbn [bind].
    rewrite gostring_eqb_refl. split; reflexivity.
Qed.

Lemma X22_witness :
  exists pre c,
    IndicatorFirst.Generate sample_env (str "E") (str "FID") (str "TE") (str "ES") []
      (str "bad_secret")
    = Done (pre ++ [c], None)
    /\ List.length pre = 31%nat
    /\ checksum (str "bad_secret") pre = Done [c]
    /\ IndicatorFirst.Verify (pre ++ [c]) (str "bad_secret") = Done (true, None)
    /\ IndicatorFirst.Verify (pre ++ [c]) [] = Done (true, None).
Proof.
  apply X22_IndicatorFirst_checksum_roundtrip.
  - vm_compute. split; congruence.
  - valid_fields.
  - discriminate.
Defined.

Lemma Idgen_timekey t : Idgen.getBase32TimeKey t = TimeFirst.getBase32TimeKey t.
Proof. reflexivity. Qed.

Lemma Idgen_New_Generate e ind vendor nType nSubType loc :
  Idgen.New e ind vendor nType nSubType loc
  = TimeFirst.Generate e ind vendor nType nSubType loc [].
Proof.
  unfold Idgen.New, TimeFirst.Generate. rewrite Idgen_timekey.
  destruct (TimeFirst.getBase32TimeKey (now e)) as [timeKey [err|]]; reflexivity.
Qed.

Lemma Idgen_Validate_Verify id : Idgen.Validate id = TimeFirst.Verify id [].
Proof.
  unfold Idgen.Validate, TimeFirst.Verify.
  change Idgen.idLength with TimeFirst.idLength.
  change Idgen.idRegex with TimeFirst.idRegex.
  change Idgen.idElements with TimeFirst.idElements.
  destruct (negb (len id =? TimeFirst.idLength)); [reflexivity|].
  destruct (negb (Z.of_nat (List.length (FindStringSubmatch TimeFirst.idRegex id)) =? 1));
    [reflexivity|].
  destruct (negb (Z.of_nat (List.length (Split id delimitChar)) =? TimeFirst.idElements));
    reflexivity.
Qed.

Lemma Idgen_GetTime id : Idgen.GetTimeFromID id = TimeFirst.GetTimeFromID id.
Proof.
  unfold Idgen.GetTimeFromID, TimeFirst.GetTimeFromID.
  rewrite Idgen_Validate_Verify. reflexivity.
Qed.

(** X23: package [idgen] is the time-first codec without the checksum.  On
    every input, [New] returns what [Generate] returns with an empty secret,
    [Validate] what [Verify] returns with an empty secret, and the two
    [GetTimeFromID] agree: adding the secret parameter changed nothing for
    callers that pass no secret. *)
Theorem X23_idgen_is_gofid_without_secret :
  (forall e ind vendor nType nSubType loc,
      Idgen.New e ind vendor nType nSubType loc
      = TimeFirst.Generate e ind vendor nType nSubType loc [])
  /\ (forall id, Idgen.Validate id = TimeFirst.Verify id [])
  /\ (forall id, Idgen.GetTimeFromID id = TimeFirst.GetTimeFromID id).
Proof.
  split; [exact Idgen_New_Generate|].
  split; [exact Idgen_Validate_Verify|exact Idgen_GetTime].
Qed.

(** X24: the round trip of package [idgen].  For well-formed fields at an
    instant from the epoch on, [New] returns a 32-byte identifier without
    error, [Validate] accepts it, and [GetTimeFromID] gives back the instant
    truncated to the millisecond. *)
Theorem X24_idgen_roundtrip (e : Env) (ind vendor nType nSubType loc : gostring) :
  0 <= now e < 2 ^ 63 ->
  valid_input ind vendor nType nSubType loc ->
  exists id,
    Idgen.New e ind vendor nType nSubType loc = Done (id, None)
    /\ List.length id = 32%nat
    /\ Idgen.Validate id = Done (true, None)
    /\ Idgen.GetTimeFromID id = Done (UnixTime (now e / 1000000 * Millisecond), None).
Proof.
  intros Ht Hv.
  destruct (TimeFirst_Generate_shape e ind vendor nType nSubType loc [] Ht Hv)
    as (key & r6 & c & _ & Hg & Hs & _).
  destruct (TimeFirst_GetTime_Generate e ind vendor nType nSubType loc [] Ht Hv)
    as (id & Hg' & Hd).
  rewrite Hg in Hg'. injection Hg' as Hid.
  exists id. rewrite Idgen_New_Generate, Idgen_Validate_Verify, Idgen_GetTime.
  rewrite <- Hid in *.
  split; [exact Hg|]. split; [exact (segments_length _ _ _ _ _ _ _ _ _ Hs)|].
  split; [|exact Hd].
  rewrite (TimeFirst_Verify_segments _ _ _ _ _ _ Hs). reflexivity.
Qed.

Lemma X24_witness :
  exists id,
    Idgen.New sample_env (str "E") (str "FID") (str "TE") (str "ES") [] = Done (id, None)
    /\ List.length id = 32%nat
    /\ Idgen.Validate id = Done (true, None)
    /\ Idgen.GetTimeFromID id
       = Done (UnixTime (now sample_env / 1000000 * Millisecond), None).
Proof.
  apply X24_idgen_roundtrip.
  - vm_compute. split; congruence.
  - valid_fields.
Defined.

Lemma bytes_lt_irrefl s : bytes_lt s s = false.
Proof.
  induction s as [|c s IH]; [reflexivity|]. cbn [bytes_lt].
  rewrite Z.ltb_irrefl, Z.eqb_refl, IH. reflexivity.
Qed.

Lemma bytes_lt_app a : forall b s,
  List.length a = List.length b -> bytes_lt (a ++ s) (b ++ s) = bytes_lt a b.
Proof.
  induction a as [|x a IH]; intros [|y b] s Hl; try discriminate.
  - cbn [List.app]. rewrite bytes_lt_irrefl. reflexivity.
  - cbn [List.app bytes_lt]. rewrite IH by (cbn in Hl; lia). reflexivity.
Qed.

(** The time key of an instant whose millisecond count has eight base-36
    digits: the digits and one pad. *)
Lemma TimeFirst_timekey_eight_digits t :
  78364164096000000 <= t < 2821109907456000000 ->
  exists ds,
    TimeFirst.getBase32TimeKey t = (ds ++ [TimeFirst.paddingChar], None)
    /\ List.length ds = 8%nat
    /\ forallb id_class ds = true /\ forallb not_pad ds = true
    /\ base36_value ds = t / 1000000.
Proof.
  intros Ht.
  assert (Ht' : 0 <= t < 2 ^ 63)
    by (change (2 ^ 63) with 9223372036854775808; lia).
  destruct (millis_bound t Ht') as [Hq _].
  assert (Hms : 36 ^ Z.of_nat 7 <= t / 1000000 < 36 ^ Z.of_nat 8).
  { change (36 ^ Z.of_nat 7) with 78364164096.
    change (36 ^ Z.of_nat 8) with 2821109907456.
    split; [apply Z.div_le_lower_bound; lia|apply Z.div_lt_upper_bound; lia]. }
  set (ms := t / 1000000) in *.
  assert (H9 : 0 <= ms < 36 ^ 9).
  { change (36 ^ Z.of_nat 7) with 78364164096 in Hms.
    change (36 ^ Z.of_nat 8) with 2821109907456 in Hms.
    change (36 ^ 9) with 101559956668416. lia. }
  pose proof (FormatInt_digits_nopad ms H9) as Hd.
  destruct (FormatInt_spec ms H9) as (ds & E & Hne & _ & Hcls & _ & Hparse & _).
  assert (Hlen : List.length ds = 8%nat).
  { rewrite <- E, ToUpper_length. unfold FormatInt.
    destruct (Z.ltb_spec ms 0); [lia|].
    assert (Hr : 0 <= ms < 36 ^ Z.of_nat 65).
    { split; [lia|]. eapply Z.lt_le_trans; [apply (proj2 H9)|].
      apply Z.pow_le_mono_r; lia. }
    destruct (formatBits_spec 65 ms [] ltac:(lia) Hr) as (ds' & E' & _ & _ & Hle & _).
    pose proof (formatBits_length_ge 65 ms [] 7 ltac:(lia) (proj1 Hms) ltac:(lia)
                  (proj2 Hr)) as Hge.
    specialize (Hle 8%nat ltac:(lia) (proj2 Hms)).
    rewrite E', app_nil_r in Hge |- *. cbn [List.length] in Hge. lia. }
  rewrite E in Hd.
  assert (Hnp : forallb not_pad ds = true).
  { apply forallb_forall. intros c Hc. rewrite forallb_forall in Hd.
    specialize (Hd c Hc). apply andb_prop in Hd. tauto. }
  exists ds. split.
  - rewrite getBase32TimeKey_eq, Hq. fold ms. rewrite E. unfold len. rewrite Hlen.
    reflexivity.
  - split; [exact Hlen|]. split; [exact Hcls|]. split; [exact Hnp|].
    destruct (parse_digits_class ds 0 Hcls Hnp ltac:(lia)) as (P1 & _ & _).
    { rewrite Hlen. vm_compute. discriminate. }
    specialize (Hparse 0%nat). cbn [repeat List.app] in Hparse.
    rewrite Hparse in P1.
    apply (f_equal (fun r : Z + strconv_err =>
                      match r with inl v => v | inr _ => 0 end)) in P1.
    symmetry. exact P1.
Qed.

(** X25: time-first identifiers sort by time as long as the key has eight
    digits.  For two instants between June 1972 and May 2059 (millisecond
    counts from [36^7] to [36^8 - 1]), the one in the later millisecond gets
    the key that is greater in Go's byte-wise string order.  The order is
    lost when the count reaches nine digits: the key of the first
    millisecond of the nine-digit range sorts before the key of the
    millisecond just before it. *)
Theorem X25_time_first_keys_sort_by_time (t1 t2 : Z) :
  78364164096000000 <= t1 < 2821109907456000000 ->
  78364164096000000 <= t2 < 2821109907456000000 ->
  (exists k1 k2,
      TimeFirst.getBase32TimeKey t1 = (k1, None)
      /\ TimeFirst.getBase32TimeKey t2 = (k2, None)
      /\ (t1 / 1000000 < t2 / 1000000 -> bytes_lt k1 k2 = true))
  /\ (TimeFirst.getBase32TimeKey 2821109907455999999 = (str "ZZZZZZZZ=", None)
      /\ TimeFirst.getBase32TimeKey 2821109907456000000 = (str "100000000", None)
      /\ bytes_lt (str "100000000") (str "ZZZZZZZZ=") = true).
Proof.
  intros H1 H2. split; [|repeat split; vm_compute; reflexivity].
  destruct (TimeFirst_timekey_eight_digits t1 H1) as (d1 & K1 & L1 & C1 & P1 & V1).
  destruct (TimeFirst_timekey_eight_digits t2 H2) as (d2 & K2 & L2 & C2 & P2 & V2).
  eexists _, _. split; [exact K1|]. split; [exact K2|].
  intros Hlt. rewrite bytes_lt_app by congruence.
  apply bytes_lt_value; auto; [congruence|lia].
Qed.

Lemma X25_witness :
  (exists k1 k2,
      TimeFirst.getBase32TimeKey 1700000000000000000 = (k1, None)
      /\ TimeFirst.getBase32TimeKey 1700000000001000000 = (k2, None)
      /\ (1700000000000000000 / 1000000 < 1700000000001000000 / 1000000 ->
          bytes_lt k1 k2 = true))
  /\ (TimeFirst.getBase32TimeKey 2821109907455999999 = (str "ZZZZZZZZ=", None)
      /\ TimeFirst.getBase32TimeKey 2821109907456000000 = (str "100000000", None)
      /\ bytes_lt (str "100000000") (str "ZZZZZZZZ=") = true).
Proof.
  apply X25_time_first_keys_sort_by_time; vm_compute; split; congruence.
Defined.
